(** * Cricket toss routes: bet placement, lifecycle and result declaration

    A shallow embedding of the three cricket toss route modules of the
    server:

    - [CricketToss]        server/cricket-toss.ts      (setupCricketTossRoutes,
                           routes under /api/cricket-toss-games);
    - [CricketTossApi]     server/cricket-toss-api.ts  (setupCricketTossApiRoutes,
                           routes under /api/cricket-toss, bets placed against
                           a team match);
    - [CricketTossApiSql]  the second setupCricketTossApiRoutes module, the
                           one that imports [pool] from ./db and writes the
                           result with a SQL UPDATE (its text follows the
                           user management page in
                           client/src/pages/user-management-page.tsx).

    Numbers are JavaScript numbers in the source, that is IEEE 754
    doubles.  Amounts, odds, balances and ids are integers in the smallest
    currency unit, so they are embedded as [Z]; NaN, which [parseInt] and
    [Number] produce and the handlers test for, is kept as a separate
    value.  Comparison, and subtraction of a stake from a balance that
    covers it, are exact on such doubles; the payout is a product and a
    quotient, which the host rounds, so it is computed on doubles, as
    specified by [SpecFloat] ([potentialPayout]).  A number that is not an
    integer (a stake of 10.5) has no counterpart in the embedding: what is
    proved about stakes is proved about integral stakes.

    Strings are sequences of UTF-16 code units in the source.  They are
    embedded as the bytes of their UTF-8 encoding, which is how a string
    literal of this file reads; [Js.length] counts the code units, and
    [Js.skip_spaces] knows the white space of the host by its bytes. *)

From Stdlib Require Import ZArith List String Ascii Bool Lia.
From Stdlib Require SpecFloat.
Import ListNotations.

Open Scope string_scope.
Open Scope list_scope.
Open Scope Z_scope.

(** ** JavaScript values reaching the handlers *)

Module Js.

Inductive Num : Type :=
| Int (z : Z)
| NaN.

Inductive Val : Type :=
| Undefined
| Null
| Boolean (b : bool)
| Number (n : Num)
| Str (s : string).

(** A JSON object, as [req.body]: the first binding of a key is the
    property's value, a missing key reads as [undefined]. *)
Definition Obj : Type := list (string * Val).

Fixpoint prop (o : Obj) (k : string) : Val :=
  match o with
  | [] => Undefined
  | (k', v) :: o' => if String.eqb k k' then v else prop o' k
  end.

(** [{ ...o, k: v }] *)
Definition spread_with (o : Obj) (k : string) (v : Val) : Obj := (k, v) :: o.

Definition isNaN (n : Num) : bool :=
  match n with NaN => true | Int _ => false end.

(** A byte, as a number. *)
Definition code (c : ascii) : Z := Z.of_nat (nat_of_ascii c).

(** The UTF-16 code units a byte of a UTF-8 string stands for: a byte
    that starts a character of one, two or three bytes stands for one
    unit, a byte that starts a character of four bytes for the two units
    of a surrogate pair, a continuation byte for none. *)
Definition units (c : ascii) : nat :=
  if code c <? 128 then 1%nat
  else if code c <? 192 then 0%nat
  else if code c <? 240 then 1%nat
  else 2%nat.

(** [s.length] *)
Fixpoint length (s : string) : nat :=
  match s with
  | EmptyString => 0%nat
  | String c s' => (units c + length s')%nat
  end.

(** White space and line terminators of one byte: TAB, LF, VT, FF, CR
    and the space. *)
Definition is_space (c : ascii) : bool :=
  let n := nat_of_ascii c in
  (Nat.eqb n 32 || (Nat.leb 9 n && Nat.leb n 13))%bool.

(** Of two bytes: U+00A0, the no-break space (C2 A0). *)
Definition is_space2 (c1 c2 : ascii) : bool :=
  (code c1 =? 194) && (code c2 =? 160).

(** Of three bytes: U+1680 (E1 9A 80); U+2000 to U+200A, the line and
    paragraph separators U+2028 and U+2029, and U+202F (E2 80 80..8A, A8,
    A9, AF); U+205F (E2 81 9F); U+3000 (E3 80 80); and U+FEFF, the byte
    order mark (EF BB BF). *)
Definition is_space3 (c1 c2 c3 : ascii) : bool :=
  ((code c1 =? 225) && (code c2 =? 154) && (code c3 =? 128))
  || ((code c1 =? 226) && (code c2 =? 128)
      && (((128 <=? code c3) && (code c3 <=? 138))
          || (code c3 =? 168) || (code c3 =? 169) || (code c3 =? 175)))
  || ((code c1 =? 226) && (code c2 =? 129) && (code c3 =? 159))
  || ((code c1 =? 227) && (code c2 =? 128) && (code c3 =? 128))
  || ((code c1 =? 239) && (code c2 =? 187) && (code c3 =? 191)).

Definition digit_of (c : ascii) : option Z :=
  let n := Z.of_nat (nat_of_ascii c) in
  if (48 <=? n) && (n <=? 57) then Some (n - 48) else None.

(** The string without its leading white space and line terminators
    (WhiteSpace and LineTerminator of the language, which is what
    [parseInt] strips). *)
Fixpoint skip_spaces (s : string) : string :=
  match s with
  | String c1 s1 =>
      if is_space c1 then skip_spaces s1
      else
        match s1 with
        | String c2 s2 =>
            if is_space2 c1 c2 then skip_spaces s2
            else
              match s2 with
              | String c3 s3 =>
                  if is_space3 c1 c2 c3 then skip_spaces s3 else s
              | EmptyString => s
              end
        | EmptyString => s
        end
  | EmptyString => s
  end.

(** Longest prefix of decimal digits, read left to right; [None] when
    the string does not start with a digit. *)
Fixpoint digits (acc : option Z) (s : string) : option Z :=
  match s with
  | String c s' =>
      match digit_of c with
      | Some d =>
          digits (Some (10 * match acc with Some a => a | None => 0 end + d)) s'
      | None => acc
      end
  | EmptyString => acc
  end.

(** [parseInt(s, 10)]: leading white space is skipped, one sign is read,
    then the longest run of decimal digits; no digit gives NaN.  The
    digits are read exactly (the host rounds a run beyond 2^53 to the
    nearest double). *)
Definition parseInt (s : string) : Num :=
  match skip_spaces s with
  | String "-" s' =>
      match digits None s' with Some z => Int (- z) | None => NaN end
  | String "+" s' =>
      match digits None s' with Some z => Int z | None => NaN end
  | s' =>
      match digits None s' with Some z => Int z | None => NaN end
  end.

(** *** Arithmetic on doubles

    Binary64: 53 bits of mantissa, exponents below 1024. *)
Definition prec : Z := 53.
Definition emax : Z := 1024.

(** The double nearest to an integer; every integer up to 2^53 is a
    double. *)
Definition double (z : Z) : SpecFloat.spec_float :=
  SpecFloat.binary_normalize prec emax z 0 false.

(** [x * y] *)
Definition mul : SpecFloat.spec_float -> SpecFloat.spec_float
                 -> SpecFloat.spec_float :=
  SpecFloat.SFmul prec emax.

(** [x / y] *)
Definition div : SpecFloat.spec_float -> SpecFloat.spec_float
                 -> SpecFloat.spec_float :=
  SpecFloat.SFdiv prec emax.

(** [Math.floor(x)] of a finite double, as an integer: the mantissa
    shifted by the exponent, toward minus infinity.  Infinity and NaN,
    which [Math.floor] returns as they are, are no integers; they read
    as 0 here. *)
Definition floor (x : SpecFloat.spec_float) : Z :=
  match x with
  | SpecFloat.S754_finite s m e => Z.shiftl (if s then Zneg m else Zpos m) e
  | _ => 0
  end.

(** The number of binary digits of a positive integer. *)
Definition bits (z : Z) : Z := Z.log2 z + 1.

(** A positive integer of at most 53 bits, written as a double of sign
    [s]: its mantissa brought to 53 bits. *)
Definition normal (s : bool) (z : Z) : SpecFloat.spec_float :=
  SpecFloat.S754_finite s (Z.to_pos (z * 2 ^ (53 - bits z))) (bits z - 53).

End Js.

(** ** Constants of @shared/schema *)

Module GameType.
(** Modelled from the spec: the enum GameType of @shared/schema is not
    among the sources; the game history table matches the cricket toss
    game type against this string. *)
Definition CRICKET_TOSS : string := "cricket_toss".
End GameType.

Module TeamMatchResult.
(** Modelled from the spec: the enum TeamMatchResult of @shared/schema is
    not among the sources; the validation messages of the handlers name
    its two members used here. *)
Definition TEAM_A : string := "team_a".
Definition TEAM_B : string := "team_b".
End TeamMatchResult.

(** ** Rows of the relational store *)

Module GameData.
(** The [gameData] blob of a games row: the fields the cricket toss
    handlers write and read. *)
Record t : Type := mk {
  teamA : string;
  teamB : string;
  description : string;
  tossTime : option string;
  matchTime : option string;
  oddTeamA : Z;
  oddTeamB : Z;
  imageUrl : option string;
  status : option string;
  tossGameId : option Z;
  matchId : option Z
}.
End GameData.

Module InsertGame.
(** The object handed to [storage.createGame]: a games row without id. *)
Record t : Type := mk {
  userId : Z;
  gameType : string;
  betAmount : Z;
  prediction : string;
  matchId : option Z;
  gameData : option GameData.t;
  status : option string;
  result : string;
  payout : Z
}.
End InsertGame.

Module Game.
Record t : Type := mk {
  id : Z;
  userId : Z;
  gameType : string;
  betAmount : Z;
  prediction : string;
  matchId : option Z;
  gameData : option GameData.t;
  status : option string;
  result : string;
  payout : Z
}.

Definition ofInsert (i : Z) (g : InsertGame.t) : t :=
  mk i (InsertGame.userId g) (InsertGame.gameType g) (InsertGame.betAmount g)
     (InsertGame.prediction g) (InsertGame.matchId g) (InsertGame.gameData g)
     (InsertGame.status g) (InsertGame.result g) (InsertGame.payout g).

Definition with_status (s : string) (g : t) : t :=
  mk (id g) (userId g) (gameType g) (betAmount g) (prediction g) (matchId g)
     (gameData g) (Some s) (result g) (payout g).

Definition with_result (r : string) (g : t) : t :=
  mk (id g) (userId g) (gameType g) (betAmount g) (prediction g) (matchId g)
     (gameData g) (status g) r (payout g).

(** [(game.gameData as any)?.status] *)
Definition gameDataStatus (g : t) : option string :=
  match gameData g with
  | Some d => GameData.status d
  | None => None
  end.
End Game.

Module User.
Record t : Type := mk {
  id : Z;
  role : string;
  balance : Z;
  isBlocked : bool
}.

Definition with_balance (b : Z) (u : t) : t :=
  mk (id u) (role u) b (isBlocked u).
End User.

Module TeamMatch.
Record t : Type := mk {
  id : Z;
  teamA : string;
  teamB : string;
  description : string;
  matchTime : option string;
  category : string;
  status : string;
  oddTeamA : Z;
  oddTeamB : Z
}.
End TeamMatch.

Record Store : Type := mkStore {
  games : list Game.t;
  users : list User.t;
  teamMatches : list TeamMatch.t;
  nextGameId : Z
}.

(** ** Requests and responses *)

Record Request : Type := mkRequest {
  user : option User.t;      (* req.user, set by the session layer *)
  params_id : string;        (* req.params.id *)
  body : Js.Obj              (* req.body *)
}.

(** The calls a handler awaits: the methods of [storage] it uses, and
    [pool.query]. *)
Inductive StorageOp : Type :=
| getGame_op | getUser_op | getTeamMatch_op
| createGame_op | updateUserBalance_op | updateGameStatus_op
| updateGameResult_op | poolQuery_op.

(** What can be thrown inside a handler: a rejected promise of one of
    these calls, or a property read on [null]. *)
Inductive Exn : Type :=
| Rejected (op : StorageOp)
| TypeError.

Inductive Body : Type :=
| Error (error : string)              (* { error } *)
| InvalidData                         (* { error: "Invalid data", details } *)
| UpdateFailed (e : Exn)   (* { error: "Failed to update game result", message } *)
| Message (message : string)          (* { message } *)
| GameJson (g : option Game.t)        (* the row, as res.json(row) sends it *)
| BetPlacedUser (bet : Game.t) (u : User.t)
| BetPlaced (bet : Game.t) (potentialPayout : Z).

Record Response : Type := json {
  code : Z;
  payload : Body
}.

(** How a request ends: a response was sent, or the error went to
    [next(err)]. *)
Inductive Reply : Type :=
| Sent (r : Response)
| Next (e : Exn).

(** ** The handler monad

    A handler body runs against the store; it goes on with a value,
    returns early with a response, or throws.  The store is threaded
    through and keeps every write made before the throw: the handlers
    open no transaction.  [faults] lists the storage operations whose
    promise rejects during this request. *)

Inductive Flow (A : Type) : Type :=
| Go (a : A)
| Return (r : Response)
| Throw (e : Exn).
Arguments Go {A} a.
Arguments Return {A} r.
Arguments Throw {A} e.

Definition Handler (A : Type) : Type :=
  list StorageOp -> Store -> Flow A * Store.

Definition ret {A} (a : A) : Handler A := fun _ s => (Go a, s).

Definition bind {A B} (m : Handler A) (k : A -> Handler B) : Handler B :=
  fun f s =>
    match m f s with
    | (Go a, s') => k a f s'
    | (Return r, s') => (Return r, s')
    | (Throw e, s') => (Throw e, s')
    end.

Declare Scope handler_scope.
Delimit Scope handler_scope with handler.
Notation "x <- m ;; k" := (bind m (fun x => k))
  (at level 100, m at next level, right associativity) : handler_scope.
Notation "m ;; k" := (bind m (fun _ => k))
  (at level 100, right associativity) : handler_scope.
Open Scope handler_scope.

(** [return res.status(c).json(b)] *)
Definition reply {A} (r : Response) : Handler A := fun _ s => (Return r, s).

Definition throw {A} (e : Exn) : Handler A := fun _ s => (Throw e, s).

(** [if (c) return res.status(..).json(..)] *)
Definition returnIf (c : bool) (r : Response) : Handler unit :=
  if c then reply r else ret tt.

(** [if (!x) return res.status(..).json(..)] on a value that may be
    undefined *)
Definition orReturn {A} (o : option A) (r : Response) : Handler A :=
  match o with
  | Some a => ret a
  | None => reply r
  end.

(** [try { m } catch (error) { return h(error) }] *)
Definition tryCatch {A} (m : Handler A) (h : Exn -> Response) : Handler A :=
  fun f s =>
    match m f s with
    | (Throw e, s') => (Return (h e), s')
    | other => other
    end.

(** The outer [try { ... } catch (err) { next(err) }] of every route. *)
Definition route (m : Handler Response) (f : list StorageOp) (s : Store)
  : Reply * Store :=
  match m f s with
  | (Go r, s') => (Sent r, s')
  | (Return r, s') => (Sent r, s')
  | (Throw e, s') => (Next e, s')
  end.

(** ** The storage layer *)

Definition StorageOp_eqb (a b : StorageOp) : bool :=
  match a, b with
  | getGame_op, getGame_op
  | getUser_op, getUser_op
  | getTeamMatch_op, getTeamMatch_op
  | createGame_op, createGame_op
  | updateUserBalance_op, updateUserBalance_op
  | updateGameStatus_op, updateGameStatus_op
  | updateGameResult_op, updateGameResult_op
  | poolQuery_op, poolQuery_op => true
  | _, _ => false
  end.

(** [await op]: the awaited promise rejects when [op] is among the
    faults of this request, and otherwise resolves with what [m] computes
    on the store. *)
Definition await {A} (op : StorageOp) (m : Store -> A * Store) : Handler A :=
  fun f s =>
    if existsb (StorageOp_eqb op) f then (Throw (Rejected op), s)
    else let (a, s') := m s in (Go a, s').

Definition hasId {R} (id : R -> Z) (i : Js.Num) (r : R) : bool :=
  match i with
  | Js.Int z => id r =? z
  | Js.NaN => false
  end.

Definition updateWhere {R} (p : R -> bool) (f : R -> R) (l : list R) : list R :=
  map (fun r => if p r then f r else r) l.

(** Reading the tables by primary key. *)
Definition lookupGame (s : Store) (i : Js.Num) : option Game.t :=
  find (hasId Game.id i) (games s).

Definition lookupUser (s : Store) (i : Z) : option User.t :=
  find (hasId User.id (Js.Int i)) (users s).

Definition lookupTeamMatch (s : Store) (i : Js.Num) : option TeamMatch.t :=
  find (hasId TeamMatch.id i) (teamMatches s).

Definition balanceOf (s : Store) (i : Z) : option Z :=
  option_map User.balance (lookupUser s i).

Module Storage.

(** Modelled from the spec: storage.getGame of ./storage is not among the
    sources; the games row with this id, undefined when there is none. *)
Definition getGame (i : Js.Num) : Handler (option Game.t) :=
  await getGame_op (fun s => (lookupGame s i, s)).

(** Modelled from the spec: storage.getUser of ./storage is not among the
    sources; the account with this id, undefined when there is none. *)
Definition getUser (i : Z) : Handler (option User.t) :=
  await getUser_op (fun s => (lookupUser s i, s)).

(** Modelled from the spec: storage.getTeamMatch of ./storage is not among
    the sources; the team match with this id, undefined when there is
    none. *)
Definition getTeamMatch (i : Js.Num) : Handler (option TeamMatch.t) :=
  await getTeamMatch_op (fun s => (lookupTeamMatch s i, s)).

(** Modelled from the spec: storage.createGame of ./storage is not among
    the sources; it inserts the row under a fresh id and returns it. *)
Definition createGame (g : InsertGame.t) : Handler Game.t :=
  await createGame_op
    (fun s =>
       let row := Game.ofInsert (nextGameId s) g in
       (row, mkStore (games s ++ [row]) (users s) (teamMatches s)
                     (nextGameId s + 1))).

(** Modelled from the spec: storage.updateUserBalance of ./storage is not
    among the sources; it sets the balance of the account with this id
    and returns the account. *)
Definition updateUserBalance (i : Z) (b : Z) : Handler (option User.t) :=
  await updateUserBalance_op
    (fun s =>
       let us := updateWhere (hasId User.id (Js.Int i)) (User.with_balance b)
                             (users s) in
       (find (hasId User.id (Js.Int i)) us,
        mkStore (games s) us (teamMatches s) (nextGameId s))).

(** Modelled from the spec: storage.updateGameStatus of ./storage is not
    among the sources; it sets the status of the games row with this id
    and returns the row. *)
Definition updateGameStatus (i : Js.Num) (st : string)
  : Handler (option Game.t) :=
  await updateGameStatus_op
    (fun s =>
       let gs := updateWhere (hasId Game.id i) (Game.with_status st)
                             (games s) in
       (find (hasId Game.id i) gs,
        mkStore gs (users s) (teamMatches s) (nextGameId s))).

(** Modelled from the spec: storage.updateGameResult of ./storage is not
    among the sources; it sets the result of the games row with this id
    and returns the row. *)
Definition updateGameResult (i : Js.Num) (r : string)
  : Handler (option Game.t) :=
  await updateGameResult_op
    (fun s =>
       let gs := updateWhere (hasId Game.id i) (Game.with_result r)
                             (games s) in
       (find (hasId Game.id i) gs,
        mkStore gs (users s) (teamMatches s) (nextGameId s))).

End Storage.

Module Pool.
(** [pool.query(`UPDATE games SET result = $1 WHERE id = $2 RETURNING *`,
    [result, gameId])]: the rows it returns are the updated ones. *)
Definition updateGamesResult (r : string) (i : Js.Num)
  : Handler (list Game.t) :=
  await poolQuery_op
    (fun s =>
       let gs := updateWhere (hasId Game.id i) (Game.with_result r)
                             (games s) in
       (filter (hasId Game.id i) gs,
        mkStore gs (users s) (teamMatches s) (nextGameId s))).
End Pool.

(** ** The zod schemas *)

Module Zod.

(** [z.string()] *)
Definition string_ (v : Js.Val) : option string :=
  match v with Js.Str s => Some s | _ => None end.

(** [z.string().min(n)]: zod compares [data.length], the number of
    UTF-16 code units. *)
Definition string_min (n : nat) (v : Js.Val) : option string :=
  match v with
  | Js.Str s => if Nat.leb n (Js.length s) then Some s else None
  | _ => None
  end.

(** [z.string().optional()] *)
Definition string_optional (v : Js.Val) : option (option string) :=
  match v with
  | Js.Undefined => Some None
  | Js.Str s => Some (Some s)
  | _ => None
  end.

(** [z.number().min(lo)]: NaN is not a number for zod.  Of the numbers
    zod lets through, the integers are the ones embedded. *)
Definition number_min (lo : Z) (v : Js.Val) : option Z :=
  match v with
  | Js.Number (Js.Int n) => if lo <=? n then Some n else None
  | _ => None
  end.

(** [z.number().min(lo).max(hi)] *)
Definition number_min_max (lo hi : Z) (v : Js.Val) : option Z :=
  match v with
  | Js.Number (Js.Int n) => if (lo <=? n) && (n <=? hi) then Some n else None
  | _ => None
  end.

Definition includes (l : list string) (s : string) : bool :=
  existsb (String.eqb s) l.

(** [z.string().refine(val => l.includes(val))] *)
Definition string_refine_includes (l : list string) (v : Js.Val)
  : option string :=
  match v with
  | Js.Str s => if includes l s then Some s else None
  | _ => None
  end.

(** [z.enum(l)] *)
Definition enum (l : list string) (v : Js.Val) : option string :=
  match v with
  | Js.Str s => if includes l s then Some s else None
  | _ => None
  end.

End Zod.

Record CreateCricketToss : Type := mkCreate {
  c_teamA : string;
  c_teamB : string;
  c_description : option string;
  c_tossTime : string;
  c_oddTeamA : Z;
  c_oddTeamB : Z;
  c_imageUrl : option string
}.

(** [createCricketTossSchema.safeParse]: the same schema text opens each
    of the three route modules.  [None] is [success === false]. *)
Definition createCricketTossSchema (b : Js.Obj) : option CreateCricketToss :=
  match Zod.string_min 2 (Js.prop b "teamA"),
        Zod.string_min 2 (Js.prop b "teamB"),
        Zod.string_optional (Js.prop b "description"),
        Zod.string_ (Js.prop b "tossTime"),
        Zod.number_min_max 100 2000 (Js.prop b "oddTeamA"),
        Zod.number_min_max 100 2000 (Js.prop b "oddTeamB"),
        Zod.string_optional (Js.prop b "imageUrl") with
  | Some a, Some b', Some d, Some t, Some oa, Some ob, Some i =>
      Some (mkCreate a b' d t oa ob i)
  | _, _, _, _, _, _, _ => None
  end.

(** [updateCricketTossStatusSchema.safeParse] *)
Definition updateCricketTossStatusSchema (b : Js.Obj) : option string :=
  Zod.string_refine_includes ["open"; "closed"; "resulted"] (Js.prop b "status").

Record Play : Type := mkPlay {
  betAmount : Z;
  betOn : string
}.

(** The body the play handlers validate: a [betAmount] sent as a string is
    read with [parseInt]. *)
Definition parsedBody (b : Js.Obj) : Js.Obj :=
  Js.spread_with b "betAmount"
    match Js.prop b "betAmount" with
    | Js.Str s => Js.Number (Js.parseInt s)
    | v => v
    end.

(** [x || ""] on an optional string *)
Definition orEmpty (o : option string) : string :=
  match o with
  | Some s => s
  | None => ""
  end.

(** [Math.floor((betAmount * odds) / 100)], on doubles: the product is
    rounded to a double, the quotient by 100 is rounded to a double, and
    the integer part of that is taken.  (A result that is not finite
    needs a product beyond 2^1024.) *)
Definition potentialPayout (betAmount odds : Z) : Z :=
  Js.floor (Js.div (Js.mul (Js.double betAmount) (Js.double odds))
                   (Js.double 100)).
Arguments potentialPayout : simpl never.

Definition isAdmin (u : User.t) : bool := String.eqb (User.role u) "admin".

(** ** server/cricket-toss.ts *)

Module CricketToss.

(** [playSchema.safeParse] *)
Definition playSchema (b : Js.Obj) : option Play :=
  match Zod.number_min 10 (Js.prop b "betAmount"),
        Zod.enum [TeamMatchResult.TEAM_A; TeamMatchResult.TEAM_B]
                 (Js.prop b "betOn") with
  | Some a, Some o => Some (mkPlay a o)
  | _, _ => None
  end.

(** POST /api/cricket-toss-games *)
Definition createGame (req : Request) : Handler Response :=
  u <- orReturn (user req)
         (json 403 (Message "Only admin can create cricket toss games")) ;;
  returnIf (negb (isAdmin u))
    (json 403 (Message "Only admin can create cricket toss games")) ;;
  d <- orReturn (createCricketTossSchema (body req)) (json 400 InvalidData) ;;
  let newGame :=
    InsertGame.mk (User.id u) GameType.CRICKET_TOSS 0 "pending" None
      (Some (GameData.mk (c_teamA d) (c_teamB d) (orEmpty (c_description d))
               (Some (c_tossTime d)) None (c_oddTeamA d) (c_oddTeamB d)
               (Some (orEmpty (c_imageUrl d))) (Some "open") None None))
      None "pending" 0 in
  createdGame <- Storage.createGame newGame ;;
  ret (json 201 (GameJson (Some createdGame))).

Section Play.

(** [Number(req.params.id)]: the conversion of the host, taken as it
    is. *)
Variable toNumber : string -> Js.Num.

(** POST /api/cricket-toss-games/:id/play *)
Definition play (req : Request) : Handler Response :=
  u0 <- orReturn (user req) (json 401 (Message "Unauthorized")) ;;
  returnIf (User.isBlocked u0)
    (json 403 (Message "Your account is blocked")) ;;
  let gameId := toNumber (params_id req) in
  d <- orReturn (playSchema (parsedBody (body req)))
         (json 400 (Message "Invalid bet amount or prediction")) ;;
  og <- Storage.getGame gameId ;;
  game <- orReturn og (json 404 (Message "Cricket Toss game not found")) ;;
  returnIf (negb (String.eqb (Game.gameType game) GameType.CRICKET_TOSS))
    (json 400 (Message "Game is not a Cricket Toss game")) ;;
  returnIf (negb match Game.gameDataStatus game with
                 | Some st => String.eqb st "open"
                 | None => false
                 end)
    (json 400 (Message "Game is not open for betting")) ;;
  ou <- Storage.getUser (User.id u0) ;;
  usr <- orReturn ou (json 404 (Message "User not found")) ;;
  returnIf (User.balance usr <? betAmount d)
    (json 400 (Message "Insufficient balance")) ;;
  Storage.updateUserBalance (User.id usr) (User.balance usr - betAmount d) ;;
  gameData <- match Game.gameData game with
              | Some gd => ret gd
              | None => throw TypeError
              end ;;
  let odds := if String.eqb (betOn d) TeamMatchResult.TEAM_A
              then GameData.oddTeamA gameData
              else GameData.oddTeamB gameData in
  let payout := potentialPayout (betAmount d) odds in
  let userBet :=
    InsertGame.mk (User.id usr) GameType.CRICKET_TOSS (betAmount d)
      (betOn d) None
      (Some (GameData.mk (GameData.teamA gameData) (GameData.teamB gameData)
               (GameData.description gameData) (GameData.tossTime gameData)
               None (GameData.oddTeamA gameData) (GameData.oddTeamB gameData)
               None (Some "pending") (Some (Game.id game)) None))
      None "pending" payout in
  createdBet <- Storage.createGame userBet ;;
  ret (json 201
         (BetPlacedUser createdBet
            (User.with_balance (User.balance usr - betAmount d) usr))).

End Play.

End CricketToss.

(** ** server/cricket-toss-api.ts *)

Module CricketTossApi.

(** [declareCricketTossResultSchema.safeParse] *)
Definition declareCricketTossResultSchema (b : Js.Obj) : option string :=
  Zod.string_refine_includes
    [TeamMatchResult.TEAM_A; TeamMatchResult.TEAM_B] (Js.prop b "result").

(** The middleware in front of the admin routes; [next()] runs the
    route. *)
Definition requireAdmin (req : Request) (next : Handler Response)
  : Handler Response :=
  match user req with
  | None => reply (json 401 (Error "Unauthorized"))
  | Some u =>
      if negb (isAdmin u)
      then reply (json 403 (Error "Forbidden. Admin role required."))
      else next
  end.

Definition playSchema (b : Js.Obj) : option Play :=
  match Zod.number_min 10 (Js.prop b "betAmount"),
        Zod.string_refine_includes
          [TeamMatchResult.TEAM_A; TeamMatchResult.TEAM_B]
          (Js.prop b "betOn") with
  | Some a, Some o => Some (mkPlay a o)
  | _, _ => None
  end.

(** POST /api/cricket-toss *)
Definition createGame (req : Request) : Handler Response :=
  requireAdmin req
    (d <- orReturn (createCricketTossSchema (body req))
            (json 400 InvalidData) ;;
     u <- match user req with
          | Some u => ret u
          | None => throw TypeError
          end ;;
     let newGame :=
       InsertGame.mk (User.id u) GameType.CRICKET_TOSS 0 "pending" None
         (Some (GameData.mk (c_teamA d) (c_teamB d)
                  (orEmpty (c_description d)) (Some (c_tossTime d)) None
                  (c_oddTeamA d) (c_oddTeamB d)
                  (Some (orEmpty (c_imageUrl d))) None None None))
         (Some "open") "pending" 0 in
     createdGame <- Storage.createGame newGame ;;
     ret (json 201 (GameJson (Some createdGame)))).

(** PATCH /api/cricket-toss/:id/status *)
Definition updateStatus (req : Request) : Handler Response :=
  requireAdmin req
    (let gameId := Js.parseInt (params_id req) in
     returnIf (Js.isNaN gameId) (json 400 (Error "Invalid game ID")) ;;
     status <- orReturn (updateCricketTossStatusSchema (body req))
                 (json 400 InvalidData) ;;
     og <- Storage.getGame gameId ;;
     game <- orReturn og (json 404 (Error "Cricket Toss game not found")) ;;
     returnIf (negb (String.eqb (Game.gameType game) GameType.CRICKET_TOSS))
       (json 400 (Error "Game is not a Cricket Toss game")) ;;
     updatedGame <- Storage.updateGameStatus gameId status ;;
     ret (json 200 (GameJson updatedGame))).

(** PATCH /api/cricket-toss/:id/result *)
Definition declareResult (req : Request) : Handler Response :=
  requireAdmin req
    (let gameId := Js.parseInt (params_id req) in
     returnIf (Js.isNaN gameId) (json 400 (Error "Invalid game ID")) ;;
     result <- orReturn (declareCricketTossResultSchema (body req))
                 (json 400 InvalidData) ;;
     og <- Storage.getGame gameId ;;
     game <- orReturn og (json 404 (Error "Cricket Toss game not found")) ;;
     returnIf (negb (String.eqb (Game.gameType game) GameType.CRICKET_TOSS))
       (json 400 (Error "Game is not a Cricket Toss game")) ;;
     updatedGame <- Storage.updateGameResult gameId result ;;
     Storage.updateGameStatus gameId "resulted" ;;
     ret (json 200 (GameJson updatedGame))).

(** POST /api/cricket-toss/:id/play *)
Definition play (req : Request) : Handler Response :=
  let gameId := Js.parseInt (params_id req) in
  returnIf (Js.isNaN gameId) (json 400 (Error "Invalid game ID")) ;;
  u0 <- orReturn (user req) (json 401 (Error "You must be logged in to play")) ;;
  d <- orReturn (playSchema (parsedBody (body req)))
         (json 400 (Message "Invalid bet amount or prediction")) ;;
  om <- Storage.getTeamMatch gameId ;;
  mtch <- orReturn om (json 404 (Message "Cricket Toss match not found")) ;;
  returnIf (negb (String.eqb (TeamMatch.category mtch) "cricket"))
    (json 400 (Message "Match is not a Cricket Toss match")) ;;
  returnIf (negb (String.eqb (TeamMatch.status mtch) "open"))
    (json 400 (Message "Match is not open for betting")) ;;
  ou <- Storage.getUser (User.id u0) ;;
  usr <- orReturn ou (json 404 (Message "User not found")) ;;
  returnIf (User.balance usr <? betAmount d)
    (json 400 (Message "Insufficient balance")) ;;
  Storage.updateUserBalance (User.id usr) (User.balance usr - betAmount d) ;;
  let odds := if String.eqb (betOn d) TeamMatchResult.TEAM_A
              then TeamMatch.oddTeamA mtch
              else TeamMatch.oddTeamB mtch in
  let payout := potentialPayout (betAmount d) odds in
  let userBet :=
    InsertGame.mk (User.id usr) GameType.CRICKET_TOSS (betAmount d)
      (betOn d) (Some (TeamMatch.id mtch))
      (Some (GameData.mk (TeamMatch.teamA mtch) (TeamMatch.teamB mtch)
               (TeamMatch.description mtch) None (TeamMatch.matchTime mtch)
               (TeamMatch.oddTeamA mtch) (TeamMatch.oddTeamB mtch)
               None (Some "pending") None (Some (TeamMatch.id mtch))))
      None "pending" payout in
  createdBet <- Storage.createGame userBet ;;
  ret (json 201 (BetPlaced createdBet payout)).

End CricketTossApi.

(** ** The setupCricketTossApiRoutes module that imports [pool] *)

Module CricketTossApiSql.

Definition declareCricketTossResultSchema (b : Js.Obj) : option string :=
  Zod.enum [TeamMatchResult.TEAM_A; TeamMatchResult.TEAM_B]
           (Js.prop b "result").

Definition requireAdmin (req : Request) (next : Handler Response)
  : Handler Response :=
  match user req with
  | None => reply (json 401 (Error "Unauthorized"))
  | Some u =>
      if negb (isAdmin u)
      then reply (json 403 (Error "Forbidden. Admin role required."))
      else next
  end.

Definition playSchema (b : Js.Obj) : option Play :=
  match Zod.number_min 10 (Js.prop b "betAmount"),
        Zod.enum [TeamMatchResult.TEAM_A; TeamMatchResult.TEAM_B]
                 (Js.prop b "betOn") with
  | Some a, Some o => Some (mkPlay a o)
  | _, _ => None
  end.

(** POST /api/cricket-toss *)
Definition createGame (req : Request) : Handler Response :=
  requireAdmin req
    (d <- orReturn (createCricketTossSchema (body req))
            (json 400 InvalidData) ;;
     u <- match user req with
          | Some u => ret u
          | None => throw TypeError
          end ;;
     let newGame :=
       InsertGame.mk (User.id u) GameType.CRICKET_TOSS 0 "pending" None
         (Some (GameData.mk (c_teamA d) (c_teamB d)
                  (orEmpty (c_description d)) (Some (c_tossTime d)) None
                  (c_oddTeamA d) (c_oddTeamB d)
                  (Some (orEmpty (c_imageUrl d))) None None None))
         (Some "open") "pending" 0 in
     createdGame <- Storage.createGame newGame ;;
     ret (json 201 (GameJson (Some createdGame)))).

(** PATCH /api/cricket-toss/:id/status *)
Definition updateStatus (req : Request) : Handler Response :=
  requireAdmin req
    (let gameId := Js.parseInt (params_id req) in
     returnIf (Js.isNaN gameId) (json 400 (Error "Invalid game ID")) ;;
     status <- orReturn (updateCricketTossStatusSchema (body req))
                 (json 400 InvalidData) ;;
     og <- Storage.getGame gameId ;;
     game <- orReturn og (json 404 (Error "Cricket Toss game not found")) ;;
     returnIf (negb (String.eqb (Game.gameType game) GameType.CRICKET_TOSS))
       (json 400 (Error "Game is not a Cricket Toss game")) ;;
     updatedGame <- Storage.updateGameStatus gameId status ;;
     ret (json 200 (GameJson updatedGame))).

(** PATCH /api/cricket-toss/:id/result *)
Definition declareResult (req : Request) : Handler Response :=
  requireAdmin req
    (let gameId := Js.parseInt (params_id req) in
     returnIf (Js.isNaN gameId) (json 400 (Error "Invalid game ID")) ;;
     result <- orReturn (declareCricketTossResultSchema (body req))
                 (json 400 InvalidData) ;;
     og <- Storage.getGame gameId ;;
     game <- orReturn og (json 404 (Error "Cricket Toss game not found")) ;;
     returnIf (negb (String.eqb (Game.gameType game) GameType.CRICKET_TOSS))
       (json 400 (Error "Game is not a Cricket Toss game")) ;;
     tryCatch
       (rows <- Pool.updateGamesResult result gameId ;;
        returnIf (Nat.eqb (List.length rows) 0)
          (json 404 (Error "Game not found or could not be updated")) ;;
        oug <- Storage.getGame gameId ;;
        updatedGame <- orReturn oug
                         (json 500 (Error "Failed to retrieve updated game")) ;;
        ret (json 200 (GameJson (Some updatedGame))))
       (fun error => json 500 (UpdateFailed error))).

(** POST /api/cricket-toss/:id/play *)
Definition play (req : Request) : Handler Response :=
  let gameId := Js.parseInt (params_id req) in
  returnIf (Js.isNaN gameId) (json 400 (Error "Invalid game ID")) ;;
  u0 <- orReturn (user req) (json 401 (Error "You must be logged in to play")) ;;
  d <- orReturn (playSchema (parsedBody (body req)))
         (json 400 (Message "Invalid bet amount or prediction")) ;;
  og <- Storage.getGame gameId ;;
  game <- orReturn og (json 404 (Message "Cricket Toss game not found")) ;;
  returnIf (negb (String.eqb (Game.gameType game) GameType.CRICKET_TOSS))
    (json 400 (Message "Game is not a Cricket Toss game")) ;;
  returnIf (negb match Game.gameDataStatus game with
                 | Some st => String.eqb st "open"
                 | None => false
                 end)
    (json 400 (Message "Game is not open for betting")) ;;
  ou <- Storage.getUser (User.id u0) ;;
  usr <- orReturn ou (json 404 (Message "User not found")) ;;
  returnIf (User.balance usr <? betAmount d)
    (json 400 (Message "Insufficient balance")) ;;
  Storage.updateUserBalance (User.id usr) (User.balance usr - betAmount d) ;;
  gameData <- match Game.gameData game with
              | Some gd => ret gd
              | None => throw TypeError
              end ;;
  let odds := if String.eqb (betOn d) TeamMatchResult.TEAM_A
              then GameData.oddTeamA gameData
              else GameData.oddTeamB gameData in
  let payout := potentialPayout (betAmount d) odds in
  let userBet :=
    InsertGame.mk (User.id usr) GameType.CRICKET_TOSS (betAmount d)
      (betOn d) None
      (Some (GameData.mk (GameData.teamA gameData) (GameData.teamB gameData)
               (GameData.description gameData) (GameData.tossTime gameData)
               None (GameData.oddTeamA gameData) (GameData.oddTeamB gameData)
               None (Some "pending") (Some (Game.id game)) None))
      None "pending" payout in
  createdBet <- Storage.createGame userBet ;;
  ret (json 201 (BetPlaced createdBet payout)).

End CricketTossApiSql.

(** ** The routes as one system *)

(** The three routes that place a bet. *)
Inductive PlayRoute : Type :=
| GamesPlay      (* POST /api/cricket-toss-games/:id/play, cricket-toss.ts *)
| ApiPlay        (* POST /api/cricket-toss/:id/play, cricket-toss-api.ts *)
| ApiSqlPlay.    (* POST /api/cricket-toss/:id/play, the module with pool *)

Definition placeBet (toNumber : string -> Js.Num) (p : PlayRoute)
  (req : Request) : Handler Response :=
  match p with
  | GamesPlay => CricketToss.play toNumber req
  | ApiPlay => CricketTossApi.play req
  | ApiSqlPlay => CricketTossApiSql.play req
  end.

Definition playSchemaOf (p : PlayRoute) : Js.Obj -> option Play :=
  match p with
  | GamesPlay => CricketToss.playSchema
  | ApiPlay => CricketTossApi.playSchema
  | ApiSqlPlay => CricketTossApiSql.playSchema
  end.

(** The game instance a placement is made against: a cricket toss games
    row for two of the routes, a cricket team match for the third. *)
Inductive Target : Type :=
| OnGame (g : Game.t)
| OnMatch (m : TeamMatch.t).

Definition cricketGame (s : Store) (i : Js.Num) : option Target :=
  match lookupGame s i with
  | Some g =>
      if String.eqb (Game.gameType g) GameType.CRICKET_TOSS
      then Some (OnGame g) else None
  | None => None
  end.

Definition cricketMatch (s : Store) (i : Js.Num) : option Target :=
  match lookupTeamMatch s i with
  | Some m =>
      if String.eqb (TeamMatch.category m) "cricket"
      then Some (OnMatch m) else None
  | None => None
  end.

Definition target (toNumber : string -> Js.Num) (p : PlayRoute)
  (req : Request) (s : Store) : option Target :=
  match p with
  | GamesPlay => cricketGame s (toNumber (params_id req))
  | ApiPlay => cricketMatch s (Js.parseInt (params_id req))
  | ApiSqlPlay => cricketGame s (Js.parseInt (params_id req))
  end.

Definition targetStatus (t : Target) : option string :=
  match t with
  | OnGame g => Game.gameDataStatus g
  | OnMatch m => Some (TeamMatch.status m)
  end.

Definition isOpen (t : Target) : bool :=
  match targetStatus t with
  | Some st => String.eqb st "open"
  | None => false
  end.

(** The odds of the side a bet is on, as the play routes pick them. *)
Definition targetOdds (t : Target) (betOn : string) : option Z :=
  match t with
  | OnGame g =>
      match Game.gameData g with
      | Some d =>
          Some (if String.eqb betOn TeamMatchResult.TEAM_A
                then GameData.oddTeamA d else GameData.oddTeamB d)
      | None => None
      end
  | OnMatch m =>
      Some (if String.eqb betOn TeamMatchResult.TEAM_A
            then TeamMatch.oddTeamA m else TeamMatch.oddTeamB m)
  end.

(** Whether the route lets this session user bet at all: only
    cricket-toss.ts looks at [isBlocked]. *)
Definition mayBet (p : PlayRoute) (u : User.t) : bool :=
  match p with
  | GamesPlay => negb (User.isBlocked u)
  | ApiPlay | ApiSqlPlay => true
  end.

Definition notOpen (p : PlayRoute) : Response :=
  match p with
  | GamesPlay | ApiSqlPlay => json 400 (Message "Game is not open for betting")
  | ApiPlay => json 400 (Message "Match is not open for betting")
  end.


Definition accountBlocked : Response :=
  json 403 (Message "Your account is blocked").

(** The bet row of a response that reports a placed bet. *)
Definition placedBet (r : Response) : option Game.t :=
  match payload r with
  | BetPlacedUser bet _ => Some bet
  | BetPlaced bet _ => Some bet
  | _ => None
  end.

(** The routes that create a game template. *)
Inductive CreateRoute : Type := GamesCreate | ApiCreate | ApiSqlCreate.

Definition createGame (c : CreateRoute) (req : Request) : Handler Response :=
  match c with
  | GamesCreate => CricketToss.createGame req
  | ApiCreate => CricketTossApi.createGame req
  | ApiSqlCreate => CricketTossApiSql.createGame req
  end.

(** The two modules with lifecycle routes. *)
Inductive ApiModule : Type := Api | ApiSql.

Definition updateStatus (m : ApiModule) (req : Request) : Handler Response :=
  match m with
  | Api => CricketTossApi.updateStatus req
  | ApiSql => CricketTossApiSql.updateStatus req
  end.

Definition declareResult (m : ApiModule) (req : Request) : Handler Response :=
  match m with
  | Api => CricketTossApi.declareResult req
  | ApiSql => CricketTossApiSql.declareResult req
  end.

Definition declareSchemaOf (m : ApiModule) : Js.Obj -> option string :=
  match m with
  | Api => CricketTossApi.declareCricketTossResultSchema
  | ApiSql => CricketTossApiSql.declareCricketTossResultSchema
  end.

(** Every state-changing cricket toss route. *)
Inductive Route : Type :=
| Create (c : CreateRoute)
| Status (m : ApiModule)
| Result (m : ApiModule)
| Bet (p : PlayRoute).

Definition handler (toNumber : string -> Js.Num) (r : Route) (req : Request)
  : Handler Response :=
  match r with
  | Create c => createGame c req
  | Status m => updateStatus m req
  | Result m => declareResult m req
  | Bet p => placeBet toNumber p req
  end.

Record Call : Type := mkCall {
  c_route : Route;
  c_request : Request;
  c_faults : list StorageOp
}.

Definition serve (toNumber : string -> Js.Num) (c : Call) (s : Store)
  : Reply * Store :=
  route (handler toNumber (c_route c) (c_request c)) (c_faults c) s.

(** The store after a sequence of requests, served one after the other. *)
Definition run (toNumber : string -> Js.Num) (cs : list Call) (s : Store)
  : Store :=
  fold_left (fun s' c => snd (serve toNumber c s')) cs s.

(** A game template is a cricket toss row that is not an actual bet: its
    [betAmount] is 0. *)
Definition isTemplate (g : Game.t) : bool :=
  String.eqb (Game.gameType g) GameType.CRICKET_TOSS && (Game.betAmount g =? 0).

Definition inRange (o : Z) : bool := (100 <=? o) && (o <=? 2000).

Definition oddsInRange (g : Game.t) : bool :=
  match Game.gameData g with
  | Some d => inRange (GameData.oddTeamA d) && inRange (GameData.oddTeamB d)
  | None => false
  end.

Definition templatesInRange (s : Store) : Prop :=
  Forall (fun g => isTemplate g = true -> oddsInRange g = true) (games s).

(** A request is made by an admin. *)
Definition byAdmin (req : Request) : bool :=
  match user req with
  | Some u => isAdmin u
  | None => false
  end.

(** The rows of [s] are still there in [s'], id, stake, prediction, game
    data and payout as they were, in the same order; [s'] may have more
    rows after them. *)
Definition sameBet (g g' : Game.t) : Prop :=
  Game.id g' = Game.id g /\ Game.userId g' = Game.userId g /\
  Game.gameType g' = Game.gameType g /\ Game.betAmount g' = Game.betAmount g /\
  Game.prediction g' = Game.prediction g /\ Game.gameData g' = Game.gameData g /\
  Game.payout g' = Game.payout g.

Definition rowsKept (s s' : Store) : Prop :=
  exists kept more,
    games s' = kept ++ more /\ Forall2 sameBet (games s) kept.

(** What a successful placement by account [u] leaves behind: one more
    row, the bet, and the account debited by the stake. *)
Record Placed (s : Store) (u : User.t) (d : Play) (odds : Z) (bet : Game.t)
  (s' : Store) : Prop := mkPlaced {
  placed_row : games s' = games s ++ [bet];
  placed_debit : balanceOf s' (User.id u) = Some (User.balance u - betAmount d);
  placed_owner : Game.userId bet = User.id u;
  placed_amount : Game.betAmount bet = betAmount d;
  placed_prediction : Game.prediction bet = betOn d;
  placed_result : Game.result bet = "pending";
  placed_status : Game.gameDataStatus bet = Some "pending";
  placed_payout : Game.payout bet = potentialPayout (betAmount d) odds
}.

(** The game row a result declaration leaves: the module with the status
    column also marks it resulted. *)
Definition declared (m : ApiModule) (r : string) (g : Game.t) : Game.t :=
  match m with
  | Api => Game.with_status "resulted" (Game.with_result r g)
  | ApiSql => Game.with_result r g
  end.

(** Row [g'] is row [g] after a write addressed to id [i]: a bet keeps
    its fields, and a row with another id is not touched at all. *)
Definition touched (i : Js.Num) (g g' : Game.t) : Prop :=
  sameBet g g' /\ (hasId Game.id i g = false -> g' = g).

(** ** A small world to run the routes in *)

Definition admin : User.t := User.mk 1 "admin" 0 false.
Definition alice : User.t := User.mk 7 "player" 1000 false.
Definition mallory : User.t := User.mk 8 "player" 1000 true.

Definition tossData (st : string) : GameData.t :=
  GameData.mk "India" "Australia" "" (Some "2025-03-01T09:30") None
    150 200 (Some "") (Some st) None None.

(** Game 3, its status written both ways the modules read it. *)
Definition toss (st result : string) : Game.t :=
  Game.mk 3 1 GameType.CRICKET_TOSS 0 "pending" None (Some (tossData st))
    (Some st) result 0.

Definition tossMatch (st : string) : TeamMatch.t :=
  TeamMatch.mk 3 "India" "Australia" "" None "cricket" st 150 200.

Definition world (st result : string) : Store :=
  mkStore [toss st result] [admin; alice; mallory] [tossMatch st] 4.

Definition openWorld : Store := world "open" "pending".
Definition resultedWorld : Store := world "resulted" "team_a".

Definition betBody (amount : Z) (side : string) : Js.Obj :=
  [("betAmount", Js.Number (Js.Int amount)); ("betOn", Js.Str side)].

Definition betRequest (u : User.t) (amount : Z) : Request :=
  mkRequest (Some u) "3" (betBody amount TeamMatchResult.TEAM_A).

Definition resultRequest (r : string) : Request :=
  mkRequest (Some admin) "3" [("result", Js.Str r)].

Definition statusRequest (st : string) : Request :=
  mkRequest (Some admin) "3" [("status", Js.Str st)].

Definition createRequest (u : User.t) (oddA oddB : Z) : Request :=
  mkRequest (Some u) ""
    [("teamA", Js.Str "India"); ("teamB", Js.Str "Australia");
     ("tossTime", Js.Str "2025-03-01T09:30");
     ("oddTeamA", Js.Number (Js.Int oddA)); ("oddTeamB", Js.Number (Js.Int oddB))].

(** A bet of 1000 on team_a by account [owner], as each play route stores
    it in [openWorld]. *)
Definition betRow (p : PlayRoute) (owner : Z) : Game.t :=
  Game.mk 4 owner GameType.CRICKET_TOSS 1000 TeamMatchResult.TEAM_A
    match p with ApiPlay => Some 3 | _ => None end
    (Some match p with
          | ApiPlay =>
              GameData.mk "India" "Australia" "" None None 150 200 None
                (Some "pending") None (Some 3)
          | _ =>
              GameData.mk "India" "Australia" "" (Some "2025-03-01T09:30") None
                150 200 None (Some "pending") (Some 3) None
          end)
    None "pending" 1500.

(** The status code of the response a request ended with, if it ended
    with one. *)
Definition replyCode (r : Reply) : option Z :=
  match r with
  | Sent resp => Some (code resp)
  | Next _ => None
  end.

(** The bet a request ended with, if it reported one. *)
Definition replyBet (r : Reply) : option Game.t :=
  match r with
  | Sent resp => placedBet resp
  | Next _ => None
  end.

Definition closedWorld : Store := world "closed" "pending".

(** Account [u] places a bet of [amount] on team_a in [openWorld] through
    route [p].  The id in the path is "3", on which [Number] and
    [parseInt] agree. *)
Definition afterBet (p : PlayRoute) (u : User.t) (amount : Z) : Reply * Store :=
  route (placeBet Js.parseInt p (betRequest u amount)) [] openWorld.

(** The admin declares result [r] for game 3 through module [m]. *)
Definition declaredIn (m : ApiModule) (r : string) (s : Store) : Reply * Store :=
  route (declareResult m (resultRequest r)) [] s.

(** The admin sets the status of game 3 through module [m]. *)
Definition statusSetIn (m : ApiModule) (st : string) (s : Store) : Reply * Store :=
  route (updateStatus m (statusRequest st)) [] s.

(** Account [u] places a bet of [amount] on team_a against instance 3 of
    store [s] through route [p]. *)
Definition betIn (p : PlayRoute) (u : User.t) (amount : Z) (s : Store)
  : Reply * Store :=
  route (placeBet Js.parseInt p (betRequest u amount)) [] s.

(** [openWorld] after the admin closed game 3 through the status route of
    cricket-toss-api.ts. *)
Definition closedByRoute : Store := snd (statusSetIn Api "closed" openWorld).

(** [openWorld] after the admin declared team_a for game 3 through the
    result route of module [m]. *)
Definition resultedByRoute (m : ApiModule) : Store :=
  snd (declaredIn m "team_a" openWorld).

(** An account that covers a stake whose product with the odds passes
    2^53, and instance 3 at odds 111 for team_a; the team match carries a
    negative odd for team_b. *)
Definition whale : User.t := User.mk 9 "player" 100000000000000 false.

Definition highStake : Z := 81145939231909.

Definition highStakesWorld : Store :=
  mkStore
    [Game.mk 3 1 GameType.CRICKET_TOSS 0 "pending" None
       (Some (GameData.mk "India" "Australia" "" (Some "2025-03-01T09:30") None
                111 200 (Some "") (Some "open") None None))
       (Some "open") "pending" 0]
    [admin; alice; whale]
    [TeamMatch.mk 3 "India" "Australia" "" None "cricket" "open" 111 (-15)]
    4.

(** The payout of the bet a request ended with. *)
Definition replyPayout (r : Reply) : option Z :=
  option_map Game.payout (replyBet r).

(** ** The read routes *)

(** How a listing route ends: [res.json(rows)], or the rejection of
    [storage.getAllGames] went to [next(err)]. *)
Inductive Listing : Type :=
| Rows (l : list Game.t)
| ListingFailed.

(** Modelled from the spec: storage.getAllGames of ./storage is not among
    the sources; every row of the games table, in table order.  [rejects]
    says whether the promise rejects during this request. *)
Definition getAllGames (rejects : bool) (s : Store)
  : option (list Game.t) * Store :=
  if rejects then (None, s) else (Some (games s), s).

(** [const rows = allGames.filter(keep); res.json(rows)] inside the
    route's [try], [next(err)] in its [catch]. *)
Definition listing (keep : Game.t -> bool) (rejects : bool) (s : Store)
  : Listing * Store :=
  match getAllGames rejects s with
  | (Some allGames, s') => (Rows (filter keep allGames), s')
  | (None, s') => (ListingFailed, s')
  end.

(** [!game.matchId]: no match id, or the id 0. *)
Definition noMatchId (g : Game.t) : bool :=
  match Game.matchId g with
  | None => true
  | Some z => z =? 0
  end.

Definition isCricketToss (g : Game.t) : bool :=
  String.eqb (Game.gameType g) GameType.CRICKET_TOSS.

Definition gameDataOpen (g : Game.t) : bool :=
  match Game.gameDataStatus g with
  | Some st => String.eqb st "open"
  | None => false
  end.

Module CricketTossReads.

(** The filter of GET /api/cricket-toss-games. *)
Definition isListed (game : Game.t) : bool :=
  isCricketToss game && (Game.userId game =? 1) && noMatchId game.

(** The filter of GET /api/cricket-toss-games/active. *)
Definition isActive (game : Game.t) : bool :=
  isCricketToss game && (Game.userId game =? 1) && noMatchId game
  && gameDataOpen game.

Definition getGames : bool -> Store -> Listing * Store := listing isListed.

Definition getActiveGames : bool -> Store -> Listing * Store :=
  listing isActive.

End CricketTossReads.

Module CricketTossApiReads.

(** The filter of GET /api/cricket-toss. *)
Definition isListed (game : Game.t) : bool := isCricketToss game.

(** The filter of GET /api/cricket-toss/active: the status column. *)
Definition isActive (game : Game.t) : bool :=
  isCricketToss game &&
  match Game.status game with
  | Some st => String.eqb st "open"
  | None => false
  end.

Definition getGames : bool -> Store -> Listing * Store := listing isListed.

Definition getActiveGames : bool -> Store -> Listing * Store :=
  listing isActive.

(** GET /api/cricket-toss/:id *)
Definition getGame (req : Request) : Handler Response :=
  let gameId := Js.parseInt (params_id req) in
  returnIf (Js.isNaN gameId) (json 400 (Error "Invalid game ID")) ;;
  og <- Storage.getGame gameId ;;
  game <- orReturn og (json 404 (Error "Cricket Toss game not found")) ;;
  returnIf (negb (String.eqb (Game.gameType game) GameType.CRICKET_TOSS))
    (json 400 (Error "Game is not a Cricket Toss game")) ;;
  ret (json 200 (GameJson (Some game))).

End CricketTossApiReads.

Module CricketTossApiSqlReads.

(** The filter of GET /api/cricket-toss. *)
Definition isListed (game : Game.t) : bool := isCricketToss game.

(** The filter of GET /api/cricket-toss/active: the status inside the
    game data. *)
Definition isActive (game : Game.t) : bool :=
  isCricketToss game && gameDataOpen game.

Definition getGames : bool -> Store -> Listing * Store := listing isListed.

Definition getActiveGames : bool -> Store -> Listing * Store :=
  listing isActive.

(** GET /api/cricket-toss/:id *)
Definition getGame (req : Request) : Handler Response :=
  let gameId := Js.parseInt (params_id req) in
  returnIf (Js.isNaN gameId) (json 400 (Error "Invalid game ID")) ;;
  og <- Storage.getGame gameId ;;
  game <- orReturn og (json 404 (Error "Cricket Toss game not found")) ;;
  returnIf (negb (String.eqb (Game.gameType game) GameType.CRICKET_TOSS))
    (json 400 (Error "Game is not a Cricket Toss game")) ;;
  ret (json 200 (GameJson (Some game))).

End CricketTossApiSqlReads.

(** The six listing routes. *)
Inductive ListRoute : Type :=
| GamesList | GamesActive
| ApiList | ApiActive
| ApiSqlList | ApiSqlActive.

Definition listFilter (l : ListRoute) : Game.t -> bool :=
  match l with
  | GamesList => CricketTossReads.isListed
  | GamesActive => CricketTossReads.isActive
  | ApiList => CricketTossApiReads.isListed
  | ApiActive => CricketTossApiReads.isActive
  | ApiSqlList => CricketTossApiSqlReads.isListed
  | ApiSqlActive => CricketTossApiSqlReads.isActive
  end.

Definition getList (l : ListRoute) : bool -> Store -> Listing * Store :=
  match l with
  | GamesList => CricketTossReads.getGames
  | GamesActive => CricketTossReads.getActiveGames
  | ApiList => CricketTossApiReads.getGames
  | ApiActive => CricketTossApiReads.getActiveGames
  | ApiSqlList => CricketTossApiSqlReads.getGames
  | ApiSqlActive => CricketTossApiSqlReads.getActiveGames
  end.

(** The rows a listing route answers with when [storage.getAllGames]
    resolves. *)
Definition listed (l : ListRoute) (s : Store) : list Game.t :=
  match fst (getList l false s) with
  | Rows rows => rows
  | ListingFailed => []
  end.

Definition getOne (m : ApiModule) (req : Request) : Handler Response :=
  match m with
  | Api => CricketTossApiReads.getGame req
  | ApiSql => CricketTossApiSqlReads.getGame req
  end.

(** ** The game history table (client) *)

Module GameHistoryTable.

(** [const displayGames = showFullHistory ? games : games.slice(0, 10)] *)
Definition displayGames (showFullHistory : bool) (games : list Game.t)
  : list Game.t :=
  if showFullHistory then games else firstn 10 games.

(** [const isWin = game.payout > 0] *)
Definition isWin (game : Game.t) : bool := Game.payout game >? 0.

(** The amount of the Profit/Loss cell,
    [isWin ? game.payout - game.betAmount : -game.betAmount], before it is
    divided by 100 and printed with two decimals. *)
Definition profitLoss (game : Game.t) : Z :=
  if isWin game then Game.payout game - Game.betAmount game
  else - Game.betAmount game.

(** The sign printed in front of the amount: [isWin ? "+" : ""]. *)
Definition sign (game : Game.t) : string :=
  if isWin game then "+" else EmptyString.

(** [s.replace(/_/g, ' ')] *)
Fixpoint replaceUnderscores (s : string) : string :=
  match s with
  | EmptyString => EmptyString
  | String c s' =>
      String (if Ascii.eqb c "_" then " "%char else c) (replaceUnderscores s')
  end.

Definition formatGameType (gameType : string) : string :=
  if String.eqb gameType "coin_flip" then "Coin Flip"
  else if String.eqb gameType "satamatka" then "Satamatka"
  else if String.eqb gameType "team_match" then "Team Match"
  else if String.eqb gameType "cricket_toss" then "Cricket Toss"
  else replaceUnderscores gameType.

(** [formatGameMode]: a missing or empty mode prints as nothing. *)
Definition formatGameMode (gameMode : option string) : string :=
  match gameMode with
  | None => EmptyString
  | Some m =>
      if String.eqb m EmptyString then EmptyString
      else if String.eqb m "jodi" then "Jodi"
      else if String.eqb m "harf" then "Harf"
      else if String.eqb m "crossing" then "Crossing"
      else if String.eqb m "odd_even" then "Odd/Even"
      else replaceUnderscores m
  end.

End GameHistoryTable.

(** ** Vocabulary of the further properties *)

(** The routes behind the admin check. *)
Definition adminOnly (r : Route) : bool :=
  match r with
  | Create _ | Status _ | Result _ => true
  | Bet _ => false
  end.


Definition invalidGameId : Response := json 400 (Error "Invalid game ID").

Definition invalidBet : Response :=
  json 400 (Message "Invalid bet amount or prediction").

Definition gameNotFound : Response :=
  json 404 (Error "Cricket Toss game not found").

Definition notCricketToss : Response :=
  json 400 (Error "Game is not a Cricket Toss game").

(** No account is overdrawn. *)
Definition solvent (s : Store) : Prop :=
  Forall (fun u => 0 <= User.balance u) (users s).

(** The id a create route will give the next row is not taken. *)
Definition freshId (s : Store) : Prop :=
  lookupGame s (Js.Int (nextGameId s)) = None.

(** The odds of the side named in a create request. *)
Definition createdOdds (d : CreateCricketToss) (side : string) : Z :=
  if String.eqb side TeamMatchResult.TEAM_A then c_oddTeamA d else c_oddTeamB d.

(** Whether character [c] occurs in [s]. *)
Fixpoint mentions (c : ascii) (s : string) : bool :=
  match s with
  | EmptyString => false
  | String c' s' => Ascii.eqb c c' || mentions c s'
  end.

(** * Properties *)

(** ** Rows and lookups *)

Lemma find_updateWhere {R} (p : R -> bool) (f : R -> R) (l : list R) :
  (forall r, p (f r) = p r) ->
  find p (updateWhere p f l) = option_map f (find p l).
Proof.
  intros Hp. induction l as [|r l IH]; simpl; [reflexivity|].
  destruct (p r) eqn:E.
  - rewrite Hp, E. reflexivity.
  - rewrite E. exact IH.
Qed.

Lemma filter_nil_find_none {R} (p : R -> bool) (l : list R) :
  filter p l = [] -> find p l = None.
Proof.
  induction l as [|r l IH]; simpl; [reflexivity|].
  destruct (p r); [discriminate | exact IH].
Qed.

Lemma lookupUser_id s i u : lookupUser s i = Some u -> User.id u = i.
Proof.
  unfold lookupUser. intros H. apply find_some in H.
  destruct H as [_ H]. simpl in H. now apply Z.eqb_eq in H.
Qed.

Lemma lookupGame_notNaN s i g : lookupGame s i = Some g -> Js.isNaN i = false.
Proof.
  destruct i; [reflexivity|]. unfold lookupGame. intros H.
  apply find_some in H. destruct H as [_ H]. discriminate.
Qed.

Lemma lookupTeamMatch_notNaN s i m :
  lookupTeamMatch s i = Some m -> Js.isNaN i = false.
Proof.
  destruct i; [reflexivity|]. unfold lookupTeamMatch. intros H.
  apply find_some in H. destruct H as [_ H]. discriminate.
Qed.

Lemma balance_after_update s i b u :
  lookupUser s i = Some u ->
  option_map User.balance
    (find (hasId User.id (Js.Int i))
       (updateWhere (hasId User.id (Js.Int i)) (User.with_balance b) (users s)))
  = Some b.
Proof.
  intros H. rewrite find_updateWhere by reflexivity.
  unfold lookupUser in H. rewrite H. reflexivity.
Qed.

Lemma cricketGame_some s i t :
  cricketGame s i = Some t ->
  exists g, t = OnGame g /\ lookupGame s i = Some g /\
            String.eqb (Game.gameType g) GameType.CRICKET_TOSS = true.
Proof.
  unfold cricketGame. destruct (lookupGame s i) as [g|]; [|discriminate].
  destruct (String.eqb _ _) eqn:E; [|discriminate].
  intros [= <-]. eauto.
Qed.

Lemma cricketMatch_some s i t :
  cricketMatch s i = Some t ->
  exists m, t = OnMatch m /\ lookupTeamMatch s i = Some m /\
            String.eqb (TeamMatch.category m) "cricket" = true.
Proof.
  unfold cricketMatch. destruct (lookupTeamMatch s i) as [m|]; [|discriminate].
  destruct (String.eqb _ _) eqn:E; [|discriminate].
  intros [= <-]. eauto.
Qed.

Lemma isOpen_game g :
  isOpen (OnGame g) = true ->
  exists gd, Game.gameData g = Some gd /\
    match Game.gameDataStatus g with
    | Some st => String.eqb st "open"
    | None => false
    end = true.
Proof.
  unfold isOpen, targetStatus, Game.gameDataStatus.
  destruct (Game.gameData g) as [gd|]; [|discriminate].
  intros H. exists gd. split; [reflexivity | exact H].
Qed.

(** ** Reading numbers *)

Example parseInt_prefix : Js.parseInt "12abc" = Js.Int 12.
Proof. reflexivity. Qed.

Example parseInt_sign_and_space : Js.parseInt "  -7" = Js.Int (-7).
Proof. reflexivity. Qed.

Example parseInt_radix_ten : Js.parseInt "0x10" = Js.Int 0.
Proof. reflexivity. Qed.

Example parseInt_no_digit : Js.parseInt "abc" = Js.NaN /\ Js.parseInt "" = Js.NaN.
Proof. split; reflexivity. Qed.

(** White space of more than one byte is skipped too: a no-break space,
    and a byte order mark followed by an en space. *)
Example parseInt_no_break_space :
  Js.parseInt (String (ascii_of_nat 194) (String (ascii_of_nat 160) "3"))
  = Js.Int 3.
Proof. reflexivity. Qed.

Example parseInt_byte_order_mark :
  Js.parseInt
    (String (ascii_of_nat 239) (String (ascii_of_nat 187)
       (String (ascii_of_nat 191) (String (ascii_of_nat 226)
          (String (ascii_of_nat 128) (String (ascii_of_nat 130) "-42abc"))))))
  = Js.Int (-42).
Proof. reflexivity. Qed.

(** U+200B, the zero width space, is no white space. *)
Example parseInt_zero_width_space :
  Js.parseInt
    (String (ascii_of_nat 226) (String (ascii_of_nat 128)
       (String (ascii_of_nat 139) "3")))
  = Js.NaN.
Proof. reflexivity. Qed.

(** One accented letter is two bytes and one code unit; a character
    beyond the Basic plane is four bytes and two code units. *)
Example length_code_units :
  Js.length "Australia" = 9%nat /\
  Js.length (String (ascii_of_nat 195) (String (ascii_of_nat 169) "")) = 1%nat /\
  Js.length (String (ascii_of_nat 240) (String (ascii_of_nat 159)
               (String (ascii_of_nat 143) (String (ascii_of_nat 143) ""))))
  = 2%nat.
Proof. repeat split. Qed.

Example string_min_counts_code_units :
  Zod.string_min 2
    (Js.Str (String (ascii_of_nat 195) (String (ascii_of_nat 169) ""))) = None /\
  Zod.string_min 2 (Js.Str "UP") = Some "UP".
Proof. split; reflexivity. Qed.

(** A stake sent as a string is validated as the number [parseInt] reads. *)
Example parsedBody_string_stake :
  CricketToss.playSchema
    (parsedBody [("betAmount", Js.Str "250"); ("betOn", Js.Str "team_b")])
  = Some (mkPlay 250 "team_b").
Proof. reflexivity. Qed.

Example parsedBody_below_minimum :
  CricketToss.playSchema
    (parsedBody [("betAmount", Js.Number (Js.Int 9)); ("betOn", Js.Str "team_b")])
  = None.
Proof. reflexivity. Qed.

(** ** What the schemas let through *)

Lemma number_min_max_range lo hi v n :
  Zod.number_min_max lo hi v = Some n ->
  v = Js.Number (Js.Int n) /\ lo <= n <= hi.
Proof.
  unfold Zod.number_min_max. destruct v as [| | |[z|]|]; try discriminate.
  destruct (Z.leb_spec lo z); simpl; [|discriminate].
  destruct (Z.leb_spec z hi); [|discriminate].
  intros [= <-]. split; [reflexivity | lia].
Qed.

Lemma createCricketTossSchema_odds b d :
  createCricketTossSchema b = Some d ->
  Js.prop b "oddTeamA" = Js.Number (Js.Int (c_oddTeamA d)) /\
  Js.prop b "oddTeamB" = Js.Number (Js.Int (c_oddTeamB d)) /\
  100 <= c_oddTeamA d <= 2000 /\ 100 <= c_oddTeamB d <= 2000.
Proof.
  unfold createCricketTossSchema.
  destruct (Zod.string_min 2 (Js.prop b "teamA")); [|discriminate].
  destruct (Zod.string_min 2 (Js.prop b "teamB")); [|discriminate].
  destruct (Zod.string_optional (Js.prop b "description")); [|discriminate].
  destruct (Zod.string_ (Js.prop b "tossTime")); [|discriminate].
  destruct (Zod.number_min_max 100 2000 (Js.prop b "oddTeamA")) as [oa|] eqn:Ea;
    [|discriminate].
  destruct (Zod.number_min_max 100 2000 (Js.prop b "oddTeamB")) as [ob|] eqn:Eb;
    [|discriminate].
  destruct (Zod.string_optional (Js.prop b "imageUrl")); [|discriminate].
  intros [= <-]. simpl.
  apply number_min_max_range in Ea, Eb. tauto.
Qed.

Lemma createCricketTossSchema_rejects b n :
  Js.prop b "oddTeamA" = Js.Number (Js.Int n) \/
  Js.prop b "oddTeamB" = Js.Number (Js.Int n) ->
  n < 100 \/ 2000 < n ->
  createCricketTossSchema b = None.
Proof.
  intros Hn Hr. destruct (createCricketTossSchema b) as [d|] eqn:E; [|reflexivity].
  apply createCricketTossSchema_odds in E. destruct E as (Ha & Hb & Ra & Rb).
  destruct Hn as [Hn|Hn]; [rewrite Hn in Ha | rewrite Hn in Hb].
  - injection Ha as ->. lia.
  - injection Hb as ->. lia.
Qed.

Lemma playSchemaOf_minimum p b d : playSchemaOf p b = Some d -> 10 <= betAmount d.
Proof.
  destruct p; simpl;
    unfold CricketToss.playSchema, CricketTossApi.playSchema,
      CricketTossApiSql.playSchema, Zod.number_min;
    (destruct (Js.prop b "betAmount") as [| | |[z|]|]; try discriminate);
    (destruct (Z.leb_spec 10 z); [|discriminate]);
    match goal with |- context [match ?x with _ => _ end] => destruct x end;
    try discriminate; intros [= <-]; assumption.
Qed.

Lemma updateCricketTossStatusSchema_values b st :
  updateCricketTossStatusSchema b = Some st ->
  st = "open" \/ st = "closed" \/ st = "resulted".
Proof.
  unfold updateCricketTossStatusSchema, Zod.string_refine_includes.
  destruct (Js.prop b "status") as [| | | |s]; try discriminate.
  destruct (Zod.includes _ s) eqn:E; [|discriminate].
  intros [= <-]. unfold Zod.includes in E. simpl in E.
  repeat (apply orb_prop in E; destruct E as [E|E]);
    try discriminate; apply String.eqb_eq in E; auto.
Qed.

(** ** Running a handler by hand *)

Ltac unfold_handler :=
  unfold route, bind, orReturn, returnIf, reply, ret, throw, tryCatch,
    Storage.getGame, Storage.getUser, Storage.getTeamMatch,
    Storage.createGame, Storage.updateUserBalance, Storage.updateGameStatus,
    Storage.updateGameResult, Pool.updateGamesResult, await.

Ltac unfold_play :=
  unfold placeBet, CricketToss.play, CricketTossApi.play,
    CricketTossApiSql.play;
  unfold_handler.

(** Rewrite with every equation of the context that talks about the goal. *)
Ltac use_facts :=
  repeat (simpl;
          match goal with
          | H : ?x = _ |- context [?x] => rewrite H
          end); simpl.

(** Split on the tests the handler makes, innermost first. *)
Ltac split_cases :=
  repeat (use_facts; try reflexivity;
          match goal with
          | |- context [match ?x with _ => _ end] =>
              lazymatch x with
              | context [match _ with _ => _ end] => fail
              | _ => destruct x eqn:?
              end
          end).

(** From [target = Some t] to the row behind it. *)
Ltac open_target Ht :=
  first
    [ apply cricketGame_some in Ht;
      let g := fresh "g" in
      let Hg := fresh "Hg" in
      let Hty := fresh "Hty" in
      destruct Ht as (g & -> & Hg & Hty);
      pose proof (lookupGame_notNaN _ _ _ Hg)
    | apply cricketMatch_some in Ht;
      let m := fresh "m" in
      let Hm := fresh "Hm" in
      let Hty := fresh "Hty" in
      destruct Ht as (m & -> & Hm & Hty);
      pose proof (lookupTeamMatch_notNaN _ _ _ Hm) ].

(** ** Bet placement *)

Section Placement.

Variable toNumber : string -> Js.Num.

(** A closed instance: whatever the request and whichever storage call
    fails, nothing is written. *)
Lemma placeBet_closed_no_write p req f s t :
  target toNumber p req s = Some t -> isOpen t = false ->
  snd (route (placeBet toNumber p req) f s) = s.
Proof.
  intros Ht Ho.
  destruct p; simpl in Ht; open_target Ht;
    unfold isOpen, targetStatus in Ho; unfold_play; split_cases.
Qed.

Lemma placeBet_closed_reply p req s t u d :
  target toNumber p req s = Some t -> isOpen t = false ->
  user req = Some u -> mayBet p u = true ->
  playSchemaOf p (parsedBody (body req)) = Some d ->
  route (placeBet toNumber p req) [] s = (Sent (notOpen p), s).
Proof.
  intros Ht Ho Hu Hb Hd.
  destruct p; simpl in Ht, Hb, Hd; open_target Ht;
    unfold isOpen, targetStatus in Ho; try apply negb_true_iff in Hb;
    unfold_play; use_facts; reflexivity.
Qed.


(** The account covers the stake and no storage call fails. *)
Lemma placeBet_succeeds p req s t u d usr :
  user req = Some u -> mayBet p u = true ->
  playSchemaOf p (parsedBody (body req)) = Some d ->
  target toNumber p req s = Some t -> isOpen t = true ->
  lookupUser s (User.id u) = Some usr ->
  betAmount d <= User.balance usr ->
  exists r bet odds s',
    route (placeBet toNumber p req) [] s = (Sent r, s') /\
    code r = 201 /\ placedBet r = Some bet /\
    targetOdds t (betOn d) = Some odds /\
    Placed s usr d odds bet s'.
Proof.
  intros Hu Hb Hd Ht Ho Hus Hle.
  apply Z.ltb_ge in Hle.
  destruct p; simpl in Ht, Hb, Hd; open_target Ht;
    try (destruct (isOpen_game _ Ho) as (gd & Hgd & Hst));
    unfold isOpen, targetStatus in Ho; try apply negb_true_iff in Hb;
    unfold_play; use_facts;
    (do 4 eexists; repeat (split; [reflexivity|]);
     constructor; simpl; try reflexivity;
     unfold balanceOf, lookupUser; simpl;
     rewrite <- (lookupUser_id _ _ _ Hus) in Hus;
     eapply balance_after_update; eassumption).
Qed.

(** [storage.createGame] rejects after the debit went through: the error
    goes to [next], the debit stays, no row is added. *)
Lemma placeBet_create_rejected p req s t u d usr :
  user req = Some u -> mayBet p u = true ->
  playSchemaOf p (parsedBody (body req)) = Some d ->
  target toNumber p req s = Some t -> isOpen t = true ->
  lookupUser s (User.id u) = Some usr ->
  betAmount d <= User.balance usr ->
  exists s',
    route (placeBet toNumber p req) [createGame_op] s
      = (Next (Rejected createGame_op), s') /\
    games s' = games s /\
    balanceOf s' (User.id usr) = Some (User.balance usr - betAmount d).
Proof.
  intros Hu Hb Hd Ht Ho Hus Hle.
  apply Z.ltb_ge in Hle.
  destruct p; simpl in Ht, Hb, Hd; open_target Ht;
    try (destruct (isOpen_game _ Ho) as (gd & Hgd & Hst));
    unfold isOpen, targetStatus in Ho; try apply negb_true_iff in Hb;
    unfold_play; use_facts;
    (eexists; repeat (split; [reflexivity|]);
     unfold balanceOf, lookupUser; simpl;
     rewrite <- (lookupUser_id _ _ _ Hus) in Hus;
     eapply balance_after_update; eassumption).
Qed.

(** [storage.updateUserBalance] itself rejects: nothing was written. *)
Lemma placeBet_debit_rejected p req s t u d usr :
  user req = Some u -> mayBet p u = true ->
  playSchemaOf p (parsedBody (body req)) = Some d ->
  target toNumber p req s = Some t -> isOpen t = true ->
  lookupUser s (User.id u) = Some usr ->
  betAmount d <= User.balance usr ->
  route (placeBet toNumber p req) [updateUserBalance_op] s
    = (Next (Rejected updateUserBalance_op), s).
Proof.
  intros Hu Hb Hd Ht Ho Hus Hle.
  apply Z.ltb_ge in Hle.
  destruct p; simpl in Ht, Hb, Hd; open_target Ht;
    try (destruct (isOpen_game _ Ho) as (gd & Hgd & Hst));
    unfold isOpen, targetStatus in Ho; try apply negb_true_iff in Hb;
    unfold_play; use_facts; reflexivity.
Qed.

(** cricket-toss.ts turns a blocked session user away first. *)
Lemma games_play_blocked req f s u :
  user req = Some u -> User.isBlocked u = true ->
  route (placeBet toNumber GamesPlay req) f s = (Sent accountBlocked, s).
Proof.
  intros Hu Hb. unfold_play. use_facts. reflexivity.
Qed.

End Placement.

(** ** Lifecycle routes *)

Lemma Forall2_updateWhere {R} (Q : R -> R -> Prop) (p : R -> bool)
  (f : R -> R) (l : list R) :
  (forall r, p r = true -> Q r (f r)) -> (forall r, p r = false -> Q r r) ->
  Forall2 Q l (updateWhere p f l).
Proof.
  intros Ht Hf. induction l as [|r l IH]; simpl; constructor; [|exact IH].
  destruct (p r) eqn:E; auto.
Qed.

Lemma Forall2_same {R} (Q : R -> R -> Prop) (l : list R) :
  (forall r, Q r r) -> Forall2 Q l l.
Proof. intros H. induction l; constructor; auto. Qed.

Lemma updateWhere_twice {R} (p : R -> bool) (f1 f2 : R -> R) (l : list R) :
  (forall r, p (f1 r) = p r) ->
  updateWhere p f2 (updateWhere p f1 l) = updateWhere p (fun r => f2 (f1 r)) l.
Proof.
  intros Hp. unfold updateWhere. rewrite map_map. apply map_ext.
  intros r. destruct (p r) eqn:E; [rewrite Hp|]; rewrite E; reflexivity.
Qed.

Lemma sameBet_refl g : sameBet g g.
Proof. unfold sameBet. tauto. Qed.

Lemma sameBet_trans g1 g2 g3 : sameBet g1 g2 -> sameBet g2 g3 -> sameBet g1 g3.
Proof. unfold sameBet. intuition congruence. Qed.

Lemma touched_refl i g : touched i g g.
Proof. split; [apply sameBet_refl | reflexivity]. Qed.

Lemma touched_rows i (f : Game.t -> Game.t) (l : list Game.t) :
  (forall g, sameBet g (f g)) ->
  Forall2 (touched i) l (updateWhere (hasId Game.id i) f l).
Proof.
  intros Hf. apply Forall2_updateWhere.
  - intros g E. split; [apply Hf | congruence].
  - intros g _. apply touched_refl.
Qed.

Create HintDb rows.
#[local] Hint Resolve sameBet_refl touched_refl : rows.

Ltac unfold_lifecycle :=
  unfold declareResult, updateStatus,
    CricketTossApi.declareResult, CricketTossApiSql.declareResult,
    CricketTossApi.updateStatus, CricketTossApiSql.updateStatus,
    CricketTossApi.requireAdmin, CricketTossApiSql.requireAdmin;
  unfold_handler.

Ltac rows_touched :=
  simpl; rewrite ?updateWhere_twice by reflexivity;
  first [ apply Forall2_same; auto with rows
        | apply touched_rows; intros ?; unfold sameBet; simpl; tauto ].

(** Whatever the request and whichever storage call fails, declaring a
    result writes to no account, and in the games table to no row but the
    one addressed; that row keeps stake, prediction, game data and
    payout. *)
Lemma declareResult_frame m req f s :
  users (snd (route (declareResult m req) f s)) = users s /\
  teamMatches (snd (route (declareResult m req) f s)) = teamMatches s /\
  Forall2 (touched (Js.parseInt (params_id req)))
    (games s) (games (snd (route (declareResult m req) f s))).
Proof.
  destruct m; unfold_lifecycle; split_cases;
    (split; [reflexivity|]; split; [reflexivity|]; rows_touched).
Qed.

Lemma byAdmin_user req :
  byAdmin req = true -> exists u, user req = Some u /\ negb (isAdmin u) = false.
Proof.
  unfold byAdmin. destruct (user req) as [u|]; [|discriminate].
  intros H. exists u. rewrite H. split; reflexivity.
Qed.

Lemma lookupGame_updated s i (f : Game.t -> Game.t) g :
  (forall r, Game.id (f r) = Game.id r) ->
  lookupGame s i = Some g ->
  find (hasId Game.id i) (updateWhere (hasId Game.id i) f (games s)) = Some (f g).
Proof.
  intros Hid Hg. rewrite find_updateWhere.
  - unfold lookupGame in Hg. rewrite Hg. reflexivity.
  - intros r. unfold hasId. rewrite Hid. reflexivity.
Qed.

(** Declaring a result goes through on any cricket toss row, whatever its
    status and whatever result it already holds. *)
Lemma declareResult_overwrites m req s g r :
  byAdmin req = true ->
  declareSchemaOf m (body req) = Some r ->
  cricketGame s (Js.parseInt (params_id req)) = Some (OnGame g) ->
  exists resp s',
    route (declareResult m req) [] s = (Sent resp, s') /\
    code resp = 200 /\
    lookupGame s' (Js.parseInt (params_id req)) = Some (declared m r g).
Proof.
  intros Ha Hr Ht. apply byAdmin_user in Ha. destruct Ha as (u & Hu & Hadm).
  apply cricketGame_some in Ht. destruct Ht as (g' & [= <-] & Hg & Hty).
  pose proof (lookupGame_notNaN _ _ _ Hg) as Hnan.
  destruct m; simpl in Hr; unfold_lifecycle; use_facts.
  - do 2 eexists. split; [reflexivity|]. split; [reflexivity|].
    unfold lookupGame; simpl. rewrite updateWhere_twice by reflexivity.
    apply (lookupGame_updated s _ (fun x => Game.with_status "resulted"
                                              (Game.with_result r x)));
      [reflexivity | exact Hg].
  - pose proof (lookupGame_updated s _ (Game.with_result r) g
                  (fun _ => eq_refl) Hg) as Hfound.
    destruct (filter _ _) as [|row rows] eqn:Ef.
    + apply filter_nil_find_none in Ef. congruence.
    + simpl. unfold lookupGame; simpl. rewrite Hfound. simpl.
      do 2 eexists. split; [reflexivity|]. split; [reflexivity|]. exact Hfound.
Qed.

(** The status route writes the status it is asked for, whatever the
    current one. *)
Lemma updateStatus_sets m req s g st :
  byAdmin req = true ->
  updateCricketTossStatusSchema (body req) = Some st ->
  cricketGame s (Js.parseInt (params_id req)) = Some (OnGame g) ->
  exists s',
    route (updateStatus m req) [] s
      = (Sent (json 200 (GameJson (Some (Game.with_status st g)))), s') /\
    lookupGame s' (Js.parseInt (params_id req)) = Some (Game.with_status st g) /\
    users s' = users s.
Proof.
  intros Ha Hst Ht. apply byAdmin_user in Ha. destruct Ha as (u & Hu & Hadm).
  apply cricketGame_some in Ht. destruct Ht as (g' & [= <-] & Hg & Hty).
  pose proof (lookupGame_notNaN _ _ _ Hg) as Hnan.
  pose proof (lookupGame_updated s _ (Game.with_status st) g
                (fun _ => eq_refl) Hg) as Hfound.
  destruct m; unfold_lifecycle; use_facts;
    (eexists; split; [reflexivity|]; split; [exact Hfound | reflexivity]).
Qed.

(** A status outside the three names is a validation error; nothing is
    written. *)
Lemma updateStatus_invalid m req f s :
  byAdmin req = true ->
  Js.isNaN (Js.parseInt (params_id req)) = false ->
  updateCricketTossStatusSchema (body req) = None ->
  route (updateStatus m req) f s = (Sent (json 400 InvalidData), s).
Proof.
  intros Ha Hnan Hst. apply byAdmin_user in Ha. destruct Ha as (u & Hu & Hadm).
  destruct m; unfold_lifecycle; use_facts; reflexivity.
Qed.

(** ** Every route, and sequences of requests *)

Lemma Forall2_trans {R} (Q : R -> R -> Prop) :
  (forall a b c, Q a b -> Q b c -> Q a c) ->
  forall l1 l2 l3, Forall2 Q l1 l2 -> Forall2 Q l2 l3 -> Forall2 Q l1 l3.
Proof.
  intros HQ l1 l2 l3 H12. revert l3.
  induction H12 as [|a b l1 l2 Hab _ IH]; intros l3 H23; inversion H23; subst.
  - constructor.
  - constructor; eauto.
Qed.

Lemma rowsKept_refl s : rowsKept s s.
Proof.
  exists (games s), []. split; [symmetry; apply app_nil_r|].
  apply Forall2_same, sameBet_refl.
Qed.

Lemma rowsKept_trans s1 s2 s3 :
  rowsKept s1 s2 -> rowsKept s2 s3 -> rowsKept s1 s3.
Proof.
  intros (k1 & m1 & E1 & F1) (k2 & m2 & E2 & F2).
  rewrite E1 in F2. apply Forall2_app_inv_l in F2.
  destruct F2 as (k2a & k2b & Fa & Fb & ->).
  exists k2a, (k2b ++ m2). split.
  - rewrite E2. symmetry. apply app_assoc.
  - eapply Forall2_trans; [exact sameBet_trans | exact F1 | exact Fa].
Qed.

Lemma sameBet_rows (f : Game.t -> Game.t) (p : Game.t -> bool) (l : list Game.t) :
  (forall g, sameBet g (f g)) -> Forall2 sameBet l (updateWhere p f l).
Proof.
  intros Hf. apply Forall2_updateWhere; auto using sameBet_refl.
Qed.

Lemma templates_updateWhere (p : Game.t -> bool) (f : Game.t -> Game.t) l :
  (forall g, Game.gameType (f g) = Game.gameType g /\
             Game.betAmount (f g) = Game.betAmount g /\
             Game.gameData (f g) = Game.gameData g) ->
  Forall (fun g => isTemplate g = true -> oddsInRange g = true) l ->
  Forall (fun g => isTemplate g = true -> oddsInRange g = true)
    (updateWhere p f l).
Proof.
  intros Hf H. unfold updateWhere. apply Forall_map.
  eapply Forall_impl; [|exact H]. intros g Hg.
  destruct (p g); [|exact Hg].
  destruct (Hf g) as (Ht & Hb & Hd).
  unfold isTemplate, oddsInRange. rewrite Ht, Hb, Hd. exact Hg.
Qed.

Lemma templates_insert l g :
  (isTemplate g = true -> oddsInRange g = true) ->
  Forall (fun g => isTemplate g = true -> oddsInRange g = true) l ->
  Forall (fun g => isTemplate g = true -> oddsInRange g = true) (l ++ [g]).
Proof.
  intros Hg H. apply Forall_app. split; [exact H|].
  constructor; [exact Hg | constructor].
Qed.

Lemma inRange_true o : 100 <= o <= 2000 -> inRange o = true.
Proof.
  intros H. unfold inRange. apply andb_true_iff. split; apply Z.leb_le; lia.
Qed.

(** A row with a stake of 10 or more is a bet, not a template. *)
Lemma bet_not_template i g :
  10 <= InsertGame.betAmount g ->
  isTemplate (Game.ofInsert i g) = true -> oddsInRange (Game.ofInsert i g) = true.
Proof.
  intros H. unfold isTemplate. simpl.
  destruct (Z.eqb_spec (InsertGame.betAmount g) 0); [lia|].
  rewrite andb_false_r. discriminate.
Qed.

Lemma solvent_update (p : User.t -> bool) b l :
  0 <= b ->
  Forall (fun u => 0 <= User.balance u) l ->
  Forall (fun u => 0 <= User.balance u) (updateWhere p (User.with_balance b) l).
Proof.
  intros Hb H. unfold updateWhere. apply Forall_map.
  eapply Forall_impl; [|exact H]. intros u Hu. destruct (p u); simpl; assumption.
Qed.

Ltac unfold_routes :=
  unfold serve, handler, createGame, declareResult, updateStatus, placeBet,
    CricketToss.createGame, CricketTossApi.createGame,
    CricketTossApiSql.createGame,
    CricketTossApi.declareResult, CricketTossApiSql.declareResult,
    CricketTossApi.updateStatus, CricketTossApiSql.updateStatus,
    CricketTossApi.requireAdmin, CricketTossApiSql.requireAdmin,
    CricketToss.play, CricketTossApi.play, CricketTossApiSql.play;
  unfold_handler.

Ltac rows_kept :=
  lazymatch goal with
  | |- rowsKept ?s _ =>
      unfold rowsKept; simpl; rewrite ?updateWhere_twice by reflexivity;
      first
        [ exists (games s); eexists; split;
          [ reflexivity | apply Forall2_same, sameBet_refl ]
        | eexists; exists []; split;
          [ symmetry; apply app_nil_r
          | first [ apply Forall2_same, sameBet_refl
                  | apply sameBet_rows; intros ?; unfold sameBet; simpl; tauto ] ] ]
  end.

Ltac templates_kept :=
  unfold templatesInRange; simpl; intros Hinv;
  rewrite ?updateWhere_twice by reflexivity;
  first
    [ exact Hinv
    | apply templates_updateWhere; [intros ?; simpl; tauto | exact Hinv]
    | apply templates_insert; [|exact Hinv];
      first
        [ apply bet_not_template; simpl;
          first [ eapply (playSchemaOf_minimum GamesPlay); eassumption
                | eapply (playSchemaOf_minimum ApiPlay); eassumption
                | eapply (playSchemaOf_minimum ApiSqlPlay); eassumption ]
        | intros _; unfold oddsInRange; simpl;
          match goal with
          | H : createCricketTossSchema _ = Some _ |- _ =>
              apply createCricketTossSchema_odds in H;
              destruct H as (_ & _ & Ra & Rb);
              rewrite (inRange_true _ Ra), (inRange_true _ Rb); reflexivity
          end ] ].

Section Requests.

Variable toNumber : string -> Js.Num.

(** No route rewrites stake, prediction, game data or payout of a row
    that is already there. *)
Lemma serve_rowsKept c s : rowsKept s (snd (serve toNumber c s)).
Proof.
  destruct c as [[[]|[]|[]|[]] req f]; simpl;
    unfold_routes; simpl; split_cases; rows_kept.
Qed.

Lemma run_rowsKept cs s : rowsKept s (run toNumber cs s).
Proof.
  revert s. induction cs as [|c cs IH]; intros s; simpl.
  - apply rowsKept_refl.
  - eapply rowsKept_trans; [apply serve_rowsKept | apply IH].
Qed.

Lemma serve_templatesInRange c s :
  templatesInRange s -> templatesInRange (snd (serve toNumber c s)).
Proof.
  destruct c as [[[]|[]|[]|[]] req f]; simpl;
    unfold_routes; simpl; split_cases; templates_kept.
Qed.

Lemma run_templatesInRange cs s :
  templatesInRange s -> templatesInRange (run toNumber cs s).
Proof.
  revert s. induction cs as [|c cs IH]; intros s H; simpl.
  - exact H.
  - apply IH, serve_templatesInRange, H.
Qed.

(** What one request can do to the accounts and to the matches: the
    matches are never written, and the accounts only by a play route,
    which sets the balance of the caller's account to its balance less a
    stake of at least 10 it can cover. *)
Lemma serve_accounts c s :
  teamMatches (snd (serve toNumber c s)) = teamMatches s /\
  (users (snd (serve toNumber c s)) = users s \/
   adminOnly (c_route c) = false /\
   exists u usr a,
     user (c_request c) = Some u /\
     lookupUser s (User.id u) = Some usr /\
     10 <= a <= User.balance usr /\
     users (snd (serve toNumber c s))
       = updateWhere (hasId User.id (Js.Int (User.id usr)))
           (User.with_balance (User.balance usr - a)) (users s)).
Proof.
  destruct c as [[[]|[]|[]|[]] req f]; simpl;
    unfold_routes; simpl; split_cases; (split; [reflexivity|]);
    first
      [ left; reflexivity
      | right; split; [reflexivity|];
        match goal with
        | Hu : user _ = Some ?u, Hl : lookupUser _ (User.id ?u) = Some ?usr,
          Hlt : (User.balance ?usr <? betAmount ?d) = false,
          Hd : _ = Some ?d |- _ =>
            exists u, usr, (betAmount d);
            split; [reflexivity|]; split; [exact Hl|]; split; [|reflexivity];
            apply Z.ltb_ge in Hlt; split; [|exact Hlt];
            first [ exact (playSchemaOf_minimum GamesPlay _ _ Hd)
                  | exact (playSchemaOf_minimum ApiPlay _ _ Hd)
                  | exact (playSchemaOf_minimum ApiSqlPlay _ _ Hd) ]
        end ].
Qed.

Lemma serve_solvent c s : solvent s -> solvent (snd (serve toNumber c s)).
Proof.
  intros H. unfold solvent.
  destruct (serve_accounts c s) as [_ [E|(_ & u & usr & a & _ & _ & Ha & E)]];
    rewrite E; [exact H|].
  apply solvent_update; [lia | exact H].
Qed.

Lemma run_teamMatches cs s : teamMatches (run toNumber cs s) = teamMatches s.
Proof.
  revert s. induction cs as [|c cs IH]; intros s; simpl; [reflexivity|].
  rewrite IH. apply serve_accounts.
Qed.

End Requests.

(** A create request the schema refuses: answered with an error, nothing
    written; an admin gets the validation error. *)
Lemma createGame_invalid c req f s :
  createCricketTossSchema (body req) = None ->
  exists r,
    route (createGame c req) f s = (Sent r, s) /\
    400 <= code r <= 403 /\
    (byAdmin req = true -> r = json 400 InvalidData).
Proof.
  intros Hno. unfold byAdmin.
  destruct c; unfold_routes; split_cases;
    (eexists; split; [reflexivity|]; simpl; split; [lia|]);
    try reflexivity; try discriminate;
    intros Hadm; rewrite Hadm in *; discriminate.
Qed.

(** ** The payout formula

    [potentialPayout] is the integer part of a quotient of doubles.  On
    a stake and odds whose product is below 2^53 in magnitude nothing is
    lost: the product is a double, and the double nearest to its quotient
    by 100 has the integer part of the quotient itself. *)

Section Doubles.

Import SpecFloat.

Lemma digits2_pos_size p : digits2_pos p = Pos.size p.
Proof. induction p; simpl; congruence. Qed.

Lemma digits2_pos_log2 p : Zpos (digits2_pos p) = Z.log2 (Zpos p) + 1.
Proof.
  rewrite digits2_pos_size. destruct p; simpl; try reflexivity;
    rewrite Pos.add_1_r; reflexivity.
Qed.

Lemma bits_bounds z : 0 < z -> 2 ^ (Js.bits z - 1) <= z < 2 ^ Js.bits z.
Proof.
  intros H. unfold Js.bits. replace (Z.log2 z + 1 - 1) with (Z.log2 z) by lia.
  pose proof (Z.log2_spec z H). replace (Z.log2 z + 1) with (Z.succ (Z.log2 z)) by lia.
  exact H0.
Qed.

Lemma bits_pos z : 0 < z -> 1 <= Js.bits z.
Proof. intros H. unfold Js.bits. pose proof (Z.log2_nonneg z). lia. Qed.

Lemma bits_le z n : 0 < z -> z < 2 ^ n -> Js.bits z <= n.
Proof.
  intros Hz H. unfold Js.bits.
  destruct (Z.le_gt_cases n 0) as [Hn|Hn].
  - assert (2 ^ n <= 1).
    { destruct (Z.eq_dec n 0) as [->|]; [simpl; lia|]. rewrite Z.pow_neg_r; lia. }
    lia.
  - assert (Z.log2 z < n); [|lia]. apply Z.log2_lt_pow2; assumption.
Qed.

Lemma bits_shift z k : 0 < z -> 0 <= k -> Js.bits (z * 2 ^ k) = Js.bits z + k.
Proof. intros Hz Hk. unfold Js.bits. rewrite Z.log2_mul_pow2 by assumption. lia. Qed.

Lemma iter_xO m k : Zpos (Pos.iter xO m k) = Zpos m * 2 ^ Zpos k.
Proof.
  rewrite <- Z.shiftl_mul_pow2 by lia. simpl.
  apply (Pos.iter_swap_gen _ _ Zpos xO (Z.mul 2)). reflexivity.
Qed.

(** No shift is due for a mantissa of 53 bits within the exponent
    range. *)
Lemma shr_fexp_canonical m e l :
  Zpos (digits2_pos m) = 53 -> -1074 <= e ->
  shr_fexp 53 1024 (Zpos m) e l = (shr_record_of_loc (Zpos m) l, e).
Proof.
  intros Hd He. unfold shr_fexp, Zdigits2. rewrite Hd. unfold fexp, emin.
  replace (Z.max (53 + e - 53) (3 - 1024 - 53) - e) with 0 by lia.
  reflexivity.
Qed.

(** A mantissa of 53 bits within the exponent range is its own rounding. *)
Lemma round_canonical s m e :
  Zpos (digits2_pos m) = 53 -> -1074 <= e <= 971 ->
  binary_round_aux 53 1024 s (Zpos m) e loc_Exact = S754_finite s m e.
Proof.
  intros Hd He. unfold binary_round_aux.
  rewrite shr_fexp_canonical by lia.
  cbn [shr_record_of_loc shr_m loc_of_shr_record round_nearest_even].
  rewrite shr_fexp_canonical by lia.
  cbn [shr_record_of_loc shr_m].
  destruct (Z.leb_spec e (1024 - 53)); [reflexivity | lia].
Qed.

Lemma round_of_integer s p :
  Zpos p < 2 ^ 53 -> binary_round 53 1024 s p 0 = Js.normal s (Zpos p).
Proof.
  intros Hlt. assert (Hz : 0 < Zpos p) by lia. unfold Js.normal, binary_round.
  pose proof (bits_le _ _ Hz Hlt) as Hd. pose proof (bits_pos _ Hz) as Hd1.
  rewrite digits2_pos_log2. fold (Js.bits (Zpos p)).
  unfold fexp, emin.
  replace (Z.max (Js.bits (Z.pos p) + 0 - 53) (3 - 1024 - 53))
    with (Js.bits (Z.pos p) - 53) by lia.
  unfold shl_align.
  destruct (Js.bits (Z.pos p) - 53 - 0) as [|k|k] eqn:Ek; try lia.
  - replace (53 - Js.bits (Z.pos p)) with 0 by lia.
    rewrite Z.mul_1_r. simpl Z.to_pos.
    replace (Js.bits (Z.pos p) - 53) with 0 by lia.
    apply round_canonical; [|lia].
    rewrite digits2_pos_log2. fold (Js.bits (Zpos p)). lia.
  - replace (53 - Js.bits (Z.pos p)) with (Zpos k) by lia.
    rewrite <- iter_xO. simpl Z.to_pos.
    apply round_canonical; [|lia].
    rewrite digits2_pos_log2. fold (Js.bits (Zpos (Pos.iter xO p k))).
    rewrite iter_xO, bits_shift by lia. lia.
Qed.

(** An integer below 2^53 in magnitude is a double. *)
Lemma double_exact z :
  0 < z < 2 ^ 53 ->
  Js.double z = Js.normal false z /\ Js.double (- z) = Js.normal true z.
Proof.
  intros [Hz Hlt]. destruct z as [|p|p]; try lia.
  split; apply round_of_integer; exact Hlt.
Qed.

Lemma iter_pos_iter {A} (f : A -> A) p x : iter_pos f p x = Pos.iter f x p.
Proof.
  revert x. induction p as [p IH|p IH|]; intros x; simpl.
  - rewrite !IH. rewrite <- Pos.iter_swap. rewrite <- Pos.iter_swap. reflexivity.
  - rewrite !IH. reflexivity.
  - reflexivity.
Qed.

Lemma shr_exact k : forall M,
  Pos.iter shr_1 {| shr_m := Zpos M * 2 ^ Zpos k; shr_r := false; shr_s := false |} k
  = {| shr_m := Zpos M; shr_r := false; shr_s := false |}.
Proof.
  induction k as [|k IH] using Pos.peano_ind; intros M.
  - replace (Zpos M * 2 ^ 1) with (Zpos (xO M)) by lia. reflexivity.
  - rewrite Pos.iter_succ.
    replace (Zpos M * 2 ^ Zpos (Pos.succ k)) with (Zpos (xO M) * 2 ^ Zpos k).
    + rewrite IH. reflexivity.
    + rewrite Pos2Z.inj_succ, Z.pow_succ_r by lia. lia.
Qed.

(** A mantissa of 53 bits followed by [n] zero bits: the bits are
    shifted out and nothing is rounded. *)
Lemma round_shift s M n e :
  Zpos (digits2_pos M) = 53 -> 0 < n -> -1074 <= e + n <= 971 ->
  binary_round_aux 53 1024 s (Zpos M * 2 ^ n) e loc_Exact = S754_finite s M (e + n).
Proof.
  intros Hd Hn He. destruct n as [|k|k]; try lia.
  unfold binary_round_aux.
  assert (Hshift : shr_fexp 53 1024 (Zpos M * 2 ^ Zpos k) e loc_Exact
                   = ({| shr_m := Zpos M; shr_r := false; shr_s := false |},
                      e + Zpos k)).
  { unfold shr_fexp. rewrite <- iter_xO. unfold Zdigits2.
    rewrite digits2_pos_log2, iter_xO. fold (Js.bits (Zpos M * 2 ^ Zpos k)).
    rewrite bits_shift by lia. unfold Js.bits. rewrite <- digits2_pos_log2, Hd.
    unfold fexp, emin.
    replace (Z.max (53 + Z.pos k + e - 53) (3 - 1024 - 53) - e) with (Zpos k) by lia.
    unfold shr. rewrite iter_pos_iter. cbn [shr_record_of_loc].
    rewrite shr_exact. reflexivity. }
  rewrite Hshift.
  cbn [shr_m loc_of_shr_record round_nearest_even].
  rewrite shr_fexp_canonical by lia.
  cbn [shr_record_of_loc shr_m].
  destruct (Z.leb_spec (e + Zpos k) (1024 - 53)); [reflexivity | lia].
Qed.

Lemma normal_mantissa z :
  0 < z < 2 ^ 53 ->
  Zpos (Z.to_pos (z * 2 ^ (53 - Js.bits z))) = z * 2 ^ (53 - Js.bits z) /\
  Zpos (digits2_pos (Z.to_pos (z * 2 ^ (53 - Js.bits z)))) = 53.
Proof.
  intros [Hz Hlt].
  pose proof (bits_le _ _ Hz Hlt) as Hd.
  assert (Hpos : 0 < z * 2 ^ (53 - Js.bits z))
    by (apply Z.mul_pos_pos; [lia | apply Z.pow_pos_nonneg; lia]).
  split; [apply Z2Pos.id; exact Hpos|].
  rewrite digits2_pos_log2, Z2Pos.id by exact Hpos.
  fold (Js.bits (z * 2 ^ (53 - Js.bits z))). rewrite bits_shift by lia. lia.
Qed.

Lemma bits_mul a o :
  0 < a -> 0 < o -> Js.bits a + Js.bits o - 1 <= Js.bits (a * o).
Proof.
  intros Ha Ho.
  pose proof (bits_bounds a Ha) as [Ba _].
  pose proof (bits_bounds o Ho) as [Bo _].
  pose proof (bits_pos a Ha). pose proof (bits_pos o Ho).
  assert (2 ^ (Js.bits a - 1 + (Js.bits o - 1)) <= a * o).
  { rewrite Z.pow_add_r by lia. apply Z.mul_le_mono_nonneg; try lia;
      apply Z.pow_nonneg; lia. }
  unfold Js.bits at 3.
  assert (Js.bits a - 1 + (Js.bits o - 1) <= Z.log2 (a * o)); [|lia].
  apply Z.log2_le_pow2; [nia | assumption].
Qed.

(** The product of two integers is exact when it is below 2^53 in
    magnitude. *)
Lemma mul_exact sa so a o :
  0 < a -> 0 < o -> a * o < 2 ^ 53 ->
  Js.mul (Js.normal sa a) (Js.normal so o) = Js.normal (xorb sa so) (a * o).
Proof.
  intros Ha Ho Hx.
  assert (Ha' : 0 < a < 2 ^ 53) by nia.
  assert (Ho' : 0 < o < 2 ^ 53) by nia.
  assert (Hx' : 0 < a * o < 2 ^ 53) by nia.
  destruct (normal_mantissa a Ha') as [Ea Da].
  destruct (normal_mantissa o Ho') as [Eo Do].
  destruct (normal_mantissa (a * o) Hx') as [Ex Dx].
  pose proof (bits_mul a o Ha Ho) as Hd.
  pose proof (bits_le _ _ (proj1 Ha') (proj2 Ha')).
  pose proof (bits_le _ _ (proj1 Ho') (proj2 Ho')).
  pose proof (bits_le _ _ (proj1 Hx') (proj2 Hx')).
  pose proof (bits_pos a Ha). pose proof (bits_pos o Ho).
  unfold Js.mul, Js.normal, SFmul.
  rewrite Pos2Z.inj_mul, Ea, Eo.
  set (n := 53 + Js.bits (a * o) - Js.bits a - Js.bits o).
  replace (a * 2 ^ (53 - Js.bits a) * (o * 2 ^ (53 - Js.bits o)))
    with (Zpos (Z.to_pos (a * o * 2 ^ (53 - Js.bits (a * o)))) * 2 ^ n).
  - unfold Js.prec, Js.emax. rewrite round_shift; try assumption; try (unfold n; lia).
    f_equal. unfold n. lia.
  - assert (Hp : 2 ^ (53 - Js.bits (a * o)) * 2 ^ n
                = 2 ^ (53 - Js.bits a) * 2 ^ (53 - Js.bits o))
      by (unfold n; rewrite <- !Z.pow_add_r by lia; f_equal; lia).
    rewrite Ex.
    transitivity (a * o * (2 ^ (53 - Js.bits (a * o)) * 2 ^ n)); [ring|].
    rewrite Hp. ring.
Qed.

Lemma loc_of_record m l : loc_of_shr_record (shr_record_of_loc m l) = l.
Proof. destruct l as [|[]]; reflexivity. Qed.

Lemma round_nearest_even_near m l : m <= round_nearest_even m l <= m + 1.
Proof.
  unfold round_nearest_even. destruct l as [|[]]; try lia.
  destruct (Z.even m); lia.
Qed.

Lemma bits_53 z : 2 ^ 52 <= z < 2 ^ 53 -> Js.bits z = 53.
Proof.
  intros H. unfold Js.bits. rewrite (Z.log2_unique z 52); [reflexivity | lia |].
  exact H.
Qed.

Lemma bits_54 z : 2 ^ 53 <= z < 2 ^ 54 -> Js.bits z = 54.
Proof.
  intros H. unfold Js.bits. rewrite (Z.log2_unique z 53); [reflexivity | lia |].
  exact H.
Qed.

(** The last step of a rounding: a mantissa that reached 2^53 is brought
    back to 53 bits. *)
Lemma round_finish s M e :
  2 ^ 52 <= Zpos M <= 2 ^ 53 -> -1074 <= e -> e + 1 <= 971 ->
  exists M' E,
    (let '(mrs, e') := shr_fexp 53 1024 (Zpos M) e loc_Exact in
     match shr_m mrs with
     | Z0 => S754_zero s
     | Zpos m => if e' <=? 1024 - 53 then S754_finite s m e' else S754_infinity s
     | Zneg _ => S754_nan
     end) = S754_finite s M' E /\
    e <= E <= e + 1 /\ Zpos M' * 2 ^ (E - e) = Zpos M.
Proof.
  intros HM He1 He2.
  destruct (Z.eq_dec (Zpos M) (2 ^ 53)) as [Heq|Hne].
  - exists (4503599627370496%positive), (e + 1).
    injection Heq as ->.
    unfold shr_fexp. cbn [Zdigits2 digits2_pos Pos.succ].
    unfold fexp, emin.
    replace (Z.max (54 + e - 53) (3 - 1024 - 53) - e) with 1 by lia.
    cbn [shr shr_record_of_loc iter_pos shr_1 shr_m orb].
    destruct (Z.leb_spec (e + 1) (1024 - 53)); [|lia].
    split; [reflexivity|]. split; [lia|].
    replace (e + 1 - e) with 1 by lia. reflexivity.
  - exists M, e.
    rewrite shr_fexp_canonical;
      [| rewrite digits2_pos_log2; fold (Js.bits (Zpos M)); apply bits_53; lia | lia].
    cbn [shr_record_of_loc shr_m].
    destruct (Z.leb_spec e (1024 - 53)); [|lia].
    split; [reflexivity|]. split; [lia|].
    replace (e - e) with 0 by lia. lia.
Qed.

Lemma shr_1_half p r s :
  shr_m (shr_1 {| shr_m := Zpos p; shr_r := r; shr_s := s |}) = Zpos p / 2 /\
  shr_r (shr_1 {| shr_m := Zpos p; shr_r := r; shr_s := s |}) = Z.odd (Zpos p) /\
  shr_s (shr_1 {| shr_m := Zpos p; shr_r := r; shr_s := s |}) = r || s.
Proof.
  destruct p as [p|p|]; cbn [shr_1 shr_m shr_r shr_s Z.odd];
    (split; [|split; reflexivity]).
  - rewrite Pos2Z.inj_xI. apply Z.div_unique with 1; lia.
  - rewrite Pos2Z.inj_xO. apply Z.div_unique with 0; lia.
  - reflexivity.
Qed.

Lemma round_record m mrs :
  m <= round_nearest_even m (loc_of_shr_record mrs) <= m + 1 /\
  (shr_r mrs = false -> round_nearest_even m (loc_of_shr_record mrs) = m) /\
  (shr_r mrs = true -> shr_s mrs = true ->
   round_nearest_even m (loc_of_shr_record mrs) = m + 1).
Proof.
  destruct mrs as [m' [|] [|]]; cbn [loc_of_shr_record round_nearest_even shr_r shr_s];
    repeat split; try lia; try discriminate; try reflexivity;
    destruct (Z.even m); lia.
Qed.

Lemma record_of_loc m l :
  exists r0 s0,
    shr_record_of_loc m l = {| shr_m := m; shr_r := r0; shr_s := s0 |} /\
    (l = loc_Exact -> r0 || s0 = false) /\
    (l <> loc_Exact -> r0 || s0 = true).
Proof.
  destruct l as [|[]]; do 2 eexists; (split; [reflexivity|]);
    split; intros H; try reflexivity; try discriminate; congruence.
Qed.

(** Rounding a mantissa of 53 or 54 bits: the result, in units of the
    exponent given, is within one of the mantissa; it is the mantissa when
    that is even and nothing was lost before, and not below it when it is
    odd and something was. *)
Lemma round_near s q e l :
  2 ^ 52 <= q < 2 ^ 54 -> -1074 <= e -> e + 2 <= 971 ->
  exists M E,
    binary_round_aux 53 1024 s q e l = S754_finite s M E /\
    e <= E <= e + 2 /\
    2 * (q / 2) <= Zpos M * 2 ^ (E - e) <= q + 1 /\
    (l = loc_Exact -> Z.even q = true -> Zpos M * 2 ^ (E - e) = q) /\
    (l <> loc_Exact -> Z.odd q = true -> q <= Zpos M * 2 ^ (E - e)).
Proof.
  intros Hq He1 He2. destruct q as [|p|p]; try lia.
  unfold binary_round_aux.
  pose proof (Z.div_mod (Zpos p) 2 ltac:(lia)) as Hdm.
  pose proof (Z.mod_pos_bound (Zpos p) 2 ltac:(lia)) as Hmb.
  destruct (Z.lt_ge_cases (Zpos p) (2 ^ 53)) as [Hlt|Hge].
  - rewrite shr_fexp_canonical;
      [| rewrite digits2_pos_log2; fold (Js.bits (Zpos p)); apply bits_53; lia | lia].
    rewrite loc_of_record.
    pose proof (round_nearest_even_near (Zpos p) l) as Hr.
    assert (Hm : shr_m (shr_record_of_loc (Zpos p) l) = Zpos p)
      by (destruct l as [|[]]; reflexivity).
    rewrite Hm.
    assert (Hex : l = loc_Exact -> round_nearest_even (Zpos p) l = Zpos p)
      by (intros ->; reflexivity).
    destruct (round_nearest_even (Zpos p) l) as [|M1|M1] eqn:EM; try lia.
    destruct (round_finish s M1 e) as (M' & E & Hres & HE & HV); try lia.
    exists M', E. split; [exact Hres|]. split; [lia|].
    rewrite HV. split; [lia|]. split.
    + intros Hl _. apply Hex, Hl.
    + intros _ _. lia.
  - assert (Hshift : shr_fexp 53 1024 (Zpos p) e l
                     = (shr_1 (shr_record_of_loc (Zpos p) l), e + 1)).
    { unfold shr_fexp, Zdigits2. rewrite digits2_pos_log2.
      fold (Js.bits (Zpos p)). rewrite bits_54 by lia.
      unfold fexp, emin.
      replace (Z.max (54 + e - 53) (3 - 1024 - 53) - e) with 1 by lia.
      reflexivity. }
    rewrite Hshift.
    destruct (record_of_loc (Zpos p) l) as (r0 & s0 & -> & Hexact & Hinexact).
    destruct (shr_1_half p r0 s0) as (Hhalf & Hodd & Hsticky).
    set (rec := shr_1 {| shr_m := Zpos p; shr_r := r0; shr_s := s0 |}) in *.
    destruct (round_record (shr_m rec) rec) as (Hr & Hlow & Hup).
    rewrite Hhalf, Hodd, Hsticky in *.
    destruct (round_nearest_even (Zpos p / 2) (loc_of_shr_record rec))
      as [|M1|M1] eqn:EM; try lia.
    destruct (round_finish s M1 (e + 1)) as (M' & E & Hres & HE & HV); try lia.
    exists M', E. split; [exact Hres|]. split; [lia|].
    replace (E - e) with (E - (e + 1) + 1) by lia.
    rewrite Z.pow_add_r by lia. rewrite Z.mul_assoc, HV.
    rewrite Zmod_odd in Hdm.
    split; [|split].
    + destruct (Z.odd (Zpos p)) eqn:Hev.
      * lia.
      * pose proof (Hlow eq_refl). lia.
    + intros Hl Hev. rewrite <- Z.negb_odd in Hev. apply negb_true_iff in Hev.
      rewrite Hev in *. pose proof (Hlow eq_refl). lia.
    + intros Hl Hod. rewrite Hod in *.
      pose proof (Hup eq_refl (Hinexact Hl)). lia.
Qed.

(** The quotient mantissa the division of an integer below 2^53 by 100
    starts from, and whether the division is exact. *)
Lemma div_core x :
  0 < x < 2 ^ 53 ->
  exists l,
    SFdiv_core_binary 53 1024
      (Zpos (Z.to_pos (x * 2 ^ (53 - Js.bits x)))) (Js.bits x - 53)
      7036874417766400 (-46)
    = (x * 2 ^ (60 - Js.bits x) / 100, Js.bits x - 60, l) /\
    (l = loc_Exact <-> (x * 2 ^ (60 - Js.bits x)) mod 100 = 0).
Proof.
  intros Hx. destruct (normal_mantissa x Hx) as [Ex Dx].
  pose proof (bits_le _ _ (proj1 Hx) (proj2 Hx)) as Hd.
  pose proof (bits_pos _ (proj1 Hx)) as Hd1.
  unfold SFdiv_core_binary. cbn [Zdigits2]. rewrite Dx.
  change (Zpos (digits2_pos 7036874417766400)) with 53.
  unfold fexp, emin.
  replace (Z.min (Z.max (53 + (Js.bits x - 53) - (53 + -46) - 53) (3 - 1024 - 53))
             (Js.bits x - 53 - -46)) with (Js.bits x - 60) by lia.
  replace (Js.bits x - 53 - -46 - (Js.bits x - 60)) with 53 by lia.
  cbv zeta.
  assert (Hm : Z.shiftl (Zpos (Z.to_pos (x * 2 ^ (53 - Js.bits x)))) 53
               = x * 2 ^ (60 - Js.bits x) * 2 ^ 46).
  { rewrite Z.shiftl_mul_pow2 by lia. rewrite Ex.
    rewrite <- !Z.mul_assoc, <- !Z.pow_add_r by lia. do 2 f_equal. lia. }
  rewrite Hm. change 7036874417766400 with (100 * 2 ^ 46).
  set (N := x * 2 ^ (60 - Js.bits x)).
  assert (Hq : N * 2 ^ 46 / (100 * 2 ^ 46) = N / 100)
    by (apply Z.div_mul_cancel_r; lia).
  assert (Hr : (N * 2 ^ 46) mod (100 * 2 ^ 46) = (N mod 100) * 2 ^ 46)
    by (apply Z.mul_mod_distr_r; lia).
  unfold Z.div in Hq at 1. unfold Z.modulo in Hr at 1.
  destruct (Z.div_eucl (N * 2 ^ 46) (100 * 2 ^ 46)) as [q r].
  cbn [fst snd] in Hq, Hr. subst q r.
  eexists. split; [reflexivity|].
  unfold new_location. change (Z.even (100 * 2 ^ 46)) with true.
  unfold new_location_even.
  destruct (Z.eqb_spec (N mod 100 * 2 ^ 46) 0) as [E0|E0].
  - split; [intros _; lia | reflexivity].
  - split; [discriminate | intros H0; rewrite H0 in E0; lia].
Qed.

(** The integer part of the double quotient by 100 is the integer
    quotient, rounded toward minus infinity, for every integer below 2^53
    in magnitude. *)
Lemma div100_floor s x :
  0 < x < 2 ^ 53 ->
  Js.floor (Js.div (Js.normal s x) (Js.double 100)) = (if s then - x else x) / 100.
Proof.
  intros Hx.
  pose proof (bits_le _ _ (proj1 Hx) (proj2 Hx)) as Hd.
  pose proof (bits_pos _ (proj1 Hx)) as Hd1.
  pose proof (bits_bounds _ (proj1 Hx)) as [Hlo Hhi].
  change (Js.double 100) with (S754_finite false 7036874417766400 (-46)).
  unfold Js.div, Js.normal, SFdiv, Js.prec, Js.emax.
  destruct (div_core x Hx) as (l & -> & Hl). rewrite xorb_false_r.
  set (t := 60 - Js.bits x) in *.
  assert (Ht : 7 <= t) by (unfold t; lia).
  set (T := 2 ^ t) in *.
  assert (HT : 128 <= T).
  { unfold T. change 128 with (2 ^ 7). apply Z.pow_le_mono_r; lia. }
  assert (HN : 2 ^ 59 <= x * T < 2 ^ 60).
  { unfold T, t.
    replace (2 ^ 59) with (2 ^ (Js.bits x - 1) * 2 ^ (60 - Js.bits x))
      by (rewrite <- Z.pow_add_r by lia; f_equal; lia).
    replace (2 ^ 60) with (2 ^ Js.bits x * 2 ^ (60 - Js.bits x))
      by (rewrite <- Z.pow_add_r by lia; f_equal; lia).
    split; [apply Z.mul_le_mono_nonneg_r | apply Z.mul_lt_mono_pos_r];
      try lia; apply Z.pow_pos_nonneg; lia. }
  pose proof (Z.div_mod (x * T) 100 ltac:(lia)) as Hq.
  pose proof (Z.mod_pos_bound (x * T) 100 ltac:(lia)) as Hqb.
  set (q := x * T / 100) in *. set (rho := (x * T) mod 100) in *.
  destruct (round_near s q (Js.bits x - 60) l)
    as (M & E & -> & HE & HV & Hexact & Hinexact); try lia.
  cbn [Js.floor]. rewrite Z.shiftl_div_pow2 by lia.
  set (V := Zpos M * 2 ^ (E - (Js.bits x - 60))) in *.
  set (A := 2 ^ (E - (Js.bits x - 60))) in *.
  set (B := 2 ^ (- E)).
  assert (HA : 0 < A) by (apply Z.pow_pos_nonneg; lia).
  assert (HB : 0 < B) by (apply Z.pow_pos_nonneg; lia).
  assert (HAB : A * B = T).
  { unfold A, B, T, t. rewrite <- Z.pow_add_r by lia. f_equal. lia. }
  pose proof (Z.div_mod q 2 ltac:(lia)) as Hh.
  pose proof (Z.mod_pos_bound q 2 ltac:(lia)) as Hhb.
  assert (HT2 : T = 2 * 2 ^ (t - 1)).
  { unfold T. rewrite <- Z.pow_succ_r by lia. f_equal. lia. }
  set (T' := 2 ^ (t - 1)) in *.
  assert (Hfinish : forall Q m,
            m = (if s then - Zpos M else Zpos M) ->
            Q * T <= (if s then - V else V) < (Q + 1) * T -> m / B = Q).
  { intros Q m -> [Hlow Hupp]. symmetry.
    apply Z.div_unique with ((if s then - Zpos M else Zpos M) - B * Q); [|ring].
    left. assert (HVM : (if s then - V else V)
                        = (if s then - Zpos M else Zpos M) * A)
      by (unfold V; destruct s; ring).
    rewrite HVM in Hlow, Hupp. split.
    - assert (Q * B * A <= (if s then - Zpos M else Zpos M) * A)
        by (rewrite <- Z.mul_assoc, (Z.mul_comm B A), HAB; exact Hlow).
      assert (Q * B <= (if s then - Zpos M else Zpos M))
        by (apply (Z.mul_le_mono_pos_r _ _ A); assumption).
      lia.
    - assert ((if s then - Zpos M else Zpos M) * A < (Q + 1) * B * A)
        by (rewrite <- Z.mul_assoc, (Z.mul_comm B A), HAB; exact Hupp).
      assert ((if s then - Zpos M else Zpos M) < (Q + 1) * B)
        by (apply (Z.mul_lt_mono_pos_r A); assumption).
      lia. }
  apply Hfinish; [destruct s; reflexivity|].
  destruct s.
  - (* a negative quotient: the integer part is the one above in
       magnitude, unless the division is exact *)
    pose proof (Z.div_mod (- x) 100 ltac:(lia)) as Hk.
    pose proof (Z.mod_pos_bound (- x) 100 ltac:(lia)) as Hkb.
    set (Q := - x / 100) in *. set (r' := (- x) mod 100) in *.
    assert (HxT : x * T = 100 * (- Q * T) - r' * T)
      by (replace x with (- (100 * Q + r')) by lia; ring).
    assert (HQT : - Q * T = 2 * (- Q * T')) by (rewrite HT2; ring).
    assert (Hr'T : 0 <= r' * T <= 99 * T) by nia.
    split.
    + (* - V >= Q T, that is V <= - Q T *)
      destruct (Z.eq_dec r' 0) as [R0|R0].
      * rewrite R0 in HxT. assert (Eq : q = - Q * T) by lia.
        assert (Hrho : rho = 0) by lia.
        assert (Hev : Z.even q = true)
          by (rewrite Eq, HQT, Z.even_mul; reflexivity).
        rewrite (Hexact (proj2 Hl Hrho) Hev). lia.
      * assert (T <= r' * T) by nia. lia.
    + (* - V < (Q + 1) T, that is V > (- Q - 1) T *)
      destruct (Z.eq_dec q ((- Q - 1) * T + 1)) as [Eq|Ne].
      * assert (Hrho : rho <> 0) by lia.
        assert (Hl' : l <> loc_Exact) by (intros Hc; apply Hl in Hc; contradiction).
        assert (Hod : Z.odd q = true).
        { rewrite Eq. replace ((- Q - 1) * T + 1) with (1 + 2 * ((- Q - 1) * T'))
            by (rewrite HT2; ring).
          rewrite Z.odd_add_mul_2. reflexivity. }
        pose proof (Hinexact Hl' Hod). lia.
      * lia.
  - pose proof (Z.div_mod x 100 ltac:(lia)) as Hk.
    pose proof (Z.mod_pos_bound x 100 ltac:(lia)) as Hkb.
    set (K := x / 100) in *.
    assert (HxT : x * T = 100 * (K * T) + (x mod 100) * T) by (rewrite Hk at 1; ring).
    assert (Hrem : 0 <= (x mod 100) * T <= 99 * T) by nia.
    assert (HKT : K * T = 2 * (K * T')) by (rewrite HT2; ring).
    lia.
Qed.

Lemma potentialPayout_exact a o :
  0 < a -> - 2 ^ 53 < a * o < 2 ^ 53 -> potentialPayout a o = a * o / 100.
Proof.
  intros Ha Hx. unfold potentialPayout.
  destruct (Z.lt_trichotomy o 0) as [Hneg|[->|Hpos]].
  - assert (Ha' : 0 < a < 2 ^ 53) by nia.
    assert (Ho' : 0 < - o < 2 ^ 53) by nia.
    rewrite (proj1 (double_exact a Ha')).
    replace o with (- - o) at 1 by lia.
    rewrite (proj2 (double_exact (- o) Ho')).
    rewrite mul_exact by nia. cbn [xorb].
    rewrite div100_floor by nia. f_equal. ring.
  - rewrite Z.mul_0_r. change (Js.double 0) with (S754_zero false).
    destruct (Js.double a) as [s|s| |s m e]; reflexivity.
  - assert (Ha' : 0 < a < 2 ^ 53) by nia.
    assert (Ho' : 0 < o < 2 ^ 53) by nia.
    rewrite (proj1 (double_exact a Ha')), (proj1 (double_exact o Ho')).
    rewrite mul_exact by lia. cbn [xorb].
    apply div100_floor. nia.
Qed.

End Doubles.

Lemma potentialPayout_floor amount odds :
  0 < amount -> - 2 ^ 53 < amount * odds < 2 ^ 53 ->
  100 * potentialPayout amount odds <= amount * odds
    < 100 * potentialPayout amount odds + 100.
Proof.
  intros Ha Hx. rewrite potentialPayout_exact by assumption.
  pose proof (Z.div_mod (amount * odds) 100 ltac:(lia)).
  pose proof (Z.mod_pos_bound (amount * odds) 100 ltac:(lia)).
  lia.
Qed.

Lemma potentialPayout_truncates amount odds :
  0 < amount -> 0 <= odds -> amount * odds < 2 ^ 53 ->
  potentialPayout amount odds = Z.quot (amount * odds) 100.
Proof.
  intros Ha Ho Hx. rewrite potentialPayout_exact by nia.
  symmetry. apply Z.quot_div_nonneg; nia.
Qed.

(** * The claims *)

(** ** C1: settlement on result declaration *)

(** C1, the code at the failing input.  [alice] stakes 1000 on team_a at
    odds 150, her whole balance; the admin then declares team_a.  The
    declaration is answered 200, the bet row is exactly as it was stored
    at placement (result "pending"), and [alice]'s balance is still 0: it
    was not credited with 1500.  So in both modules that declare results.
    Nor is this particular to the input: whatever the request and
    whichever storage call fails, a result declaration writes to no
    account and to no games row but the addressed one, which keeps owner,
    stake, prediction, game data and payout. *)
Theorem C1_result_declaration_credits_no_winner :
  (lookupGame (snd (afterBet ApiPlay alice 1000)) (Js.Int 4)
     = Some (betRow ApiPlay 7) /\
   balanceOf (snd (afterBet ApiPlay alice 1000)) 7 = Some 0 /\
   replyCode (fst (declaredIn Api "team_a" (snd (afterBet ApiPlay alice 1000))))
     = Some 200 /\
   lookupGame (snd (declaredIn Api "team_a" (snd (afterBet ApiPlay alice 1000))))
     (Js.Int 4) = Some (betRow ApiPlay 7) /\
   balanceOf (snd (declaredIn Api "team_a" (snd (afterBet ApiPlay alice 1000)))) 7
     = Some 0) /\
  (lookupGame (snd (afterBet ApiSqlPlay alice 1000)) (Js.Int 4)
     = Some (betRow ApiSqlPlay 7) /\
   balanceOf (snd (afterBet ApiSqlPlay alice 1000)) 7 = Some 0 /\
   replyCode
     (fst (declaredIn ApiSql "team_a" (snd (afterBet ApiSqlPlay alice 1000))))
     = Some 200 /\
   lookupGame
     (snd (declaredIn ApiSql "team_a" (snd (afterBet ApiSqlPlay alice 1000))))
     (Js.Int 4) = Some (betRow ApiSqlPlay 7) /\
   balanceOf
     (snd (declaredIn ApiSql "team_a" (snd (afterBet ApiSqlPlay alice 1000)))) 7
     = Some 0) /\
  (Game.prediction (betRow ApiPlay 7) = "team_a" /\
   Game.result (betRow ApiPlay 7) = "pending" /\
   Game.payout (betRow ApiPlay 7) = potentialPayout 1000 150 /\
   Game.prediction (betRow ApiSqlPlay 7) = "team_a" /\
   Game.result (betRow ApiSqlPlay 7) = "pending" /\
   Game.payout (betRow ApiSqlPlay 7) = potentialPayout 1000 150 /\
   potentialPayout 1000 150 = 1500) /\
  (forall m req f s,
     users (snd (route (declareResult m req) f s)) = users s /\
     Forall2 (touched (Js.parseInt (params_id req)))
       (games s) (games (snd (route (declareResult m req) f s)))).
Proof.
  split; [vm_compute; repeat split|].
  split; [vm_compute; repeat split|].
  split; [vm_compute; repeat split|].
  intros m req f s.
  destruct (declareResult_frame m req f s) as (Hu & _ & Hg).
  split; [exact Hu | exact Hg].
Qed.

(** ** C2: declaring a result twice *)

(** C2, counterexample.  Game 3 is resulted with result team_a.  A second
    declaration, of team_b, is answered 200 by both modules and the stored
    result is now team_b: the store has changed. *)
Lemma C2_second_declaration_goes_through :
  option_map Game.status (lookupGame resultedWorld (Js.Int 3))
    = Some (Some "resulted") /\
  option_map Game.result (lookupGame resultedWorld (Js.Int 3)) = Some "team_a" /\
  replyCode (fst (declaredIn Api "team_b" resultedWorld)) = Some 200 /\
  option_map Game.result
    (lookupGame (snd (declaredIn Api "team_b" resultedWorld)) (Js.Int 3))
    = Some "team_b" /\
  replyCode (fst (declaredIn ApiSql "team_b" resultedWorld)) = Some 200 /\
  option_map Game.result
    (lookupGame (snd (declaredIn ApiSql "team_b" resultedWorld)) (Js.Int 3))
    = Some "team_b" /\
  snd (declaredIn Api "team_b" resultedWorld) <> resultedWorld /\
  snd (declaredIn ApiSql "team_b" resultedWorld) <> resultedWorld.
Proof. vm_compute. repeat split; discriminate. Qed.

(** C2, as amended.  A result declaration by an admin with a valid
    outcome is accepted on every cricket toss game, whatever its status
    and whatever result it holds, a resulted game included: the answer is
    200 and the addressed row now holds the declared outcome (and status
    "resulted" in the module with the status column).  No account and no
    other games row is written. *)
Theorem C2_declaring_again_overwrites_the_result
  (m : ApiModule) (req : Request) (s : Store) (g : Game.t) (r : string) :
  byAdmin req = true ->
  declareSchemaOf m (body req) = Some r ->
  cricketGame s (Js.parseInt (params_id req)) = Some (OnGame g) ->
  exists resp s',
    route (declareResult m req) [] s = (Sent resp, s') /\
    code resp = 200 /\
    lookupGame s' (Js.parseInt (params_id req)) = Some (declared m r g) /\
    users s' = users s /\
    Forall2 (touched (Js.parseInt (params_id req))) (games s) (games s').
Proof.
  intros Ha Hr Hg.
  destruct (declareResult_overwrites m req s g r Ha Hr Hg)
    as (resp & s' & Hrun & Hcode & Hrow).
  destruct (declareResult_frame m req [] s) as (Hu & _ & Hrows).
  rewrite Hrun in Hu, Hrows.
  exists resp, s'. repeat split; assumption.
Qed.

Lemma C2_declaring_again_witness :
  exists resp s',
    route (declareResult Api (resultRequest "team_b")) [] resultedWorld
      = (Sent resp, s') /\
    code resp = 200 /\
    lookupGame s' (Js.parseInt "3")
      = Some (declared Api "team_b" (toss "resulted" "team_a")) /\
    users s' = users resultedWorld /\
    Forall2 (touched (Js.parseInt "3")) (games resultedWorld) (games s').
Proof.
  apply (C2_declaring_again_overwrites_the_result
           Api (resultRequest "team_b") resultedWorld
           (toss "resulted" "team_a") "team_b"); reflexivity.
Defined.

(** ** C3: debit and bet row *)

(** C3, counterexample.  [alice] stakes her 1000; the debit is written,
    then [storage.createGame] rejects.  The error goes to [next], the
    balance stays at 0 and there is no bet row: on each of the three play
    routes the games table is what it was. *)
Lemma C3_debit_stays_when_bet_creation_fails :
  balanceOf openWorld 7 = Some 1000 /\
  (fst (route (placeBet Js.parseInt GamesPlay (betRequest alice 1000))
          [createGame_op] openWorld) = Next (Rejected createGame_op) /\
   balanceOf (snd (route (placeBet Js.parseInt GamesPlay (betRequest alice 1000))
                     [createGame_op] openWorld)) 7 = Some 0 /\
   games (snd (route (placeBet Js.parseInt GamesPlay (betRequest alice 1000))
                 [createGame_op] openWorld)) = games openWorld) /\
  (fst (route (placeBet Js.parseInt ApiPlay (betRequest alice 1000))
          [createGame_op] openWorld) = Next (Rejected createGame_op) /\
   balanceOf (snd (route (placeBet Js.parseInt ApiPlay (betRequest alice 1000))
                     [createGame_op] openWorld)) 7 = Some 0 /\
   games (snd (route (placeBet Js.parseInt ApiPlay (betRequest alice 1000))
                 [createGame_op] openWorld)) = games openWorld) /\
  (fst (route (placeBet Js.parseInt ApiSqlPlay (betRequest alice 1000))
          [createGame_op] openWorld) = Next (Rejected createGame_op) /\
   balanceOf (snd (route (placeBet Js.parseInt ApiSqlPlay (betRequest alice 1000))
                     [createGame_op] openWorld)) 7 = Some 0 /\
   games (snd (route (placeBet Js.parseInt ApiSqlPlay (betRequest alice 1000))
                 [createGame_op] openWorld)) = games openWorld).
Proof. vm_compute. repeat split. Qed.

(** C3, as amended.  A placement writes the debit and the bet row as two
    storage calls, one after the other, with nothing to undo the first.
    For a valid placement the account can cover: when both calls succeed
    the account is debited by the stake and exactly one row, the bet, is
    added; when the creation of the bet row fails the error is passed on,
    the account stays debited and no row is added; when the debit itself
    fails nothing is written. *)
Theorem C3_debit_and_bet_row_are_two_writes
  (toNumber : string -> Js.Num) (p : PlayRoute) (req : Request) (s : Store)
  (t : Target) (u : User.t) (d : Play) (usr : User.t) :
  user req = Some u -> mayBet p u = true ->
  playSchemaOf p (parsedBody (body req)) = Some d ->
  target toNumber p req s = Some t -> isOpen t = true ->
  lookupUser s (User.id u) = Some usr ->
  betAmount d <= User.balance usr ->
  (exists r bet s',
     route (placeBet toNumber p req) [] s = (Sent r, s') /\
     code r = 201 /\ placedBet r = Some bet /\
     games s' = games s ++ [bet] /\
     balanceOf s' (User.id u) = Some (User.balance usr - betAmount d)) /\
  (exists s',
     route (placeBet toNumber p req) [createGame_op] s
       = (Next (Rejected createGame_op), s') /\
     games s' = games s /\
     balanceOf s' (User.id u) = Some (User.balance usr - betAmount d)) /\
  route (placeBet toNumber p req) [updateUserBalance_op] s
    = (Next (Rejected updateUserBalance_op), s).
Proof.
  intros Hu Hb Hd Ht Ho Hus Hle.
  pose proof (lookupUser_id _ _ _ Hus) as Hid.
  split; [|split].
  - destruct (placeBet_succeeds toNumber p req s t u d usr Hu Hb Hd Ht Ho Hus Hle)
      as (r & bet & odds & s' & Hrun & Hcode & Hbet & _ & Hp).
    exists r, bet, s'. rewrite <- Hid.
    repeat split; try assumption; apply Hp.
  - destruct (placeBet_create_rejected toNumber p req s t u d usr
                Hu Hb Hd Ht Ho Hus Hle) as (s' & Hrun & Hg & Hbal).
    exists s'. rewrite <- Hid. repeat split; assumption.
  - apply (placeBet_debit_rejected toNumber p req s t u d usr); assumption.
Qed.

Lemma C3_two_writes_witness :
  (exists r bet s',
     route (placeBet Js.parseInt ApiSqlPlay (betRequest alice 400)) [] openWorld
       = (Sent r, s') /\
     code r = 201 /\ placedBet r = Some bet /\
     games s' = games openWorld ++ [bet] /\
     balanceOf s' 7 = Some 600) /\
  (exists s',
     route (placeBet Js.parseInt ApiSqlPlay (betRequest alice 400))
       [createGame_op] openWorld = (Next (Rejected createGame_op), s') /\
     games s' = games openWorld /\
     balanceOf s' 7 = Some 600) /\
  route (placeBet Js.parseInt ApiSqlPlay (betRequest alice 400))
    [updateUserBalance_op] openWorld
    = (Next (Rejected updateUserBalance_op), openWorld).
Proof.
  apply (C3_debit_and_bet_row_are_two_writes
           Js.parseInt ApiSqlPlay (betRequest alice 400) openWorld
           (OnGame (toss "open" "pending")) alice (mkPlay 400 "team_a") alice);
    try reflexivity.
  simpl. lia.
Defined.

(** ** C4: the bet row at placement *)

(** C4, the code at the failing input.  [alice] stakes 1000 on team_a at
    odds 150.  On each of the three play routes the row stored for her bet
    is pending (result "pending", game data status "pending") and its
    payout field holds 1500, not 0.  The game history table takes a
    payout above 0 for a win: it shows the pending bet as won, 500 up.
    The row a create route of the api modules stores carries payout 0,
    "calculated when the result is declared" by the comment beside it. *)
Theorem C4_pending_bet_carries_potential_payout :
  replyBet (fst (afterBet GamesPlay alice 1000)) = Some (betRow GamesPlay 7) /\
  replyBet (fst (afterBet ApiPlay alice 1000)) = Some (betRow ApiPlay 7) /\
  replyBet (fst (afterBet ApiSqlPlay alice 1000)) = Some (betRow ApiSqlPlay 7) /\
  lookupGame (snd (afterBet GamesPlay alice 1000)) (Js.Int 4)
    = Some (betRow GamesPlay 7) /\
  lookupGame (snd (afterBet ApiPlay alice 1000)) (Js.Int 4)
    = Some (betRow ApiPlay 7) /\
  lookupGame (snd (afterBet ApiSqlPlay alice 1000)) (Js.Int 4)
    = Some (betRow ApiSqlPlay 7) /\
  (Game.result (betRow GamesPlay 7) = "pending" /\
   Game.gameDataStatus (betRow GamesPlay 7) = Some "pending" /\
   Game.payout (betRow GamesPlay 7) = 1500) /\
  (Game.result (betRow ApiPlay 7) = "pending" /\
   Game.gameDataStatus (betRow ApiPlay 7) = Some "pending" /\
   Game.payout (betRow ApiPlay 7) = 1500) /\
  (Game.result (betRow ApiSqlPlay 7) = "pending" /\
   Game.gameDataStatus (betRow ApiSqlPlay 7) = Some "pending" /\
   Game.payout (betRow ApiSqlPlay 7) = 1500) /\
  (GameHistoryTable.isWin (betRow ApiPlay 7) = true /\
   GameHistoryTable.sign (betRow ApiPlay 7) = "+" /\
   GameHistoryTable.profitLoss (betRow ApiPlay 7) = 500) /\
  option_map Game.payout
    (lookupGame
       (snd (route (createGame ApiCreate (createRequest admin 150 200)) []
               openWorld)) (Js.Int 4)) = Some 0.
Proof. vm_compute. repeat split. Qed.

(** ** C5: status transitions *)

Lemma updateCricketTossStatusSchema_accepts b st :
  Js.prop b "status" = Js.Str st ->
  st = "open" \/ st = "closed" \/ st = "resulted" ->
  updateCricketTossStatusSchema b = Some st.
Proof.
  intros Hb [-> | [-> | ->]]; unfold updateCricketTossStatusSchema; rewrite Hb;
    reflexivity.
Qed.

Lemma updateCricketTossStatusSchema_refuses b :
  (forall st, Js.prop b "status" = Js.Str st ->
              st <> "open" /\ st <> "closed" /\ st <> "resulted") ->
  updateCricketTossStatusSchema b = None.
Proof.
  intros H. destruct (updateCricketTossStatusSchema b) as [st|] eqn:E;
    [|reflexivity].
  pose proof (updateCricketTossStatusSchema_values _ _ E) as Hv.
  unfold updateCricketTossStatusSchema, Zod.string_refine_includes in E.
  destruct (Js.prop b "status") as [| | | |s0]; try discriminate.
  destruct (Zod.includes _ s0); [|discriminate]. injection E as ->.
  destruct (H st eq_refl) as (H1 & H2 & H3).
  destruct Hv as [?|[?|?]]; contradiction.
Qed.

(** Past its checks the status route is the call of
    [storage.updateGameStatus] with the status of the request: the row it
    read is used for its game type only. *)
Lemma updateStatus_hands_over m req s g st :
  byAdmin req = true ->
  updateCricketTossStatusSchema (body req) = Some st ->
  cricketGame s (Js.parseInt (params_id req)) = Some (OnGame g) ->
  route (updateStatus m req) [] s
  = route (updatedGame <- Storage.updateGameStatus
                            (Js.parseInt (params_id req)) st ;;
           ret (json 200 (GameJson updatedGame))) [] s.
Proof.
  intros Ha Hst Ht. apply byAdmin_user in Ha. destruct Ha as (u & Hu & Hadm).
  apply cricketGame_some in Ht. destruct Ht as (g' & [= <-] & Hg & Hty).
  pose proof (lookupGame_notNaN _ _ _ Hg) as Hnan.
  destruct m; unfold_lifecycle; use_facts; reflexivity.
Qed.

(** C5, counterexample.  Game 3 is resulted.  The status route of
    cricket-toss-api.ts, asked for "open", answers 200 and the game is
    open again; asked for "closed" it answers 200 as well, though the game
    was not open, and the game is closed. *)
Lemma C5_resulted_game_is_reopened :
  option_map Game.status (lookupGame resultedWorld (Js.Int 3))
    = Some (Some "resulted") /\
  replyCode (fst (statusSetIn Api "open" resultedWorld)) = Some 200 /\
  option_map Game.status
    (lookupGame (snd (statusSetIn Api "open" resultedWorld)) (Js.Int 3))
    = Some (Some "open") /\
  replyCode (fst (statusSetIn Api "closed" resultedWorld)) = Some 200 /\
  option_map Game.status
    (lookupGame (snd (statusSetIn Api "closed" resultedWorld)) (Js.Int 3))
    = Some (Some "closed") /\
  replyCode (fst (statusSetIn Api "closed" closedWorld)) = Some 200.
Proof. vm_compute. repeat split. Qed.

(** C5, as amended.  For an admin and a cricket toss game, whatever the
    status of the game is: each of the three names open, closed and
    resulted is accepted, and the route then is the call of
    [storage.updateGameStatus] with the name requested, answered 200 with
    the row that call returns; in cricket-toss-api.ts the row stored
    afterwards carries the requested status, and no account is written.
    A status that is none of the three names, a string or not, is answered
    with the validation error and nothing is written. *)
Theorem C5_status_route_writes_the_requested_status
  (m : ApiModule) (req : Request) (s : Store) (g : Game.t) :
  byAdmin req = true ->
  cricketGame s (Js.parseInt (params_id req)) = Some (OnGame g) ->
  (forall st,
     Js.prop (body req) "status" = Js.Str st ->
     st = "open" \/ st = "closed" \/ st = "resulted" ->
     route (updateStatus m req) [] s
     = route (updatedGame <- Storage.updateGameStatus
                               (Js.parseInt (params_id req)) st ;;
              ret (json 200 (GameJson updatedGame))) [] s /\
     (m = Api ->
      exists s',
        route (updateStatus m req) [] s
          = (Sent (json 200 (GameJson (Some (Game.with_status st g)))), s') /\
        lookupGame s' (Js.parseInt (params_id req))
          = Some (Game.with_status st g) /\
        Game.status (Game.with_status st g) = Some st /\
        users s' = users s)) /\
  ((forall st, Js.prop (body req) "status" = Js.Str st ->
               st <> "open" /\ st <> "closed" /\ st <> "resulted") ->
   forall f, route (updateStatus m req) f s = (Sent (json 400 InvalidData), s)).
Proof.
  intros Ha Hg. split.
  - intros st Hb Hin.
    pose proof (updateCricketTossStatusSchema_accepts _ _ Hb Hin) as Hst.
    split; [apply updateStatus_hands_over with g; assumption|].
    intros ->.
    destruct (updateStatus_sets Api req s g st Ha Hst Hg)
      as (s' & Hrun & Hrow & Hu).
    exists s'. split; [exact Hrun|]. split; [exact Hrow|].
    split; [reflexivity | exact Hu].
  - intros Hno f. apply updateStatus_invalid; try assumption.
    + apply cricketGame_some in Hg. destruct Hg as (g' & _ & Hg & _).
      eapply lookupGame_notNaN; exact Hg.
    + apply updateCricketTossStatusSchema_refuses. exact Hno.
Qed.

Lemma C5_status_route_witness :
  (route (updateStatus Api (statusRequest "open")) [] resultedWorld
   = route (updatedGame <- Storage.updateGameStatus (Js.parseInt "3") "open" ;;
            ret (json 200 (GameJson updatedGame))) [] resultedWorld /\
   exists s',
     route (updateStatus Api (statusRequest "open")) [] resultedWorld
       = (Sent (json 200 (GameJson (Some (Game.with_status "open"
                                            (toss "resulted" "team_a"))))), s') /\
     lookupGame s' (Js.parseInt "3")
       = Some (Game.with_status "open" (toss "resulted" "team_a")) /\
     Game.status (Game.with_status "open" (toss "resulted" "team_a"))
       = Some "open" /\
     users s' = users resultedWorld) /\
  route (updateStatus ApiSql (statusRequest "reopened")) [getGame_op]
    resultedWorld
  = (Sent (json 400 InvalidData), resultedWorld).
Proof.
  split.
  - destruct (proj1 (C5_status_route_writes_the_requested_status
                       Api (statusRequest "open") resultedWorld
                       (toss "resulted" "team_a") eq_refl eq_refl)
                "open" eq_refl (or_introl eq_refl))
      as [Hcall Hrow].
    split; [exact Hcall | exact (Hrow eq_refl)].
  - apply (proj2 (C5_status_route_writes_the_requested_status
                    ApiSql (statusRequest "reopened") resultedWorld
                    (toss "resulted" "team_a") eq_refl eq_refl)).
    intros st [= <-]. repeat split; discriminate.
Defined.

(** ** C6: blocked accounts *)

(** C6, the code at the failing input.  [mallory] is blocked, in the
    session and in the store.  cricket-toss.ts answers her play request
    with 403 and writes nothing; the play route of each of the two api
    modules answers 201, stores her bet and debits her 1000. *)
Theorem C6_blocked_account_bets_through_the_api_routes :
  User.isBlocked mallory = true /\
  option_map User.isBlocked (lookupUser openWorld 8) = Some true /\
  afterBet GamesPlay mallory 1000 = (Sent accountBlocked, openWorld) /\
  (replyCode (fst (afterBet ApiPlay mallory 1000)) = Some 201 /\
   replyBet (fst (afterBet ApiPlay mallory 1000)) = Some (betRow ApiPlay 8) /\
   games (snd (afterBet ApiPlay mallory 1000))
     = games openWorld ++ [betRow ApiPlay 8] /\
   balanceOf (snd (afterBet ApiPlay mallory 1000)) 8 = Some 0) /\
  (replyCode (fst (afterBet ApiSqlPlay mallory 1000)) = Some 201 /\
   replyBet (fst (afterBet ApiSqlPlay mallory 1000))
     = Some (betRow ApiSqlPlay 8) /\
   games (snd (afterBet ApiSqlPlay mallory 1000))
     = games openWorld ++ [betRow ApiSqlPlay 8] /\
   balanceOf (snd (afterBet ApiSqlPlay mallory 1000)) 8 = Some 0).
Proof. vm_compute. repeat split. Qed.

(** ** C7: placement on an instance that is not open *)

(** C7, the code at the failing input.  The admin closes game 3 through
    the status route of cricket-toss-api.ts: the answer is 200 and the
    status of the row is "closed".  [alice] then stakes 1000 on instance
    3, and the play route of that module answers 201, stores her bet and
    debits her; so does the play route of cricket-toss.ts.  The same
    after a result was declared for game 3, through the result route of
    either api module and the play route of that module.

    Each play route does refuse a placement when the status it reads is
    not "open", and then writes nothing: the status of the team match in
    cricket-toss-api.ts, the status inside the game data of the games row
    in the two other modules.  The status and result routes write
    neither.  For cricket-toss-api.ts this is so along every sequence of
    cricket toss requests: the match a play request finds, its status
    with it, stays what it was. *)
Theorem C7_closed_or_resulted_game_still_takes_bets :
  ((replyCode (fst (statusSetIn Api "closed" openWorld)) = Some 200 /\
    option_map Game.status (lookupGame closedByRoute (Js.Int 3))
      = Some (Some "closed")) /\
   (replyCode (fst (betIn ApiPlay alice 1000 closedByRoute)) = Some 201 /\
    games (snd (betIn ApiPlay alice 1000 closedByRoute))
      = games closedByRoute ++ [betRow ApiPlay 7] /\
    balanceOf (snd (betIn ApiPlay alice 1000 closedByRoute)) 7 = Some 0) /\
   (replyCode (fst (betIn GamesPlay alice 1000 closedByRoute)) = Some 201 /\
    games (snd (betIn GamesPlay alice 1000 closedByRoute))
      = games closedByRoute ++ [betRow GamesPlay 7] /\
    balanceOf (snd (betIn GamesPlay alice 1000 closedByRoute)) 7 = Some 0) /\
   (replyCode (fst (declaredIn Api "team_a" openWorld)) = Some 200 /\
    option_map Game.status (lookupGame (resultedByRoute Api) (Js.Int 3))
      = Some (Some "resulted") /\
    option_map Game.result (lookupGame (resultedByRoute Api) (Js.Int 3))
      = Some "team_a") /\
   (replyCode (fst (betIn ApiPlay alice 1000 (resultedByRoute Api)))
      = Some 201 /\
    games (snd (betIn ApiPlay alice 1000 (resultedByRoute Api)))
      = games (resultedByRoute Api) ++ [betRow ApiPlay 7] /\
    balanceOf (snd (betIn ApiPlay alice 1000 (resultedByRoute Api))) 7
      = Some 0) /\
   (replyCode (fst (declaredIn ApiSql "team_a" openWorld)) = Some 200 /\
    option_map Game.result (lookupGame (resultedByRoute ApiSql) (Js.Int 3))
      = Some "team_a") /\
   (replyCode (fst (betIn ApiSqlPlay alice 1000 (resultedByRoute ApiSql)))
      = Some 201 /\
    games (snd (betIn ApiSqlPlay alice 1000 (resultedByRoute ApiSql)))
      = games (resultedByRoute ApiSql) ++ [betRow ApiSqlPlay 7] /\
    balanceOf (snd (betIn ApiSqlPlay alice 1000 (resultedByRoute ApiSql))) 7
      = Some 0)) /\
  (forall toNumber p req f s t,
     target toNumber p req s = Some t -> isOpen t = false ->
     snd (route (placeBet toNumber p req) f s) = s /\
     forall u d,
       user req = Some u -> mayBet p u = true ->
       playSchemaOf p (parsedBody (body req)) = Some d ->
       route (placeBet toNumber p req) [] s = (Sent (notOpen p), s)) /\
  (forall toNumber cs s req,
     target toNumber ApiPlay req (run toNumber cs s)
     = target toNumber ApiPlay req s).
Proof.
  split; [vm_compute; repeat split|]. split.
  - intros toNumber p req f s t Ht Ho. split.
    + eapply placeBet_closed_no_write; eassumption.
    + intros u d Hu Hb Hd. eapply placeBet_closed_reply; eassumption.
  - intros toNumber cs s req. simpl. unfold cricketMatch, lookupTeamMatch.
    rewrite run_teamMatches. reflexivity.
Qed.

(** ** C8: the balance boundary *)



(** ** C9: the payout is floored *)

(** C9, counterexample.  A stake of 81145939231909 at odds 111: the
    product is 2^53 + 907, no double, and the payout the three play
    routes store is 90071992547419, one above the integer quotient of the
    product by 100: it exceeds stake * odds / 100.  And at the negative
    odd -15 of the team match a stake of 10 is stored with payout -2,
    where the quotient truncated toward zero is -1. *)
Lemma C9_payout_above_the_exact_quotient :
  highStake * 111 = 2 ^ 53 + 907 /\
  highStake * 111 / 100 = 90071992547418 /\
  potentialPayout highStake 111 = 90071992547419 /\
  highStake * 111 < 100 * potentialPayout highStake 111 /\
  replyPayout (fst (betIn GamesPlay whale highStake highStakesWorld))
    = Some 90071992547419 /\
  replyPayout (fst (betIn ApiPlay whale highStake highStakesWorld))
    = Some 90071992547419 /\
  replyPayout (fst (betIn ApiSqlPlay whale highStake highStakesWorld))
    = Some 90071992547419 /\
  replyPayout
    (fst (route (placeBet Js.parseInt ApiPlay
                   (mkRequest (Some alice) "3" (betBody 10 "team_b")))
            [] highStakesWorld)) = Some (-2) /\
  Z.quot (10 * -15) 100 = -1.
Proof. vm_compute. repeat split. Qed.

(** C9, as amended.  For an integral stake and odds whose product is
    below 2^53 in magnitude, the payout a play route computes and stores
    for the bet is floor(stake * odds / 100), with the odds of the side
    bet on and the stake of the request: it is the integer quotient by
    100 rounded toward minus infinity, the one integer q with
    100 q <= stake * odds < 100 q + 100, so it never exceeds
    stake * odds / 100; for odds that are not negative it is the quotient
    truncated toward zero. *)
Theorem C9_payout_is_floor_of_amount_times_odds_over_100
  (toNumber : string -> Js.Num) (p : PlayRoute) (req : Request) (s : Store)
  (t : Target) (u : User.t) (d : Play) (usr : User.t) (odds : Z) :
  user req = Some u -> mayBet p u = true ->
  playSchemaOf p (parsedBody (body req)) = Some d ->
  target toNumber p req s = Some t -> isOpen t = true ->
  lookupUser s (User.id u) = Some usr ->
  betAmount d <= User.balance usr ->
  targetOdds t (betOn d) = Some odds ->
  - 2 ^ 53 < betAmount d * odds < 2 ^ 53 ->
  exists r bet s',
    route (placeBet toNumber p req) [] s = (Sent r, s') /\
    code r = 201 /\
    placedBet r = Some bet /\
    games s' = games s ++ [bet] /\
    Game.betAmount bet = betAmount d /\
    Game.payout bet = potentialPayout (betAmount d) odds /\
    Game.payout bet = betAmount d * odds / 100 /\
    100 * Game.payout bet <= betAmount d * odds < 100 * Game.payout bet + 100 /\
    (0 <= odds -> Game.payout bet = Z.quot (betAmount d * odds) 100).
Proof.
  intros Hu Hb Hd Ht Ho Hus Hle Hodds Hsmall.
  destruct (placeBet_succeeds toNumber p req s t u d usr Hu Hb Hd Ht Ho Hus Hle)
    as (r & bet & odds' & s' & Hrun & Hcode & Hbet & Hodds' & Hp).
  rewrite Hodds in Hodds'. injection Hodds' as <-.
  destruct Hp as [Hrow _ _ Hamount _ _ _ Hpay].
  pose proof (playSchemaOf_minimum _ _ _ Hd) as Hmin.
  assert (Hstake : 0 < betAmount d) by lia.
  exists r, bet, s'. rewrite Hpay.
  split; [exact Hrun|]. split; [exact Hcode|]. split; [exact Hbet|].
  split; [exact Hrow|]. split; [exact Hamount|]. split; [reflexivity|].
  split; [apply potentialPayout_exact; assumption|].
  split; [apply potentialPayout_floor; assumption|].
  intros Hpos. apply potentialPayout_truncates; try assumption. lia.
Qed.

Lemma C9_payout_witness :
  exists r bet s',
    route (placeBet Js.parseInt ApiSqlPlay (betRequest alice 333)) [] openWorld
      = (Sent r, s') /\
    code r = 201 /\
    placedBet r = Some bet /\
    games s' = games openWorld ++ [bet] /\
    Game.betAmount bet = 333 /\
    Game.payout bet = potentialPayout 333 150 /\
    Game.payout bet = 333 * 150 / 100 /\
    100 * Game.payout bet <= 333 * 150 < 100 * Game.payout bet + 100 /\
    (0 <= 150 -> Game.payout bet = Z.quot (333 * 150) 100).
Proof.
  apply (C9_payout_is_floor_of_amount_times_odds_over_100
           Js.parseInt ApiSqlPlay (betRequest alice 333) openWorld
           (OnGame (toss "open" "pending")) alice (mkPlay 333 "team_a") alice
           150); try reflexivity; simpl; lia.
Defined.

(** ** C10: odds of a game template *)

(** C10.  A create request whose oddTeamA or oddTeamB is a number below
    100 or above 2000 is refused and creates nothing: the answer is an
    error, for an admin the 400 validation error (a caller who is not an
    admin is turned away with 401 or 403).  Hence, along any sequence of
    cricket toss requests, with or without storage failures, the game
    templates in the store keep both odds within 100..2000. *)
Theorem C10_template_odds_stay_within_100_and_2000
  (toNumber : string -> Js.Num) :
  (forall c req f s n,
     Js.prop (body req) "oddTeamA" = Js.Number (Js.Int n) \/
     Js.prop (body req) "oddTeamB" = Js.Number (Js.Int n) ->
     n < 100 \/ 2000 < n ->
     exists r,
       route (createGame c req) f s = (Sent r, s) /\
       400 <= code r <= 403 /\
       (byAdmin req = true -> r = json 400 InvalidData)) /\
  (forall cs s, templatesInRange s -> templatesInRange (run toNumber cs s)).
Proof.
  split.
  - intros c req f s n Hn Hr. apply createGame_invalid.
    eapply createCricketTossSchema_rejects; eassumption.
  - intros cs s. apply run_templatesInRange.
Qed.

Lemma C10_template_odds_witness :
  (exists r,
     route (createGame ApiCreate (createRequest admin 99 150)) [] openWorld
       = (Sent r, openWorld) /\
     400 <= code r <= 403 /\
     (byAdmin (createRequest admin 99 150) = true -> r = json 400 InvalidData)) /\
  templatesInRange
    (run Js.parseInt
       [mkCall (Create GamesCreate) (createRequest admin 120 2000) [];
        mkCall (Create ApiSqlCreate) (createRequest admin 2001 150) [];
        mkCall (Bet ApiPlay) (betRequest alice 500) [createGame_op];
        mkCall (Status Api) (statusRequest "closed") [];
        mkCall (Result ApiSql) (resultRequest "team_b") []]
       openWorld).
Proof.
  split.
  - apply (proj1 (C10_template_odds_stay_within_100_and_2000 Js.parseInt)
             ApiCreate (createRequest admin 99 150) [] openWorld 99).
    + left. reflexivity.
    + left. lia.
  - apply (proj2 (C10_template_odds_stay_within_100_and_2000 Js.parseInt)).
    unfold templatesInRange. simpl. constructor; [|constructor].
    intros _. reflexivity.
Defined.

(** * Further properties of the routes *)

(** ** Helpers *)

Lemma find_updateWhere_other {R} (p q : R -> bool) (f : R -> R) (l : list R) :
  (forall r, q (f r) = q r) ->
  (forall r, q r = true -> p r = false) ->
  find q (updateWhere p f l) = find q l.
Proof.
  intros Hq Hpq. induction l as [|r l IH]; simpl; [reflexivity|].
  destruct (q r) eqn:E.
  - rewrite (Hpq r E), E. reflexivity.
  - destruct (p r); [rewrite Hq|]; rewrite E; exact IH.
Qed.

Lemma find_snoc_fresh {A} (k : A -> bool) (l : list A) (x : A) :
  find k l = None -> k x = true -> find k (l ++ [x]) = Some x.
Proof.
  intros Hl Hx. induction l as [|a l IH]; simpl in *.
  - rewrite Hx. reflexivity.
  - destruct (k a); [discriminate | auto].
Qed.

Lemma gameDataStatus_none g :
  Game.gameData g = None -> Game.gameDataStatus g = None.
Proof. unfold Game.gameDataStatus. intros ->. reflexivity. Qed.

Lemma lookupGame_hasId s i g :
  lookupGame s i = Some g -> In g (games s) /\ hasId Game.id i g = true.
Proof. unfold lookupGame. apply find_some. Qed.

Lemma users_lookup s s' i :
  users s' = users s -> lookupUser s' i = lookupUser s i.
Proof. unfold lookupUser. intros ->. reflexivity. Qed.

Lemma sameBet_ids l kept :
  Forall2 sameBet l kept -> map Game.id kept = map Game.id l.
Proof.
  induction 1 as [|g g' l kept Hg _ IH]; simpl; [reflexivity|].
  destruct Hg as (Hid & _). rewrite Hid, IH. reflexivity.
Qed.

Lemma playSchemaOf_refuses p b :
  (forall n, Js.prop (parsedBody b) "betAmount" = Js.Number (Js.Int n) -> n < 10) \/
  (Js.prop b "betOn" <> Js.Str TeamMatchResult.TEAM_A /\
   Js.prop b "betOn" <> Js.Str TeamMatchResult.TEAM_B) ->
  playSchemaOf p (parsedBody b) = None.
Proof.
  intros H.
  assert (Hside : Js.prop (parsedBody b) "betOn" = Js.prop b "betOn") by reflexivity.
  destruct p; simpl;
    unfold CricketToss.playSchema, CricketTossApi.playSchema,
      CricketTossApiSql.playSchema;
    rewrite Hside;
    (destruct H as [Hn | [Ha Hb]];
     [ unfold Zod.number_min;
       destruct (Js.prop (parsedBody b) "betAmount") as [| | |[z|]|];
       try reflexivity;
       destruct (Z.leb_spec 10 z); [specialize (Hn z eq_refl); lia | reflexivity]
     | destruct (Zod.number_min 10 _); [|reflexivity];
       unfold Zod.enum, Zod.string_refine_includes, Zod.includes;
       destruct (Js.prop b "betOn") as [| | | |side]; try reflexivity;
       simpl;
       destruct (String.eqb_spec side TeamMatchResult.TEAM_A); [subst; congruence|];
       destruct (String.eqb_spec side TeamMatchResult.TEAM_B); [subst; congruence|];
       reflexivity ]).
Qed.

Lemma listed_spec l s g :
  In g (listed l s) <-> In g (games s) /\ listFilter l g = true.
Proof.
  unfold listed.
  destruct l; simpl; unfold listing, getAllGames; simpl; apply filter_In.
Qed.

Lemma listed_snoc l s s' bet :
  games s' = games s ++ [bet] ->
  listed l s' = listed l s ++ (if listFilter l bet then [bet] else []).
Proof.
  intros E. unfold listed.
  destruct l; simpl; unfold listing, getAllGames; simpl; rewrite E;
    rewrite filter_app; reflexivity.
Qed.

Lemma replaceUnderscores_clean s :
  mentions "_" (GameHistoryTable.replaceUnderscores s) = false.
Proof.
  induction s as [|c s IH];
    cbn [mentions GameHistoryTable.replaceUnderscores]; [reflexivity|].
  rewrite IH, orb_false_r.
  destruct (Ascii.eqb_spec c "_") as [->|Hc]; [reflexivity|].
  apply Ascii.eqb_neq. congruence.
Qed.

Ltac unfold_reads :=
  unfold getOne, CricketTossApiReads.getGame, CricketTossApiSqlReads.getGame;
  unfold_handler.

Ltac unfold_filters :=
  unfold CricketTossReads.isListed, CricketTossReads.isActive,
    CricketTossApiReads.isListed, CricketTossApiReads.isActive,
    CricketTossApiSqlReads.isListed, CricketTossApiSqlReads.isActive in *.

(** The row a create route stores. *)
Lemma createGame_row c req s d :
  byAdmin req = true ->
  createCricketTossSchema (body req) = Some d ->
  exists row gd s',
    route (createGame c req) [] s = (Sent (json 201 (GameJson (Some row))), s') /\
    games s' = games s ++ [row] /\
    users s' = users s /\
    Game.id row = nextGameId s /\
    isCricketToss row = true /\
    Game.gameData row = Some gd /\
    GameData.oddTeamA gd = c_oddTeamA d /\ GameData.oddTeamB gd = c_oddTeamB d /\
    GameData.status gd = (match c with GamesCreate => Some "open" | _ => None end) /\
    Game.status row = (match c with GamesCreate => None | _ => Some "open" end).
Proof.
  intros Ha Hd. apply byAdmin_user in Ha. destruct Ha as (u & Hu & Hadm).
  destruct c; unfold_routes; use_facts;
    (do 3 eexists; repeat (split; [reflexivity|]); reflexivity).
Qed.

Lemma created_is_found s s' row :
  freshId s -> games s' = games s ++ [row] -> Game.id row = nextGameId s ->
  lookupGame s' (Js.Int (nextGameId s)) = Some row.
Proof.
  unfold freshId, lookupGame. intros Hf E Hid. rewrite E.
  apply find_snoc_fresh; [exact Hf|]. simpl. rewrite Hid. apply Z.eqb_refl.
Qed.

Section Frames.

Variable toNumber : string -> Js.Num.

(** The row of a successful placement, as the listings see it. *)
Lemma placeBet_row p req s t u d usr :
  user req = Some u -> mayBet p u = true ->
  playSchemaOf p (parsedBody (body req)) = Some d ->
  target toNumber p req s = Some t -> isOpen t = true ->
  lookupUser s (User.id u) = Some usr ->
  betAmount d <= User.balance usr ->
  exists r bet s',
    route (placeBet toNumber p req) [] s = (Sent r, s') /\
    placedBet r = Some bet /\
    games s' = games s ++ [bet] /\
    isCricketToss bet = true /\
    Game.userId bet = User.id u /\
    Game.status bet = None /\
    Game.gameDataStatus bet = Some "pending" /\
    (p <> ApiPlay -> Game.matchId bet = None).
Proof.
  intros Hu Hb Hd Ht Ho Hus Hle.
  apply Z.ltb_ge in Hle.
  pose proof (lookupUser_id _ _ _ Hus) as Hid.
  destruct p; simpl in Ht, Hb, Hd; open_target Ht;
    try (destruct (isOpen_game _ Ho) as (gd & Hgd & Hst));
    unfold isOpen, targetStatus in Ho; try apply negb_true_iff in Hb;
    unfold_play; use_facts;
    (do 3 eexists; repeat (split; [reflexivity|]); simpl;
     first [ intros _; reflexivity | congruence ]).
Qed.

(** What a 201 answer of a play route says, against the store. *)
Lemma placeBet_answer p req f s :
  match route (placeBet toNumber p req) f s with
  | (Sent r, s') =>
      code r = 201 ->
      match payload r with
      | BetPlacedUser bet account =>
          games s' = games s ++ [bet] /\
          lookupUser s' (User.id account) = Some account
      | BetPlaced bet pay =>
          games s' = games s ++ [bet] /\ pay = Game.payout bet
      | _ => False
      end
  | (Next _, _) => True
  end.
Proof.
  destruct p; unfold_play; split_cases; use_facts;
    try exact I; try discriminate;
    intros _; (split; [reflexivity|]); try reflexivity.
  all: unfold lookupUser; simpl;
    match goal with
    | H : lookupUser _ _ = Some ?usr |- _ =>
        rewrite <- (lookupUser_id _ _ _ H) in H;
        rewrite find_updateWhere by reflexivity;
        unfold lookupUser in H; rewrite H; reflexivity
    end.
Qed.

End Frames.

(** ** Who may call what *)

(** X1.  The create, status and result routes do nothing for a caller who
    is not an admin: the answer is 403, or 401 when the api modules see no
    session user, and the store is what it was, whatever the request
    carries and whichever storage call would fail. *)
Theorem X1_admin_routes_refuse_everyone_else
  (toNumber : string -> Js.Num) (rt : Route) (req : Request)
  (f : list StorageOp) (s : Store) :
  adminOnly rt = true -> byAdmin req = false ->
  exists resp,
    route (handler toNumber rt req) f s = (Sent resp, s) /\
    (code resp = 403 \/ (code resp = 401 /\ user req = None)).
Proof.
  intros Hr Ha. unfold byAdmin in Ha.
  destruct rt as [[]|[]|[]|p]; try discriminate Hr; simpl;
    unfold_routes; split_cases; use_facts;
    try discriminate;
    (eexists; split; [reflexivity|]; simpl; auto).
Qed.

Lemma X1_admin_routes_witness :
  exists resp,
    route (handler Js.parseInt (Status Api)
             (mkRequest (Some alice) "3" [("status", Js.Str "closed")]))
      [] openWorld = (Sent resp, openWorld) /\
    (code resp = 403 \/
     (code resp = 401 /\
      user (mkRequest (Some alice) "3" [("status", Js.Str "closed")]) = None)).
Proof.
  apply (X1_admin_routes_refuse_everyone_else
           Js.parseInt (Status Api)
           (mkRequest (Some alice) "3" [("status", Js.Str "closed")])
           [] openWorld); reflexivity.
Defined.



(** ** Bet placement, every outcome *)

(** X3.  However a play request ends, it fails closed.  An answer other
    than 201 leaves the store exactly as it was; a 201 answer comes with
    exactly one new row, the bet, after the rows that were there; and when
    the request ends in [next(err)] the games table is as it was, and the
    store too unless the failing call was [storage.createGame]. *)
Theorem X3_a_play_request_fails_closed
  (toNumber : string -> Js.Num) (p : PlayRoute) (req : Request)
  (f : list StorageOp) (s : Store) :
  match route (placeBet toNumber p req) f s with
  | (Sent r, s') =>
      (code r = 201 /\
       exists bet, placedBet r = Some bet /\ games s' = games s ++ [bet])
      \/ (code r <> 201 /\ s' = s)
  | (Next e, s') =>
      games s' = games s /\ (s' = s \/ e = Rejected createGame_op)
  end.
Proof.
  destruct p; unfold_play; split_cases; use_facts.
  all: try (right; split; [discriminate | reflexivity]).
  all: try (split; [reflexivity | left; reflexivity]).
  all: try (split; [reflexivity | right; reflexivity]).
  all: try (left; split; [reflexivity|]; eexists; split; reflexivity).
  all: exfalso;
    match goal with
    | H : Game.gameData _ = None, H' : Game.gameDataStatus _ = Some _ |- _ =>
        rewrite (gameDataStatus_none _ H) in H'; discriminate
    end.
Qed.

(** X6.  A play request whose stake is not a number of at least 10 (a
    stake sent as a string counts as what parseInt reads from it), or
    whose side is neither team_a nor team_b, is answered 400 "Invalid bet
    amount or prediction" and writes nothing. *)
Theorem X6_stake_below_ten_or_unknown_side_is_refused
  (toNumber : string -> Js.Num) (p : PlayRoute) (req : Request)
  (f : list StorageOp) (s : Store) (u : User.t) :
  user req = Some u -> mayBet p u = true ->
  (p <> GamesPlay -> Js.isNaN (Js.parseInt (params_id req)) = false) ->
  (forall n, Js.prop (parsedBody (body req)) "betAmount" = Js.Number (Js.Int n)
             -> n < 10) \/
  (Js.prop (body req) "betOn" <> Js.Str TeamMatchResult.TEAM_A /\
   Js.prop (body req) "betOn" <> Js.Str TeamMatchResult.TEAM_B) ->
  route (placeBet toNumber p req) f s = (Sent invalidBet, s).
Proof.
  intros Hu Hb Hid Hbad.
  pose proof (playSchemaOf_refuses p (body req) Hbad) as Hno.
  destruct p; simpl in Hb, Hno; try apply negb_true_iff in Hb;
    try (assert (Hnan : Js.isNaN (Js.parseInt (params_id req)) = false)
           by (apply Hid; discriminate));
    unfold_play; use_facts; reflexivity.
Qed.

Lemma X6_refused_stake_witness :
  route (placeBet Js.parseInt ApiPlay
           (mkRequest (Some alice) "3"
              [("betAmount", Js.Str "9 rupees"); ("betOn", Js.Str "team_a")]))
    [] openWorld = (Sent invalidBet, openWorld) /\
  route (placeBet Js.parseInt GamesPlay
           (mkRequest (Some alice) "3" (betBody 100 "draw")))
    [] openWorld = (Sent invalidBet, openWorld).
Proof.
  split.
  - apply (X6_stake_below_ten_or_unknown_side_is_refused
             Js.parseInt ApiPlay _ [] openWorld alice); try reflexivity.
    left. intros n [= <-]. lia.
  - apply (X6_stake_below_ten_or_unknown_side_is_refused
             Js.parseInt GamesPlay _ [] openWorld alice); try reflexivity.
    right. split; discriminate.
Defined.

(** X13.  What a 201 answer of a play route reports is what the store
    holds: the bet it carries is the one new row; in cricket-toss.ts the
    account it carries, with the balance after the debit, is the stored
    account; in the api modules the potentialPayout it carries is the
    payout of the stored row. *)
Theorem X13_the_201_answer_agrees_with_the_store
  (toNumber : string -> Js.Num) (p : PlayRoute) (req : Request)
  (f : list StorageOp) (s : Store) (r : Response) (s' : Store) :
  route (placeBet toNumber p req) f s = (Sent r, s') ->
  code r = 201 ->
  match payload r with
  | BetPlacedUser bet account =>
      games s' = games s ++ [bet] /\
      lookupUser s' (User.id account) = Some account
  | BetPlaced bet pay =>
      games s' = games s ++ [bet] /\ pay = Game.payout bet
  | _ => False
  end.
Proof.
  intros Hrun. pose proof (placeBet_answer toNumber p req f s) as H.
  rewrite Hrun in H. exact H.
Qed.

Lemma X13_answer_witness :
  games (snd (afterBet GamesPlay alice 1000))
    = games openWorld ++ [betRow GamesPlay 7] /\
  lookupUser (snd (afterBet GamesPlay alice 1000)) 7
    = Some (User.with_balance 0 alice).
Proof.
  exact (X13_the_201_answer_agrees_with_the_store
           Js.parseInt GamesPlay (betRequest alice 1000) [] openWorld
           (json 201 (BetPlacedUser (betRow GamesPlay 7)
                        (User.with_balance 0 alice)))
           (snd (afterBet GamesPlay alice 1000)) eq_refl eq_refl).
Defined.

(** ** Accounts *)

(** X4.  No sequence of cricket toss requests, with or without storage
    failures, overdraws an account: if every balance is at least 0 before,
    every balance is at least 0 after. *)
Theorem X4_no_request_overdraws_an_account
  (toNumber : string -> Js.Num) (cs : list Call) (s : Store) :
  solvent s -> solvent (run toNumber cs s).
Proof.
  revert s. induction cs as [|c cs IH]; intros s H; simpl.
  - exact H.
  - apply IH, serve_solvent, H.
Qed.

Lemma X4_no_overdraft_witness :
  solvent
    (run Js.parseInt
       [mkCall (Bet GamesPlay) (betRequest alice 600) [];
        mkCall (Bet ApiPlay) (betRequest alice 600) [];
        mkCall (Bet ApiSqlPlay) (betRequest mallory 1000) [createGame_op];
        mkCall (Result Api) (resultRequest "team_a") []]
       openWorld).
Proof.
  apply (X4_no_request_overdraws_an_account Js.parseInt).
  unfold solvent. simpl.
  repeat (apply Forall_cons; [simpl; lia|]). apply Forall_nil.
Defined.

(** X5.  A request writes to no account but the caller's, and never adds
    to a balance: the create, status and result routes leave the accounts
    as they are; after any request every account but the caller's is what
    it was, and the caller's balance is at most what it was. *)
Theorem X5_only_the_caller_is_debited_and_nobody_credited
  (toNumber : string -> Js.Num) (c : Call) (s : Store) :
  (adminOnly (c_route c) = true ->
   users (snd (serve toNumber c s)) = users s) /\
  (forall j,
     (forall u, user (c_request c) = Some u -> User.id u <> j) ->
     lookupUser (snd (serve toNumber c s)) j = lookupUser s j) /\
  (forall u usr,
     user (c_request c) = Some u -> lookupUser s (User.id u) = Some usr ->
     exists b, balanceOf (snd (serve toNumber c s)) (User.id u) = Some b /\
               b <= User.balance usr).
Proof.
  destruct (serve_accounts toNumber c s)
    as [_ [E|(Hr & u & usr & a & Hu & Hl & Ha & E)]].
  - split; [intros _; exact E|]. split.
    + intros j _. unfold lookupUser. rewrite E. reflexivity.
    + intros u usr _ Hl. exists (User.balance usr). split; [|lia].
      unfold balanceOf, lookupUser. rewrite E.
      unfold lookupUser in Hl. rewrite Hl. reflexivity.
  - split; [intros Hadm; congruence|]. split.
    + intros j Hj. unfold lookupUser. rewrite E.
      apply find_updateWhere_other; [reflexivity|].
      intros r Hr'. simpl in Hr' |- *. apply Z.eqb_eq in Hr'. apply Z.eqb_neq.
      pose proof (lookupUser_id _ _ _ Hl). pose proof (Hj u Hu). congruence.
    + intros u' usr' Hu' Hl'. rewrite Hu in Hu'. injection Hu' as <-.
      rewrite Hl in Hl'. injection Hl' as <-.
      exists (User.balance usr - a). split; [|lia].
      unfold balanceOf, lookupUser. rewrite E.
      rewrite <- (lookupUser_id _ _ _ Hl) in Hl |- *.
      eapply balance_after_update; exact Hl.
Qed.

Lemma X5_accounts_witness :
  users (snd (serve Js.parseInt
                (mkCall (Result ApiSql) (resultRequest "team_a") []) openWorld))
    = users openWorld /\
  lookupUser (snd (serve Js.parseInt
                     (mkCall (Bet GamesPlay) (betRequest alice 400) [])
                     openWorld)) 8
    = lookupUser openWorld 8 /\
  exists b,
    balanceOf (snd (serve Js.parseInt
                      (mkCall (Bet GamesPlay) (betRequest alice 400) [])
                      openWorld)) 7 = Some b /\
    b <= 1000.
Proof.
  split; [|split].
  - apply (proj1 (X5_only_the_caller_is_debited_and_nobody_credited
                    Js.parseInt
                    (mkCall (Result ApiSql) (resultRequest "team_a") [])
                    openWorld)).
    reflexivity.
  - apply (proj1 (proj2 (X5_only_the_caller_is_debited_and_nobody_credited
                           Js.parseInt
                           (mkCall (Bet GamesPlay) (betRequest alice 400) [])
                           openWorld))).
    intros u [= <-]. discriminate.
  - apply (proj2 (proj2 (X5_only_the_caller_is_debited_and_nobody_credited
                           Js.parseInt
                           (mkCall (Bet GamesPlay) (betRequest alice 400) [])
                           openWorld)) alice alice); reflexivity.
Defined.

(** X15.  No cricket toss route writes the team matches.  So whether the
    play route of cricket-toss-api.ts takes bets on a match is out of
    reach of every sequence of create, status, result and play requests:
    the match it finds for a request, and its status, stay the same. *)
Theorem X15_matches_are_never_written
  (toNumber : string -> Js.Num) (cs : list Call) (s : Store) (req : Request) :
  teamMatches (run toNumber cs s) = teamMatches s /\
  target toNumber ApiPlay req (run toNumber cs s)
    = target toNumber ApiPlay req s.
Proof.
  split; [apply run_teamMatches|].
  simpl. unfold cricketMatch, lookupTeamMatch.
  rewrite run_teamMatches. reflexivity.
Qed.

(** X16.  No cricket toss request deletes or reorders games rows: after
    any sequence of requests the ids of the rows that were there come
    first, in the same order, and the table is at least as long. *)
Theorem X16_rows_are_never_deleted
  (toNumber : string -> Js.Num) (cs : list Call) (s : Store) :
  exists more,
    map Game.id (games (run toNumber cs s)) = map Game.id (games s) ++ more /\
    (List.length (games s) <= List.length (games (run toNumber cs s)))%nat.
Proof.
  destruct (run_rowsKept toNumber cs s) as (kept & more & E & F).
  exists (map Game.id more). rewrite E, map_app, (sameBet_ids _ _ F).
  split; [reflexivity|].
  rewrite length_app. rewrite <- (Forall2_length F). lia.
Qed.

(** ** Lifecycle routes, the refusals *)

(** X7.  For an admin and an id that is a number, the lifecycle routes
    refuse without writing: a result other than team_a or team_b is a
    validation error (400); an id with no games row is answered 404; and a
    games row of another game type is answered 400 "Game is not a Cricket
    Toss game", so these routes never write to the rows of other games. *)
Theorem X7_lifecycle_routes_refuse_without_writing
  (m : ApiModule) (req : Request) (s : Store) :
  byAdmin req = true ->
  Js.isNaN (Js.parseInt (params_id req)) = false ->
  (declareSchemaOf m (body req) = None ->
   forall f, route (declareResult m req) f s = (Sent (json 400 InvalidData), s)) /\
  (declareSchemaOf m (body req) <> None ->
   match lookupGame s (Js.parseInt (params_id req)) with
   | None => route (declareResult m req) [] s = (Sent gameNotFound, s)
   | Some g => isCricketToss g = false ->
               route (declareResult m req) [] s = (Sent notCricketToss, s)
   end) /\
  (updateCricketTossStatusSchema (body req) <> None ->
   match lookupGame s (Js.parseInt (params_id req)) with
   | None => route (updateStatus m req) [] s = (Sent gameNotFound, s)
   | Some g => isCricketToss g = false ->
               route (updateStatus m req) [] s = (Sent notCricketToss, s)
   end).
Proof.
  intros Ha Hnan. apply byAdmin_user in Ha. destruct Ha as (u & Hu & Hadm).
  unfold isCricketToss.
  split; [|split].
  - intros Hno f.
    destruct m; simpl in Hno; unfold_lifecycle; use_facts; reflexivity.
  - intros Hok.
    destruct (declareSchemaOf m (body req)) as [r|] eqn:Hr; [|congruence].
    destruct (lookupGame s (Js.parseInt (params_id req))) as [g|] eqn:Hg;
      [intros Hty|];
      destruct m; simpl in Hr; unfold_lifecycle; use_facts; reflexivity.
  - intros Hok.
    destruct (updateCricketTossStatusSchema (body req)) as [st|] eqn:Hst;
      [|congruence].
    destruct (lookupGame s (Js.parseInt (params_id req))) as [g|] eqn:Hg;
      [intros Hty|];
      destruct m; unfold_lifecycle; use_facts; reflexivity.
Qed.

Lemma X7_lifecycle_refusals_witness :
  route (declareResult ApiSql (resultRequest "draw")) [poolQuery_op] openWorld
    = (Sent (json 400 InvalidData), openWorld) /\
  route (declareResult Api
           (mkRequest (Some admin) "99" [("result", Js.Str "team_a")]))
    [] openWorld = (Sent gameNotFound, openWorld) /\
  route (updateStatus ApiSql
           (mkRequest (Some admin) "99" [("status", Js.Str "closed")]))
    [] openWorld = (Sent gameNotFound, openWorld).
Proof.
  split; [|split].
  - destruct (X7_lifecycle_routes_refuse_without_writing
                ApiSql (resultRequest "draw") openWorld eq_refl eq_refl)
      as (H & _ & _).
    exact (H eq_refl [poolQuery_op]).
  - destruct (X7_lifecycle_routes_refuse_without_writing
                Api
                (mkRequest (Some admin) "99" [("result", Js.Str "team_a")])
                openWorld eq_refl eq_refl)
      as (_ & H & _).
    apply H. discriminate.
  - destruct (X7_lifecycle_routes_refuse_without_writing
                ApiSql
                (mkRequest (Some admin) "99" [("status", Js.Str "closed")])
                openWorld eq_refl eq_refl)
      as (_ & _ & H).
    apply H. discriminate.
Defined.

(** ** The read routes *)

(** X8.  The six listing routes only read, also when storage.getAllGames
    fails, and what they answer are cricket toss rows of the games table.
    Every active listing is part of the listing of its module; what
    cricket-toss.ts lists (rows of user 1 without match) the api modules
    list too, what it lists as active the module with pool lists as
    active; and the two api modules list the same rows. *)
Theorem X8_listings_only_read_and_nest (s : Store) (g : Game.t) :
  (forall l rejects, snd (getList l rejects s) = s) /\
  (forall l, In g (listed l s) -> In g (games s) /\ isCricketToss g = true) /\
  (In g (listed GamesActive s) -> In g (listed GamesList s)) /\
  (In g (listed ApiActive s) -> In g (listed ApiList s)) /\
  (In g (listed ApiSqlActive s) -> In g (listed ApiSqlList s)) /\
  (In g (listed GamesList s) -> In g (listed ApiList s)) /\
  (In g (listed GamesActive s) -> In g (listed ApiSqlActive s)) /\
  listed ApiList s = listed ApiSqlList s.
Proof.
  split.
  { intros l rejects. destruct l, rejects; reflexivity. }
  split.
  { intros l H. apply listed_spec in H. destruct H as [Hin Hf].
    split; [exact Hin|].
    destruct l; simpl in Hf; unfold_filters;
      repeat (apply andb_true_iff in Hf; destruct Hf as [Hf _]); exact Hf. }
  repeat split; try reflexivity; intros H;
    apply listed_spec in H; apply listed_spec;
    destruct H as [Hin Hf]; (split; [exact Hin|]); simpl in *;
    unfold_filters;
    repeat (apply andb_true_iff in Hf; destruct Hf as [Hf ?]);
    repeat (apply andb_true_iff; split); assumption.
Qed.

Lemma X8_listings_witness :
  In (toss "open" "pending") (listed ApiSqlActive openWorld) /\
  In (toss "open" "pending") (listed ApiList openWorld).
Proof.
  assert (H : In (toss "open" "pending") (listed GamesActive openWorld))
    by (left; reflexivity).
  destruct (X8_listings_only_read_and_nest openWorld (toss "open" "pending"))
    as (_ & _ & Hlist & _ & _ & Hapi & Hactive & _).
  split; [exact (Hactive H) | exact (Hapi (Hlist H))].
Defined.

(** X9.  GET /api/cricket-toss/:id only reads.  It answers 200 with a row
    exactly for the row the id finds when that row is a cricket toss row,
    and such a row is one the listing route lists; a row of another game
    type is answered 400, an id without row 404, and an id that is no
    number 400 "Invalid game ID". *)
Theorem X9_single_game_route_only_reads
  (m : ApiModule) (req : Request) (f : list StorageOp) (s : Store) :
  snd (route (getOne m req) f s) = s /\
  (forall g,
     route (getOne m req) f s = (Sent (json 200 (GameJson (Some g))), s) ->
     In g (listed ApiList s) /\
     lookupGame s (Js.parseInt (params_id req)) = Some g) /\
  (forall g,
     lookupGame s (Js.parseInt (params_id req)) = Some g ->
     route (getOne m req) [] s
       = (Sent (if isCricketToss g then json 200 (GameJson (Some g))
                else notCricketToss), s)) /\
  (Js.isNaN (Js.parseInt (params_id req)) = false ->
   lookupGame s (Js.parseInt (params_id req)) = None ->
   route (getOne m req) [] s = (Sent gameNotFound, s)) /\
  (Js.parseInt (params_id req) = Js.NaN ->
   route (getOne m req) f s = (Sent invalidGameId, s)).
Proof.
  split; [|split; [|split; [|split]]].
  - destruct m; unfold_reads; split_cases.
  - intros g. destruct m; unfold_reads; split_cases; use_facts;
      intros [= <-]; (split; [|reflexivity]);
      apply listed_spec;
      match goal with
      | H : lookupGame _ _ = Some _ |- _ =>
          apply lookupGame_hasId in H; destruct H as [Hin _]
      end;
      (split; [exact Hin|]); simpl;
      unfold CricketTossApiReads.isListed, isCricketToss;
      match goal with
      | H : negb _ = false |- _ => apply negb_false_iff in H; exact H
      end.
  - intros g Hg. pose proof (lookupGame_notNaN _ _ _ Hg) as Hnan.
    unfold isCricketToss.
    destruct m; unfold_reads; use_facts;
      destruct (String.eqb _ _); reflexivity.
  - intros Hnan Hg. destruct m; unfold_reads; use_facts; reflexivity.
  - intros Hnan. destruct m; unfold_reads; use_facts; reflexivity.
Qed.

Lemma X9_single_game_witness :
  route (getOne Api (mkRequest None "3" [])) [] resultedWorld
    = (Sent (json 200 (GameJson (Some (toss "resulted" "team_a")))),
       resultedWorld) /\
  route (getOne ApiSql (mkRequest None "12" [])) [] resultedWorld
    = (Sent gameNotFound, resultedWorld) /\
  route (getOne ApiSql (mkRequest None "x3" [])) [getGame_op] resultedWorld
    = (Sent invalidGameId, resultedWorld).
Proof.
  split; [|split].
  - destruct (X9_single_game_route_only_reads
                Api (mkRequest None "3" []) [] resultedWorld)
      as (_ & _ & H & _).
    exact (H (toss "resulted" "team_a") eq_refl).
  - destruct (X9_single_game_route_only_reads
                ApiSql (mkRequest None "12" []) [] resultedWorld)
      as (_ & _ & _ & H & _).
    exact (H eq_refl eq_refl).
  - destruct (X9_single_game_route_only_reads
                ApiSql (mkRequest None "x3" []) [getGame_op] resultedWorld)
      as (_ & _ & _ & _ & H).
    exact (H eq_refl).
Defined.

(** X10.  A placed bet is itself a cricket toss games row.  In the store
    the placement leaves, both api modules list it among the games, after
    the rows they listed before, and the three active listings are what
    they were; cricket-toss.ts lists it among the games only when the
    bettor is user 1 (and the bet has no match id), and not at all for
    any other bettor. *)
Theorem X10_a_placed_bet_is_listed_as_a_game
  (toNumber : string -> Js.Num) (p : PlayRoute) (req : Request) (s : Store)
  (t : Target) (u : User.t) (d : Play) (usr : User.t) :
  user req = Some u -> mayBet p u = true ->
  playSchemaOf p (parsedBody (body req)) = Some d ->
  target toNumber p req s = Some t -> isOpen t = true ->
  lookupUser s (User.id u) = Some usr ->
  betAmount d <= User.balance usr ->
  exists r bet s',
    route (placeBet toNumber p req) [] s = (Sent r, s') /\
    placedBet r = Some bet /\
    listed ApiList s' = listed ApiList s ++ [bet] /\
    listed ApiSqlList s' = listed ApiSqlList s ++ [bet] /\
    (User.id u <> 1 -> listed GamesList s' = listed GamesList s) /\
    (User.id u = 1 -> p <> ApiPlay ->
     listed GamesList s' = listed GamesList s ++ [bet]) /\
    listed GamesActive s' = listed GamesActive s /\
    listed ApiActive s' = listed ApiActive s /\
    listed ApiSqlActive s' = listed ApiSqlActive s.
Proof.
  intros Hu Hb Hd Ht Ho Hus Hle.
  destruct (placeBet_row toNumber p req s t u d usr Hu Hb Hd Ht Ho Hus Hle)
    as (r & bet & s' & Hrun & Hbet & Hrows & Hty & Hown & Hst & Hgd & Hm).
  exists r, bet, s'. split; [exact Hrun|]. split; [exact Hbet|].
  assert (Hnot : gameDataOpen bet = false)
    by (unfold gameDataOpen; rewrite Hgd; reflexivity).
  repeat split; try intros Hone; try intros Hp;
    rewrite (listed_snoc _ s s' bet Hrows); simpl;
    unfold_filters; unfold noMatchId;
    rewrite ?Hty, ?Hown, ?Hst, ?Hnot, ?andb_false_r; simpl;
    try reflexivity; try apply app_nil_r.
  - destruct (Z.eqb_spec (User.id u) 1); [contradiction|]. apply app_nil_r.
  - rewrite Hone, (Hm Hp). reflexivity.
Qed.

Lemma X10_listed_bet_witness :
  exists r bet s',
    route (placeBet Js.parseInt ApiSqlPlay (betRequest alice 400)) [] openWorld
      = (Sent r, s') /\
    placedBet r = Some bet /\
    listed ApiList s' = listed ApiList openWorld ++ [bet] /\
    listed ApiSqlList s' = listed ApiSqlList openWorld ++ [bet] /\
    (User.id alice <> 1 -> listed GamesList s' = listed GamesList openWorld) /\
    (User.id alice = 1 -> ApiSqlPlay <> ApiPlay ->
     listed GamesList s' = listed GamesList openWorld ++ [bet]) /\
    listed GamesActive s' = listed GamesActive openWorld /\
    listed ApiActive s' = listed ApiActive openWorld /\
    listed ApiSqlActive s' = listed ApiSqlActive openWorld.
Proof.
  apply (X10_a_placed_bet_is_listed_as_a_game
           Js.parseInt ApiSqlPlay (betRequest alice 400) openWorld
           (OnGame (toss "open" "pending")) alice (mkPlay 400 "team_a") alice);
    try reflexivity.
  simpl. lia.
Defined.

(** ** Placement and the game history table *)

(** X11.  A bet placed at odds of at least 100, stake times odds below
    2^53, is stored with a payout above 0, so the game history table
    shows it as a win while its result is still pending: isWin holds, and
    the amount is printed with a plus sign and is payout less stake, not
    the stake lost. *)
Theorem X11_a_pending_bet_is_shown_as_a_win
  (toNumber : string -> Js.Num) (p : PlayRoute) (req : Request) (s : Store)
  (t : Target) (u : User.t) (d : Play) (usr : User.t) (odds : Z) :
  user req = Some u -> mayBet p u = true ->
  playSchemaOf p (parsedBody (body req)) = Some d ->
  target toNumber p req s = Some t -> isOpen t = true ->
  lookupUser s (User.id u) = Some usr ->
  betAmount d <= User.balance usr ->
  targetOdds t (betOn d) = Some odds ->
  100 <= odds -> betAmount d * odds < 2 ^ 53 ->
  exists r bet s',
    route (placeBet toNumber p req) [] s = (Sent r, s') /\
    placedBet r = Some bet /\
    Game.result bet = "pending" /\
    0 < Game.payout bet /\
    GameHistoryTable.isWin bet = true /\
    GameHistoryTable.sign bet = "+" /\
    GameHistoryTable.profitLoss bet = Game.payout bet - Game.betAmount bet.
Proof.
  intros Hu Hb Hd Ht Ho Hus Hle Hodds Hmin Hsmall.
  destruct (placeBet_succeeds toNumber p req s t u d usr Hu Hb Hd Ht Ho Hus Hle)
    as (r & bet & odds' & s' & Hrun & _ & Hbet & Hodds' & Hp).
  rewrite Hodds in Hodds'. injection Hodds' as <-.
  destruct Hp as [_ _ _ Hamount _ Hres _ Hpay].
  pose proof (playSchemaOf_minimum _ _ _ Hd) as Hten.
  pose proof (potentialPayout_floor (betAmount d) odds
                ltac:(lia) ltac:(nia)) as Hfloor.
  assert (Hwin : 0 < Game.payout bet) by (rewrite Hpay; nia).
  assert (Hb' : GameHistoryTable.isWin bet = true)
    by (unfold GameHistoryTable.isWin; apply Z.gtb_lt; lia).
  exists r, bet, s'. unfold GameHistoryTable.sign, GameHistoryTable.profitLoss.
  rewrite Hb'. repeat split; try assumption; reflexivity.
Qed.

Lemma X11_pending_win_witness :
  exists r bet s',
    route (placeBet Js.parseInt GamesPlay (betRequest alice 400)) [] openWorld
      = (Sent r, s') /\
    placedBet r = Some bet /\
    Game.result bet = "pending" /\
    0 < Game.payout bet /\
    GameHistoryTable.isWin bet = true /\
    GameHistoryTable.sign bet = "+" /\
    GameHistoryTable.profitLoss bet = Game.payout bet - Game.betAmount bet.
Proof.
  apply (X11_a_pending_bet_is_shown_as_a_win
           Js.parseInt GamesPlay (betRequest alice 400) openWorld
           (OnGame (toss "open" "pending")) alice (mkPlay 400 "team_a") alice
           150); try reflexivity; simpl; lia.
Defined.

(** X17.  The labels the game history table prints for a game type and for
    a game mode never contain an underscore, whatever the stored string
    is. *)
Theorem X17_labels_have_no_underscore
  (gameType : string) (gameMode : option string) :
  mentions "_" (GameHistoryTable.formatGameType gameType) = false /\
  mentions "_" (GameHistoryTable.formatGameMode gameMode) = false.
Proof.
  split.
  - unfold GameHistoryTable.formatGameType.
    repeat (match goal with |- context [if ?b then _ else _] => destruct b end;
            [reflexivity|]).
    apply replaceUnderscores_clean.
  - unfold GameHistoryTable.formatGameMode.
    destruct gameMode as [m|]; [|reflexivity].
    repeat (match goal with |- context [if ?b then _ else _] => destruct b end;
            [reflexivity|]).
    apply replaceUnderscores_clean.
Qed.

(** ** Creating a game, then using it *)

(** X12.  What a created game is good for depends on the module that
    created it.  A game created through cricket-toss.ts takes a covered
    bet through the play route of cricket-toss.ts and of the module with
    pool: 201, the payout computed from the odds of the create request,
    the stake debited.  A game created through either api module is
    refused by those same play routes with 400 "Game is not open for
    betting", whatever the bet: its status is not in the game data, where
    they look for it. *)
Theorem X12_create_then_bet
  (toNumber : string -> Js.Num)
  (c : CreateRoute) (creq : Request) (s : Store) (d : CreateCricketToss)
  (p : PlayRoute) (req : Request) (u : User.t) (b : Play) (usr : User.t) :
  byAdmin creq = true ->
  createCricketTossSchema (body creq) = Some d ->
  freshId s ->
  p <> ApiPlay ->
  toNumber (params_id req) = Js.Int (nextGameId s) ->
  Js.parseInt (params_id req) = Js.Int (nextGameId s) ->
  user req = Some u -> mayBet p u = true ->
  playSchemaOf p (parsedBody (body req)) = Some b ->
  lookupUser s (User.id u) = Some usr ->
  betAmount b <= User.balance usr ->
  match c with
  | GamesCreate =>
      exists r bet s',
        route (placeBet toNumber p req) []
          (snd (route (createGame c creq) [] s)) = (Sent r, s') /\
        code r = 201 /\ placedBet r = Some bet /\
        Game.payout bet
          = potentialPayout (betAmount b) (createdOdds d (betOn b)) /\
        balanceOf s' (User.id u) = Some (User.balance usr - betAmount b)
  | ApiCreate | ApiSqlCreate =>
      route (placeBet toNumber p req) []
        (snd (route (createGame c creq) [] s))
      = (Sent (notOpen p), snd (route (createGame c creq) [] s))
  end.
Proof.
  intros Ha Hd Hfresh Hp Hnum Hint Hu Hb Hbody Hus Hle.
  destruct (createGame_row c creq s d Ha Hd)
    as (row & gd & s1 & Hrun & Hrows & Husers & Hid & Hty
        & Hgd & Hoa & Hob & Hst & _).
  rewrite Hrun. simpl snd.
  pose proof (created_is_found s s1 row Hfresh Hrows Hid) as Hfound.
  assert (Ht : target toNumber p req s1 = Some (OnGame row)).
  { destruct p; [| congruence |]; simpl; unfold cricketGame;
      rewrite ?Hnum, ?Hint, Hfound; unfold isCricketToss in Hty; rewrite Hty;
      reflexivity. }
  rewrite <- (users_lookup s s1 (User.id u) Husers) in Hus.
  destruct c.
  - assert (Ho : isOpen (OnGame row) = true).
    { unfold isOpen, targetStatus, Game.gameDataStatus.
      rewrite Hgd, Hst. reflexivity. }
    destruct (placeBet_succeeds toNumber p req s1 (OnGame row) u b usr
                Hu Hb Hbody Ht Ho Hus Hle)
      as (r & bet & odds & s' & Hplay & Hcode & Hbet & Hodds & Hplaced).
    exists r, bet, s'. split; [exact Hplay|]. split; [exact Hcode|].
    split; [exact Hbet|].
    simpl in Hodds. rewrite Hgd in Hodds. injection Hodds as <-.
    destruct Hplaced as [_ Hdeb _ _ _ _ _ Hpay].
    split.
    + rewrite Hpay. unfold createdOdds. rewrite Hoa, Hob. reflexivity.
    + rewrite <- (lookupUser_id _ _ _ Hus). exact Hdeb.
  - assert (Ho : isOpen (OnGame row) = false).
    { unfold isOpen, targetStatus, Game.gameDataStatus.
      rewrite Hgd, Hst. reflexivity. }
    eapply placeBet_closed_reply; eassumption.
  - assert (Ho : isOpen (OnGame row) = false).
    { unfold isOpen, targetStatus, Game.gameDataStatus.
      rewrite Hgd, Hst. reflexivity. }
    eapply placeBet_closed_reply; eassumption.
Qed.

Lemma X12_create_then_bet_witness :
  (exists r bet s',
     route (placeBet Js.parseInt GamesPlay
              (mkRequest (Some alice) "4" (betBody 250 "team_b"))) []
       (snd (route (createGame GamesCreate (createRequest admin 120 185))
               [] openWorld)) = (Sent r, s') /\
     code r = 201 /\ placedBet r = Some bet /\
     Game.payout bet = potentialPayout 250 185 /\
     balanceOf s' 7 = Some 750) /\
  route (placeBet Js.parseInt ApiSqlPlay
           (mkRequest (Some alice) "4" (betBody 250 "team_b"))) []
    (snd (route (createGame ApiSqlCreate (createRequest admin 120 185))
            [] openWorld))
  = (Sent (notOpen ApiSqlPlay),
     snd (route (createGame ApiSqlCreate (createRequest admin 120 185))
            [] openWorld)).
Proof.
  split.
  - apply (X12_create_then_bet
             Js.parseInt GamesCreate (createRequest admin 120 185) openWorld
             (mkCreate "India" "Australia" None "2025-03-01T09:30" 120 185 None)
             GamesPlay (mkRequest (Some alice) "4" (betBody 250 "team_b"))
             alice (mkPlay 250 "team_b") alice);
      try reflexivity; discriminate.
  - apply (X12_create_then_bet
             Js.parseInt ApiSqlCreate (createRequest admin 120 185) openWorld
             (mkCreate "India" "Australia" None "2025-03-01T09:30" 120 185 None)
             ApiSqlPlay (mkRequest (Some alice) "4" (betBody 250 "team_b"))
             alice (mkPlay 250 "team_b") alice);
      try reflexivity; discriminate.
Defined.

(** X14.  A game an admin creates is served back: the 201 answer carries
    the stored row, GET /api/cricket-toss/:id with its id answers 200 with
    that same row, and the listings of the api modules show it after the
    rows they showed before.  As active it is listed where its status is
    looked for: a game created through cricket-toss-api.ts by the active
    listing of that module, a game created through cricket-toss.ts by the
    active listing of the module with pool.  A game created through
    either api module has no status in its game data, so the active
    listings of cricket-toss.ts and of the module with pool leave it
    out. *)
Theorem X14_a_created_game_is_served_back
  (c : CreateRoute) (creq : Request) (s : Store) (d : CreateCricketToss)
  (m : ApiModule) (req : Request) :
  byAdmin creq = true ->
  createCricketTossSchema (body creq) = Some d ->
  freshId s ->
  Js.parseInt (params_id req) = Js.Int (nextGameId s) ->
  exists row s',
    route (createGame c creq) [] s = (Sent (json 201 (GameJson (Some row))), s') /\
    route (getOne m req) [] s' = (Sent (json 200 (GameJson (Some row))), s') /\
    listed ApiList s' = listed ApiList s ++ [row] /\
    listed ApiSqlList s' = listed ApiSqlList s ++ [row] /\
    (c = ApiCreate -> listed ApiActive s' = listed ApiActive s ++ [row]) /\
    (c = GamesCreate ->
     listed ApiSqlActive s' = listed ApiSqlActive s ++ [row]) /\
    (c <> GamesCreate ->
     listed ApiSqlActive s' = listed ApiSqlActive s /\
     listed GamesActive s' = listed GamesActive s).
Proof.
  intros Ha Hd Hfresh Hint.
  destruct (createGame_row c creq s d Ha Hd)
    as (row & gd & s1 & Hrun & Hrows & Husers & Hid & Hty
        & Hgd & Hoa & Hob & Hst & Hcol).
  pose proof (created_is_found s s1 row Hfresh Hrows Hid) as Hfound.
  exists row, s1. split; [exact Hrun|]. split.
  { rewrite <- Hint in Hfound.
    pose proof (lookupGame_notNaN _ _ _ Hfound) as Hnan.
    unfold isCricketToss in Hty.
    destruct m; unfold_reads; use_facts; reflexivity. }
  assert (Hopen : gameDataOpen row
                  = match c with GamesCreate => true | _ => false end).
  { unfold gameDataOpen, Game.gameDataStatus. rewrite Hgd, Hst.
    destruct c; reflexivity. }
  repeat split; try intros Hc;
    rewrite (listed_snoc _ s s1 row Hrows); simpl;
    unfold_filters;
    destruct c; try congruence; simpl in Hopen;
    rewrite ?Hty, ?Hopen, ?Hcol, ?andb_false_r;
    simpl; try reflexivity; apply app_nil_r.
Qed.

Lemma X14_served_back_witness :
  exists row s',
    route (createGame ApiCreate (createRequest admin 120 185)) [] openWorld
      = (Sent (json 201 (GameJson (Some row))), s') /\
    route (getOne ApiSql (mkRequest None "4" [])) [] s'
      = (Sent (json 200 (GameJson (Some row))), s') /\
    listed ApiList s' = listed ApiList openWorld ++ [row] /\
    listed ApiSqlList s' = listed ApiSqlList openWorld ++ [row] /\
    (ApiCreate = ApiCreate ->
     listed ApiActive s' = listed ApiActive openWorld ++ [row]) /\
    (ApiCreate = GamesCreate ->
     listed ApiSqlActive s' = listed ApiSqlActive openWorld ++ [row]) /\
    (ApiCreate <> GamesCreate ->
     listed ApiSqlActive s' = listed ApiSqlActive openWorld /\
     listed GamesActive s' = listed GamesActive openWorld).
Proof.
  apply (X14_a_created_game_is_served_back
           ApiCreate (createRequest admin 120 185) openWorld
           (mkCreate "India" "Australia" None "2025-03-01T09:30" 120 185 None)
           ApiSql (mkRequest None "4" [])); reflexivity.
Defined.
